(** * Financial-data normalisation and analysis pipeline

    A shallow embedding of [presentation_builder/logic/api_handler.py] and
    [presentation_builder/logic/financial_analysis.py], followed by the
    properties established about them.

    Conventions of the embedding:
    - Python [str] values are [string]s (byte strings; the tokens, column
      names and tickers handled here are ASCII);
    - Python [float] / numpy [float64] values are IEEE-754 binary64 numbers,
      represented by [spec_float] with precision 53 and maximal exponent 1024;
    - Python [int] values are [Z];
    - a [dict] used as a map is a [gmap]; a table whose column order matters
      is an association list;
    - a [try]/[except] is a computation in [result]; code that mutates a
      DataFrame works on an explicit store of frames addressed by reference. *)

From Stdlib Require Import ZArith String Ascii List Lia Bool.
From Stdlib Require Import Numbers.DecimalString Numbers.DecimalPos.
From Stdlib Require Import Floats.SpecFloat.
From stdpp Require Import gmap strings list sorting.

Local Open Scope Z_scope.
Local Open Scope string_scope.
Local Open Scope list_scope.

(* ===================================================================== *)
(** * Python strings *)
(* ===================================================================== *)

Module Py.

(** [len(s) > 0], the truth value of a string. *)
Definition truthy (s : string) : bool :=
  match s with EmptyString => false | String _ _ => true end.

(** [s.startswith(p)] *)
Definition startswith (p s : string) : bool := String.prefix p s.

(** [sub in s] *)
Fixpoint contains (sub s : string) : bool :=
  String.prefix sub s ||
  match s with
  | EmptyString => false
  | String _ s' => contains sub s'
  end.

(** [s[n:]] *)
Fixpoint drop (n : nat) (s : string) : string :=
  match n, s with
  | O, _ => s
  | S n', String _ s' => drop n' s'
  | S _, EmptyString => EmptyString
  end.

Definition is_digit (c : ascii) : bool :=
  let n := nat_of_ascii c in (48 <=? n)%nat && (n <=? 57)%nat.

Fixpoint all_digits (s : string) : bool :=
  match s with
  | EmptyString => true
  | String c s' => is_digit c && all_digits s'
  end.

(** [s.isdigit()]: at least one character, and all of them digits. *)
Definition isdigit (s : string) : bool := truthy s && all_digits s.

Definition digit_val (c : ascii) : Z := Z.of_nat (nat_of_ascii c) - 48.

Fixpoint digits_value (acc : Z) (s : string) : Z :=
  match s with
  | EmptyString => acc
  | String c s' => digits_value (10 * acc + digit_val c) s'
  end.

(** CPython's default bound on the number of digits [int] converts. *)
Definition int_max_str_digits : nat := 4300.

(** [int(s)] on a string for which [s.isdigit()] holds; [None] stands for
    the [ValueError] raised on a digit string above the conversion limit. *)
Definition int_of_digits (s : string) : option Z :=
  if (String.length s <=? int_max_str_digits)%nat
  then Some (digits_value 0 s) else None.

(** [str(n)] for an integer. *)
Definition str (n : Z) : string := NilEmpty.string_of_int (Z.to_int n).

(** [s.split(sep)] for a one-character separator. *)
Fixpoint split (sep : ascii) (s : string) : list string :=
  match s with
  | EmptyString => [EmptyString]
  | String c s' =>
      if Ascii.eqb c sep then EmptyString :: split sep s'
      else match split sep s' with
           | h :: t => String c h :: t
           | [] => [String c EmptyString]
           end
  end.

(** [s.replace(a, b)] for one-character [a] and [b]. *)
Fixpoint replace_char (a b : ascii) (s : string) : string :=
  match s with
  | EmptyString => EmptyString
  | String c s' =>
      String (if Ascii.eqb c a then b else c) (replace_char a b s')
  end.

(** [s.replace(a, '')] for a one-character [a]. *)
Fixpoint remove_char (a : ascii) (s : string) : string :=
  match s with
  | EmptyString => EmptyString
  | String c s' =>
      if Ascii.eqb c a then remove_char a s' else String c (remove_char a s')
  end.

(** The ASCII characters [str.isspace] accepts. *)
Definition is_space (c : ascii) : bool :=
  let n := nat_of_ascii c in
  ((9 <=? n)%nat && (n <=? 13)%nat) || ((28 <=? n)%nat && (n <=? 32)%nat).

Fixpoint lstrip (s : string) : string :=
  match s with
  | EmptyString => EmptyString
  | String c s' => if is_space c then lstrip s' else s
  end.

Fixpoint rstrip (s : string) : string :=
  match s with
  | EmptyString => EmptyString
  | String c s' =>
      match rstrip s' with
      | EmptyString => if is_space c then EmptyString else String c EmptyString
      | r => String c r
      end
  end.

(** [s.strip()] *)
Definition strip (s : string) : string := rstrip (lstrip s).

Definition upper_char (c : ascii) : ascii :=
  let n := nat_of_ascii c in
  if (97 <=? n)%nat && (n <=? 122)%nat then ascii_of_nat (n - 32) else c.

Definition lower_char (c : ascii) : ascii :=
  let n := nat_of_ascii c in
  if (65 <=? n)%nat && (n <=? 90)%nat then ascii_of_nat (n + 32) else c.

Fixpoint map_chars (f : ascii -> ascii) (s : string) : string :=
  match s with
  | EmptyString => EmptyString
  | String c s' => String (f c) (map_chars f s')
  end.

(** [s.upper()] and [s.lower()] *)
Definition upper : string -> string := map_chars upper_char.
Definition lower : string -> string := map_chars lower_char.

(** [s in l] for a list of strings. *)
Definition mem (s : string) (l : list string) : bool :=
  existsb (String.eqb s) l.

(** [range(a, b)] *)
Definition range (a b : Z) : list Z := seqZ a (b - a).

End Py.

(* ===================================================================== *)
(** * Binary64 floating-point numbers *)
(* ===================================================================== *)

Module F64.

Definition float : Type := spec_float.

Definition prec : Z := 53.
Definition emax : Z := 1024.

(** [float(n)] for an integer. *)
Definition of_Z (n : Z) : float := binary_normalize prec emax n 0 false.

Definition nan : float := S754_nan.

Definition add : float -> float -> float := SFadd prec emax.
Definition sub : float -> float -> float := SFsub prec emax.
Definition mul : float -> float -> float := SFmul prec emax.
Definition div : float -> float -> float := SFdiv prec emax.
Definition abs : float -> float := SFabs.

(** [x < y], [x > y], [x == y], [x != y] *)
Definition lt (x y : float) : bool := SFltb x y.
Definition gt (x y : float) : bool := SFltb y x.
Definition le (x y : float) : bool := SFleb x y.
Definition eq (x y : float) : bool := SFeqb x y.
Definition ne (x y : float) : bool := negb (SFeqb x y).

Definition is_nan (x : float) : bool :=
  match x with S754_nan => true | _ => false end.

Definition is_inf (x : float) : bool :=
  match x with S754_infinity _ => true | _ => false end.

(** A decimal literal [m / 10^k], both exactly representable. *)
Definition decimal (m : Z) (k : Z) : float := div (of_Z m) (of_Z (10 ^ k)).

End F64.

(* ===================================================================== *)
(** * api_handler.py *)
(* ===================================================================== *)

Module Api.

(** ** The transport collaborator *)

(** The [properties] object of a sub-request. *)
Record Properties := {
  periodType : string;
  numberOfPeriods : option Z
}.

(** One entry of [inputRequests]. *)
Record Request := {
  function : string;
  identifier : string;
  mnemonic : string;
  properties : option Properties
}.

(** A JSON scalar of a reply: a number, a string, or [null].  The numbers
    of a reply are floats (JSON numbers such as [394328.0]); an integer
    literal, which Python and pandas hold as an [int] or an [int64], is
    not among the cells of this model.  In a DataFrame a cell holds such a
    scalar as well: a float (NaN for a key absent from a record), a string
    or [None]. *)
Inductive cell :=
| CNum (f : F64.float)
| CStr (s : string)
| CNone.

(** One element of [GDSSDKResponse]: the values [parse_to_table] reads with
    [row.get], defaults filled in. *)
Record Reply := {
  Identifier : cell;
  Mnemonic : cell;
  Headers : list string;
  periodtype : cell;
  Rows : list (list cell)
}.

Inductive exn :=
| ValueError (msg : string)
| HTTPError
| OSError.

Inductive result (A : Type) :=
| Ok (a : A)
| Raise (e : exn).
Arguments Ok {A} a.
Arguments Raise {A} e.

Definition bind {A B} (m : result A) (f : A -> result B) : result B :=
  match m with
  | Ok a => f a
  | Raise e => Raise e
  end.

Notation "x <- m ;; k" := (bind m (fun x => k))
  (at level 100, m at next level, right associativity).

(** What a run finds around it: the process environment, the clock, the
    token endpoint ([ciq_token]), the data endpoint (one POST of a batch
    and the [GDSSDKResponse] list of its body; [None] when the request,
    [raise_for_status] or the decoding raises) and the file system
    ([to_csv path] tells whether a table can be written to [path]; when it
    cannot, [DataFrame.to_csv] raises an [OSError]). *)
Record Env := {
  getenv : string -> option string;
  now_year : Z;
  token_for : string -> string -> option string;
  post : string -> list Request -> option (list Reply);
  to_csv : string -> bool
}.

Definition BATCH_SIZE : nat := 100.

(** [_need] *)
Definition _need (env : Env) (key : string) : result string :=
  match getenv env key with
  | Some val => if Py.truthy val then Ok val
                else Raise (ValueError ("Missing environment variable: " +:+ key))
  | None => Raise (ValueError ("Missing environment variable: " +:+ key))
  end.

(** [ciq_token], the cache of the transport left out. *)
Definition ciq_token (env : Env) (user pwd : string) : result string :=
  match token_for env user pwd with
  | Some t => Ok t
  | None => Raise HTTPError
  end.

(** ** Request Planner: [build_requests] *)

Definition gdsp (cid mn : string) (pt : option string) : Request :=
  {| function := "GDSP"; identifier := cid; mnemonic := mn;
     properties :=
       match pt with
       | Some p => Some {| periodType := p; numberOfPeriods := None |}
       | None => None
       end |}.

Definition financial_mnemonics : list string :=
  ["IQ_TOTAL_REV"; "IQ_NI"; "IQ_EBITDA"; "IQ_EBIT";
   "IQ_TOTAL_ASSETS"; "IQ_TOTAL_LIAB"; "IQ_CASH_EQUIV"].

Definition requests_for_offset (current_year : Z) (cid mn : string)
    (offset : Z) : list Request :=
  if (offset <? 0)%Z then
    [ gdsp cid mn (Some ("IQ_FY" +:+ Py.str offset));
      gdsp cid mn (Some ("FY" +:+ Py.str (current_year + offset))) ]
  else
    [ gdsp cid mn (Some ("IQ_FY+" +:+ Py.str offset)) ].

Definition requests_for_financial (current_year years : Z)
    (cid mn : string) : list Request :=
  {| function := "GDSHE"; identifier := cid; mnemonic := mn;
     properties := Some {| periodType := "IQ_FY";
                           numberOfPeriods := Some (years + 2) |} |}
  :: concat (map (requests_for_offset current_year cid mn)
                 (Py.range (- (years - 1)) 2)).

Definition requests_for_company (current_year years : Z)
    (cid : string) : list Request :=
  [ gdsp cid "IQ_COMPANY_NAME" None;
    gdsp cid "IQ_COMPANY_ID" None;
    gdsp cid "IQ_ULT_PARENT" None ]
  ++ concat (map (requests_for_financial current_year years cid)
                 financial_mnemonics)
  ++ map (fun mn => gdsp cid mn None)
         ["IQ_MARKETCAP"; "IQ_PRICE_CLOSE"; "IQ_PE_RATIO"]
  ++ concat (map (fun mn =>
                    map (fun i => gdsp cid mn (Some ("IQ_FY+" +:+ Py.str i)))
                        (Py.range 1 (years + 1)))
                 ["IQ_REVENUE_EST_CIQ"; "IQ_EBITDA_EST_CIQ"; "IQ_EPS_EST_CIQ"]).

Definition build_requests (env : Env) (company_ids : list string)
    (years : Z) : list Request :=
  concat (map (requests_for_company (now_year env) years) company_ids).

(** ** Transport: [ciq_fetch] *)

(** The slices [input_requests[i : i + BATCH_SIZE]] for
    [i in range(0, len(input_requests), BATCH_SIZE)]. *)
Fixpoint batches (fuel : nat) (l : list Request) : list (list Request) :=
  match fuel, l with
  | O, _ => []
  | _, [] => []
  | S fuel', _ => take BATCH_SIZE l :: batches fuel' (List.skipn BATCH_SIZE l)
  end.

Fixpoint post_all (env : Env) (token : string) (bs : list (list Request))
    (replies : list Reply) : result (list Reply) :=
  match bs with
  | [] => Ok replies
  | b :: bs' =>
      match post env token b with
      | Some r => post_all env token bs' (replies ++ r)
      | None => Raise HTTPError
      end
  end.

Definition ciq_fetch (env : Env) (input_requests : list Request)
    : result (list Reply) :=
  user <- _need env "CIQ_USER" ;;
  pwd <- _need env "CIQ_PASS" ;;
  token <- ciq_token env user pwd ;;
  post_all env token (batches (List.length input_requests) input_requests) [].

(** ** Response Flattener: [parse_to_table] *)

(** A Python [dict] with string keys whose order is observed. *)
Definition record : Type := list (string * cell).

Fixpoint dict_set (k : string) (v : cell) (d : record) : record :=
  match d with
  | [] => [(k, v)]
  | (k', v') :: d' =>
      if String.eqb k' k then (k, v) :: d' else (k', v') :: dict_set k v d'
  end.

(** [d.update(e)] *)
Definition dict_update (d e : record) : record :=
  fold_left (fun acc kv => dict_set (fst kv) (snd kv) acc) e d.

(** [dict(zip(headers, cells))] *)
Definition dict_zip (headers : list string) (cells : list cell) : record :=
  dict_update [] (combine headers cells).

Fixpoint dict_get (k : string) (d : record) : option cell :=
  match d with
  | [] => None
  | (k', v) :: d' => if String.eqb k' k then Some v else dict_get k d'
  end.

Definition flatten_reply (row : Reply) : list record :=
  map (fun entry =>
         dict_update [("Identifier", Identifier row);
                      ("Mnemonic", Mnemonic row);
                      ("Period", periodtype row)]
                     (dict_zip (Headers row) entry))
      (Rows row).

(** A DataFrame built by [from_records], by the records it is built
    from: the columns are the keys of the records in order of first
    appearance. *)
Record Table := {
  columns : list string;
  records : list record
}.

Definition add_columns (cols : list string) (r : record) : list string :=
  fold_left (fun acc kv =>
               if Py.mem (fst kv) acc then acc else acc ++ [fst kv])
            r cols.

Definition from_records (rs : list record) : Table :=
  {| columns := fold_left add_columns rs []; records := rs |}.

Definition parse_to_table (rows : list Reply) : Table :=
  from_records (concat (map flatten_reply rows)).

(** [pd.DataFrame()] *)
Definition empty_table : Table := {| columns := []; records := [] |}.

(** [df.empty] *)
Definition table_empty (t : Table) : bool :=
  match records t with [] => true | _ => false end.

(** [row[col]] for a column of the table. *)
Definition at_col (r : record) (col : string) : cell :=
  match dict_get col r with
  | Some v => v
  | None => CNum F64.nan
  end.

(** The type [from_records] infers for a column.  A column in which some
    record holds a string keeps the objects of the records as they are;
    so does a column in which every record holds [None].  Every other
    column (numbers, with [None] or absent keys among them) is a column
    of floats. *)
Definition holds_string (col : string) (rs : list record) : bool :=
  existsb (fun r => match dict_get col r with
                    | Some (CStr _) => true
                    | _ => false
                    end) rs.

Definition all_none (col : string) (rs : list record) : bool :=
  forallb (fun r => match dict_get col r with
                    | Some CNone => true
                    | _ => false
                    end) rs.

Definition float_column (col : string) (rs : list record) : bool :=
  negb (holds_string col rs) && negb (all_none col rs).

(** The cell of the frame in the row of record [r] and column [col]: that
    of the record, but NaN where the record has no such key, and NaN for
    [None] in a column of floats. *)
Definition frame_cell (rs : list record) (r : record) (col : string)
    : cell :=
  match dict_get col r with
  | Some CNone => if float_column col rs then CNum F64.nan else CNone
  | Some v => v
  | None => CNum F64.nan
  end.

(** A row of the frame ([df.iloc[i]], or a row of [df.iterrows()]): a
    cell for each column. *)
Definition frame_row (t : Table) (r : record) : record :=
  map (fun col => (col, frame_cell (records t) r col)) (columns t).

Definition frame_rows (t : Table) : list record :=
  map (frame_row t) (records t).

(** [raw_df[raw_df['Mnemonic'] == m]] *)
Definition rows_of_mnemonic (m : string) (t : Table) : list record :=
  List.filter (fun r => match at_col r "Mnemonic" with
                   | CStr s => String.eqb s m
                   | _ => false
                   end) (frame_rows t).

(** ** Period Resolver *)

Definition metadata_columns : list string :=
  ["Mnemonic"; "Identifier"; "Period"].

Definition hyphen : ascii := "-"%char.
Definition plus : ascii := "+"%char.
Definition slash : ascii := "/"%char.
Definition comma : ascii := ","%char.

(** [parts[1].isdigit()] guarded by [len(parts) > 1], then the signed
    offset: the body of the two relative branches. *)
Definition relative_year (current_year : Z) (negative : bool)
    (parts : list string) : option Z :=
  match parts with
  | _ :: p1 :: _ =>
      if Py.isdigit p1 then
        match Py.int_of_digits p1 with
        | Some n =>
            let offset := if negative then - n else n in
            Some (current_year + offset)
        | None => None
        end
      else None
  | _ => None
  end.

(** The conditions of the [if]/[elif] chain, in its order: an absolute
    token [FY] + digits, a relative token with [-], one with [+], and the
    tokens of the current period. *)
Definition is_absolute (period : string) : bool :=
  Py.truthy period && Py.startswith "FY" period
  && (2 <? String.length period)%nat
  && Py.isdigit (Py.drop 2 period).

Definition is_relative_past (period : string) : bool :=
  Py.truthy period && Py.contains "FY" period && Py.contains "-" period.

Definition is_relative_future (period : string) : bool :=
  Py.truthy period && Py.contains "FY" period && Py.contains "+" period.

Definition is_current (period : string) : bool :=
  String.eqb period "IQ_FY-0" || String.eqb period "IQ_FY+0"
  || String.eqb period "IQ_FY".

(** The [try] block that reads the year off the period token.  [None] is
    Python's [None], also after an exception: a cell that is not a string
    raises in every branch that looks at it. *)
Definition year_from_period (current_year : Z) (period : cell) : option Z :=
  match period with
  | CStr period =>
      if is_absolute period
      then Py.int_of_digits (Py.drop 2 period)
      else if is_relative_past period
      then relative_year current_year true (Py.split hyphen period)
      else if is_relative_future period
      then relative_year current_year false (Py.split plus period)
      else if is_current period
      then Some current_year
      else
        List.find (fun year_candidate =>
                     Py.contains (Py.str year_candidate) period)
                  (Py.range (current_year - 10) (current_year + 2))
  | _ => None
  end.

(** [not year] *)
Definition no_year (year : option Z) : bool :=
  match year with
  | None => true
  | Some y => (y =? 0)%Z
  end.

Definition date_part_ok (part : string) : bool :=
  Py.isdigit part && (String.length part =? 4)%nat &&
  match Py.int_of_digits part with
  | Some n => (2000 <=? n)%Z && (n <=? 2030)%Z
  | None => false
  end.

(** The scan of the sibling columns for a date-like string: the inner loop
    stops at the first part that is a year, the outer one runs on, so the
    last column that has one decides. *)
Definition year_from_dates (cols : list string) (row : record)
    (year : option Z) : option Z :=
  fold_left
    (fun year col =>
       match at_col row col with
       | CStr val =>
           if Py.contains "/" val || Py.contains "-" val then
             match List.find date_part_ok
                     (Py.split hyphen (Py.replace_char slash hyphen val)) with
             | Some part =>
                 match Py.int_of_digits part with
                 | Some n => Some n
                 | None => year
                 end
             | None => year
             end
           else year
       | _ => year
       end)
    cols year.

(** The year a row is filed under, before the test against the window. *)
Definition resolve_year (current_year : Z) (cols : list string)
    (row : record) : option Z :=
  let period := if Py.mem "Period" cols then at_col row "Period"
                else CStr "" in
  let year := year_from_period current_year period in
  if no_year year then year_from_dates cols row year else year.

(** ** Unit Normalizer *)

Definition normalize (mnemonic : string) (value : F64.float) : F64.float :=
  if String.eqb mnemonic "IQ_PE_RATIO" || String.eqb mnemonic "IQ_PRICE_CLOSE"
  then value
  else if String.eqb mnemonic "IQ_MARKETCAP" && F64.gt value (F64.of_Z 1000)
  then
    if F64.gt value (F64.of_Z 1000000) then F64.mul value (F64.of_Z 1000)
    else if F64.lt value (F64.of_Z 100) then F64.mul value (F64.of_Z 1000000)
    else value
  else if F64.gt (F64.abs value) (F64.of_Z 1000000)
          && negb (Py.mem mnemonic ["IQ_PE_RATIO"; "IQ_PRICE_CLOSE"])
  then F64.div value (F64.of_Z 1000000)
  else value.

(** ** Value Extractor *)

Section Extraction.

(** Python's [float] on a string, [None] for its [ValueError]. *)
Variable py_float : string -> option F64.float.

(** [float(val.replace(',', '').strip())] *)
Definition clean_float (val : string) : option F64.float :=
  py_float (Py.strip (Py.remove_char comma val)).

(** [pd.isna] *)
Definition isna (c : cell) : bool :=
  match c with
  | CNum f => F64.is_nan f
  | CStr _ => false
  | CNone => true
  end.

(** The search for a column whose cell in the first row is numeric. *)
Fixpoint scan_first_row (first_row : record) (cols : list string)
    : option string :=
  match cols with
  | [] => None
  | col :: cols' =>
      if Py.mem col metadata_columns then scan_first_row first_row cols'
      else match at_col first_row col with
           | CNum _ => Some col
           | CStr val =>
               match clean_float val with
               | Some _ => Some col
               | None => scan_first_row first_row cols'
               end
           | CNone => scan_first_row first_row cols'
           end
  end.

(** The choice of [value_col] from the first row of a metric. *)
Definition find_value_col (mnemonic : string) (cols : list string)
    (first_row : record) : option string :=
  if Py.mem mnemonic financial_mnemonics then
    if Py.mem "Value" cols then Some "Value"
    else scan_first_row first_row cols
  else None.

(** [if value_col:] *)
Definition col_truthy (value_col : option string) : bool :=
  match value_col with
  | Some c => Py.truthy c
  | None => false
  end.

Definition unavailable : list string :=
  ["n/a"; "data unavailable"; "na"; ""].

(** The first attempt, on the identified value column. *)
Definition primary_value (raw_value : cell) : option F64.float :=
  if negb (isna raw_value) then
    match raw_value with
    | CNum f => Some f
    | CStr s =>
        if Py.contains "/" s || Py.contains "-" s
           || Py.mem (Py.lower s) unavailable
        then None
        else clean_float s
    | CNone => None
    end
  else None.

(** What one alternative column yields. *)
Definition alternative_value (raw_value : cell) : option F64.float :=
  if isna raw_value
     || match raw_value with CStr s => String.eqb s "" | _ => false end
  then None
  else match raw_value with
       | CNum f => Some f
       | CStr s =>
           if Py.contains "/" s || Py.contains "-" s
              || (String.length s <? 2)%nat
           then None
           else clean_float s
       | CNone => None
       end.

(** The loop over the other columns, left at the first value. *)
Fixpoint scan_alternatives (value_col : string) (row : record)
    (cols : list string) : option F64.float :=
  match cols with
  | [] => None
  | col :: cols' =>
      if Py.mem col metadata_columns || String.eqb col value_col
      then scan_alternatives value_col row cols'
      else match alternative_value (at_col row col) with
           | Some v => Some v
           | None => scan_alternatives value_col row cols'
           end
  end.

(** The columns the loop over the alternatives looks at, in its order. *)
Definition alternative_columns (value_col : string) (cols : list string)
    : list string :=
  List.filter (fun col => negb (Py.mem col metadata_columns
                                || String.eqb col value_col)) cols.

(** The value of a row, given the value column of its metric. *)
Definition extract_value (value_col : string) (cols : list string)
    (row : record) : option F64.float :=
  match primary_value (at_col row value_col) with
  | Some v => Some v
  | None => scan_alternatives value_col row cols
  end.

(** The Value Extractor on one record of a metric whose first record is
    [first_row]. *)
Definition value_of_record (mnemonic : string) (cols : list string)
    (first_row row : record) : option F64.float :=
  let value_col := find_value_col mnemonic cols first_row in
  if col_truthy value_col then
    match value_col with
    | Some c => extract_value c cols row
    | None => None
    end
  else None.

(** ** Canonical Assembler *)

(** One row of the output: a [dict] with the four identity keys and the
    friendly metric names written so far. *)
Record YearRecord := {
  Year : Z;
  Date : string;
  Ticker : string;
  Company : string;
  metrics : gmap string F64.float
}.

(** [financial_data[year][name] = value] on the row itself. *)
Definition set_metric (name : string) (value : F64.float)
    (r : YearRecord) : YearRecord :=
  {| Year := Year r; Date := Date r; Ticker := Ticker r;
     Company := Company r; metrics := <[name := value]> (metrics r) |}.

(** The [metrics] dictionary, in its order of iteration. *)
Definition metric_names : list (string * string) :=
  [ ("IQ_TOTAL_REV", "Revenue");
    ("IQ_NI", "Net Income");
    ("IQ_EBITDA", "EBITDA");
    ("IQ_EBIT", "EBIT");
    ("IQ_TOTAL_ASSETS", "Total Assets");
    ("IQ_TOTAL_LIAB", "Total Liabilities");
    ("IQ_CASH_EQUIV", "Cash & Equivalents");
    ("IQ_PE_RATIO", "P/E Ratio");
    ("IQ_MARKETCAP", "Market Cap");
    ("IQ_PRICE_CLOSE", "Stock Price") ].

(** [n / 1_000_000] *)
Definition per_million (n : Z) : F64.float :=
  F64.div (F64.of_Z n) (F64.of_Z 1000000).

Definition apple_historical : list (Z * list (string * F64.float)) :=
  [ (2021, [ ("Revenue", per_million 365817);
             ("Net Income", per_million 94680);
             ("EBITDA", per_million 120233);
             ("EBIT", per_million 108949);
             ("Total Assets", per_million 351002);
             ("Total Liabilities", per_million 287912);
             ("Cash & Equivalents", per_million 34940) ]);
    (2022, [ ("Revenue", per_million 394328);
             ("Net Income", per_million 99803);
             ("EBITDA", per_million 130541);
             ("EBIT", per_million 119437);
             ("Total Assets", per_million 352755);
             ("Total Liabilities", per_million 302083);
             ("Cash & Equivalents", per_million 23646) ]);
    (2023, [ ("Revenue", per_million 383285);
             ("Net Income", per_million 96995);
             ("EBITDA", per_million 125937);
             ("EBIT", per_million 114300);
             ("Total Assets", per_million 355610);
             ("Total Liabilities", per_million 290437);
             ("Cash & Equivalents", per_million 29965) ]);
    (2024, [ ("Revenue", F64.decimal 3857 1);
             ("Net Income", F64.decimal 973 1);
             ("EBITDA", F64.decimal 1265 1);
             ("EBIT", F64.decimal 1151 1);
             ("Total Assets", F64.decimal 3582 1);
             ("Total Liabilities", F64.decimal 2918 1);
             ("Cash & Equivalents", F64.decimal 302 1) ]) ].

Fixpoint historical_for (year : Z)
    (table : list (Z * list (string * F64.float)))
    : option (list (string * F64.float)) :=
  match table with
  | [] => None
  | (y, kv) :: table' =>
      if (y =? year)%Z then Some kv else historical_for year table'
  end.

Definition identity_record (ticker company_name : string) (year : Z)
    : YearRecord :=
  {| Year := year;
     Date := Py.str year +:+ "-12-31";
     Ticker := Py.upper ticker;
     Company := company_name;
     metrics := ∅ |}.

(** The body of the loop that initialises [financial_data]. *)
Definition init_record (ticker company_name : string) (year : Z)
    : YearRecord :=
  let r := identity_record ticker company_name year in
  if String.eqb (Py.upper ticker) "AAPL" then
    match historical_for year apple_historical with
    | Some kv =>
        fold_left (fun r mv => set_metric (fst mv) (snd mv) r) kv r
    | None => r
    end
  else r.

Definition init_data (ticker company_name : string)
    (historical_years : list Z) : gmap Z YearRecord :=
  fold_left (fun fd year => <[year := init_record ticker company_name year]> fd)
            historical_years ∅.

(** The lookup of the display name among the company-name rows. *)
Fixpoint first_name (first : record) (cols : list string)
    : option string :=
  match cols with
  | [] => None
  | col :: cols' =>
      match at_col first col with
      | CStr val =>
          if Py.truthy val && negb (Py.mem col metadata_columns)
          then Some val else first_name first cols'
      | _ => first_name first cols'
      end
  end.

Definition company_name_of (ticker : string) (raw_df : Table) : string :=
  match rows_of_mnemonic "IQ_COMPANY_NAME" raw_df with
  | [] => Py.upper ticker
  | first :: _ =>
      match first_name first (columns raw_df) with
      | Some val => val
      | None => Py.upper ticker
      end
  end.

(** [year in financial_data] *)
Definition has_year (fd : gmap Z YearRecord) (y : Z) : bool :=
  match fd !! y with Some _ => true | None => false end.

(** The body of the loop over the rows of one metric. *)
Definition process_row (current_year : Z) (cols : list string)
    (mnemonic friendly_name value_col : string)
    (fd : gmap Z YearRecord) (row : record) : gmap Z YearRecord :=
  let year := resolve_year current_year cols row in
  match year with
  | Some y =>
      if no_year year || negb (has_year fd y) then fd
      else match extract_value value_col cols row with
           | Some value =>
               alter (set_metric friendly_name (normalize mnemonic value))
                     y fd
           | None => fd
           end
  | None => fd
  end.

(** The body of the loop over [metrics.items()]. *)
Definition process_metric (current_year : Z) (raw_df : Table)
    (fd : gmap Z YearRecord) (metric : string * string)
    : gmap Z YearRecord :=
  let mnemonic := fst metric in
  let friendly_name := snd metric in
  match rows_of_mnemonic mnemonic raw_df with
  | [] => fd
  | (first_row :: _) as metric_rows =>
      let value_col := find_value_col mnemonic (columns raw_df) first_row in
      if col_truthy value_col then
        match value_col with
        | Some c =>
            fold_left (process_row current_year (columns raw_df)
                         mnemonic friendly_name c)
                      metric_rows fd
        | None => fd
        end
      else fd
  end.

(** [[financial_data[year] for year in sorted(financial_data.keys())]],
    the rows of the resulting DataFrame.  A metric a row does not hold is
    a missing cell of the frame, before and after [fillna(pd.NA)]. *)
Definition result_rows (fd : gmap Z YearRecord) : list YearRecord :=
  omap (fun year => fd !! year) (merge_sort Z.le (map fst (map_to_list fd))).

(** The rows of the table write [v] under [name] for year [y]: some row
    of a metric with that friendly name resolves to [y] and yields, from
    the value column chosen for the metric, a value that normalises to
    [v]. *)
Definition written_by (current_year : Z) (raw_df : Table) (y : Z)
    (name : string) (v : F64.float) : Prop :=
  exists metric first_row rest c row value,
    metric ∈ metric_names
    /\ snd metric = name
    /\ rows_of_mnemonic (fst metric) raw_df = first_row :: rest
    /\ find_value_col (fst metric) (columns raw_df) first_row = Some c
    /\ row ∈ first_row :: rest
    /\ resolve_year current_year (columns raw_df) row = Some y
    /\ extract_value c (columns raw_df) row = Some value
    /\ v = normalize (fst metric) value.

(** Data was extracted for year [y]. *)
Definition extracted_for (current_year : Z) (raw_df : Table) (y : Z)
    : Prop :=
  exists name v, written_by current_year raw_df y name v.

(** The identity fields of two rows agree. *)
Definition same_identity (r r' : YearRecord) : Prop :=
  Year r' = Year r /\ Date r' = Date r /\ Ticker r' = Ticker r
  /\ Company r' = Company r.

(** How the entry of one year may change while rows are processed: it
    stays present or absent and keeps its identity fields; a metric it
    holds afterwards was there before or is one of the [written] ones;
    and its metrics are as before when nothing is [written]. *)
Definition evolves (written : string -> F64.float -> Prop)
    (o o' : option YearRecord) : Prop :=
  match o, o' with
  | None, None => True
  | Some r, Some r' =>
      same_identity r r'
      /\ (forall name v, metrics r' !! name = Some v ->
            metrics r !! name = Some v \/ written name v)
      /\ ((forall name v, ~ written name v) -> metrics r' = metrics r)
  | _, _ => False
  end.

Definition Evolves (written : Z -> string -> F64.float -> Prop)
    (fd fd' : gmap Z YearRecord) : Prop :=
  forall y, evolves (written y) (fd !! y) (fd' !! y).

(** The normalisation of a non-empty raw table into the yearly rows. *)
Definition assemble (current_year : Z) (ticker : string) (years : Z)
    (raw_df : Table) : list YearRecord :=
  let company_name := company_name_of ticker raw_df in
  let historical_years :=
    Py.range (current_year - years + 1) (current_year + 1) in
  let financial_data := init_data ticker company_name historical_years in
  result_rows
    (fold_left (process_metric current_year raw_df) metric_names
               financial_data).

(** [f"{ticker}_raw_data.csv"] *)
Definition raw_csv_path (ticker : string) : string :=
  ticker +:+ "_raw_data.csv".

(** The [try] block of [fetch_company_by_ticker], its printing left
    out.  The raw table is written to a file before it is normalised,
    and a failure to write it is an exception like any other. *)
Definition fetch_company_body (env : Env) (ticker : string) (years : Z)
    : result (list YearRecord) :=
  let company_ids := [Py.upper (Py.strip ticker)] in
  let requests := build_requests env company_ids years in
  rows <- ciq_fetch env requests ;;
  match rows with
  | [] => Ok []
  | _ =>
      let raw_df := parse_to_table rows in
      if table_empty raw_df then Ok []
      else if to_csv env (raw_csv_path ticker)
      then Ok (assemble (now_year env) ticker years raw_df)
      else Raise OSError
  end.

(** [fetch_company_by_ticker]: the yearly rows, or the empty DataFrame. *)
Definition fetch_company_by_ticker (env : Env) (ticker : string)
    (years : Z) : list YearRecord :=
  match fetch_company_body env ticker years with
  | Ok df => df
  | Raise _ => []
  end.

End Extraction.

(** [get_company_id_from_ticker] *)
Definition get_company_id_from_ticker (ticker : string) : option string :=
  Some ticker.

(** [fetch_data_from_api] *)
Definition fetch_data_from_api (env : Env) (company_ids : list string)
    (years : Z) : Table :=
  match (api_response <- ciq_fetch env (build_requests env company_ids years) ;;
         Ok (parse_to_table api_response)) with
  | Ok df => df
  | Raise _ => empty_table
  end.

(** A reader of plain decimal numerals ([-12.5], [1234]): Python's [float]
    restricted to an optional sign, digits and an optional fraction, exact
    while the digits stay below [2^53] and the fraction within 22 places. *)
Fixpoint decimal_digits (acc : Z) (places : option Z) (s : string)
    : option (Z * Z) :=
  match s with
  | EmptyString =>
      Some (acc, match places with Some k => k | None => 0 end)
  | String c s' =>
      if Py.is_digit c then
        decimal_digits (10 * acc + Py.digit_val c)
                       (match places with Some k => Some (k + 1) | None => None end)
                       s'
      else if Ascii.eqb c "."%char then
        match places with
        | None => decimal_digits acc (Some 0) s'
        | Some _ => None
        end
      else None
  end.

Definition has_digit (s : string) : bool :=
  existsb Py.is_digit (list_ascii_of_string s).

Definition decimal_float (s : string) : option F64.float :=
  let s := Py.strip s in
  let '(neg, body) :=
    match s with
    | String "-"%char s' => (true, s')
    | String "+"%char s' => (false, s')
    | _ => (false, s)
    end in
  if has_digit body then
    match decimal_digits 0 None body with
    | Some (m, k) =>
        let x := F64.decimal m k in
        Some (if neg then SFopp x else x)
    | None => None
    end
  else None.

End Api.

(* ===================================================================== *)
(** * financial_analysis.py *)
(* ===================================================================== *)

Module Analysis.

(** ** DataFrames in a store *)

(** A numeric column: a column of floats (dtype [float64]).  A column of
    integers ([int64]), whose arithmetic wraps around, is not among the
    columns of this model. *)
Definition Series : Type := list F64.float.

(** The numeric view of a DataFrame: the number of rows and the columns in
    order.  Its rows carry distinct index labels and its columns distinct
    names, as in every frame this application builds, so a label names one
    row and a name one column. *)
Record DataFrame := {
  nrows : nat;
  columns : list (string * Series)
}.

(** DataFrames are objects: a variable holds a reference into the store. *)
Definition ref : Type := nat.
Definition store : Type := list DataFrame.

Inductive exn :=
| KeyError (key : string)
| ValueError (msg : string).

Inductive outcome (A : Type) :=
| Ok (a : A)
| Raise (e : exn).
Arguments Ok {A} a.
Arguments Raise {A} e.

(** A computation reads and writes the store, and returns or raises. *)
Definition M (A : Type) : Type := store -> outcome A * store.

Definition ret {A} (a : A) : M A := fun st => (Ok a, st).

Definition raise {A} (e : exn) : M A := fun st => (Raise e, st).

Definition bind {A B} (m : M A) (f : A -> M B) : M B :=
  fun st =>
    match m st with
    | (Ok a, st') => f a st'
    | (Raise e, st') => (Raise e, st')
    end.

Notation "x <- m ;; k" := (bind m (fun x => k))
  (at level 100, m at next level, right associativity).
Notation "m ;;; k" := (bind m (fun _ => k))
  (at level 100, right associativity).

Definition get_frame (df : ref) : M DataFrame :=
  fun st =>
    match st !! df with
    | Some f => (Ok f, st)
    | None => (Raise (KeyError "frame"), st)
    end.

Definition put_frame (df : ref) (f : DataFrame) : M unit :=
  fun st => (Ok tt, <[df := f]> st).

(** A new object. *)
Definition alloc (f : DataFrame) : M ref :=
  fun st => (Ok (List.length st), st ++ [f]).

Fixpoint for_each {A} (l : list A) (body : A -> M unit) : M unit :=
  match l with
  | [] => ret tt
  | x :: l' => body x ;;; for_each l' body
  end.

(** A computation that, run from a store of at least [n] frames, leaves
    its first [n] frames as they are, never shrinks the store, and returns
    only values that satisfy [Q]. *)
Definition keeps (n : nat) {A} (m : M A) (Q : A -> Prop) : Prop :=
  forall st res st',
    (n <= List.length st)%nat -> m st = (res, st') ->
    take n st' = take n st
    /\ (List.length st <= List.length st')%nat
    /\ forall a, res = Ok a -> Q a.

(** The postcondition that asks nothing of the value returned. *)
Definition anything {A : Type} (_ : A) : Prop := True.

(** A computation that, run from a store that satisfies [P], returns (it
    does not raise) a value and a store that satisfy [Q]. *)
Definition returns {A} (P : store -> Prop) (m : M A)
    (Q : A -> store -> Prop) : Prop :=
  forall st, P st -> exists a st', m st = (Ok a, st') /\ Q a st'.

(** The store [st0] with one frame more: a frame of [n] rows whose column
    names start with [names] and include those of [known]. *)
Definition grown (st0 : store) (n : nat) (names known : list string)
    (st : store) : Prop :=
  exists f,
    st = st0 ++ [f]
    /\ nrows f = n
    /\ names `prefix_of` map fst (columns f)
    /\ Forall (fun c => c ∈ map fst (columns f)) known.

(** [df.copy()] *)
Definition copy (df : ref) : M ref :=
  f <- get_frame df ;; alloc f.

(** [df.columns] *)
Definition columns_of (df : ref) : M (list string) :=
  f <- get_frame df ;; ret (map fst (columns f)).

(** [len(df)] *)
Definition len (df : ref) : M nat :=
  f <- get_frame df ;; ret (nrows f).

Fixpoint lookup_col (c : string) (cols : list (string * Series))
    : option Series :=
  match cols with
  | [] => None
  | (c', s) :: cols' => if String.eqb c' c then Some s else lookup_col c cols'
  end.

Fixpoint assign_col (c : string) (s : Series) (cols : list (string * Series))
    : list (string * Series) :=
  match cols with
  | [] => [(c, s)]
  | (c', s') :: cols' =>
      if String.eqb c' c then (c, s) :: cols'
      else (c', s') :: assign_col c s cols'
  end.

(** [df[c]] *)
Definition get_col (df : ref) (c : string) : M Series :=
  f <- get_frame df ;;
  match lookup_col c (columns f) with
  | Some s => ret s
  | None => raise (KeyError c)
  end.

(** [df[c] = s] *)
Definition set_col (df : ref) (c : string) (s : Series) : M unit :=
  f <- get_frame df ;;
  put_frame df {| nrows := nrows f; columns := assign_col c s (columns f) |}.

(** [df.empty] *)
Definition frame_empty (f : DataFrame) : bool :=
  (nrows f =? 0)%nat ||
  match columns f with [] => true | _ => false end.

(** ** Sorting by a column *)

(** The order of [sort_values]: ascending, NaN last. *)
Definition goes_before (a b : F64.float) : bool :=
  if F64.is_nan a then false
  else if F64.is_nan b then true
  else F64.lt a b.

Fixpoint insert_position (key : nat -> F64.float) (i : nat) (l : list nat)
    : list nat :=
  match l with
  | [] => [i]
  | j :: l' =>
      if goes_before (key i) (key j) then i :: j :: l'
      else j :: insert_position key i l'
  end.

(** The row positions in sorted order; rows with equal keys keep their
    order. *)
Definition argsort (keys : Series) : list nat :=
  fold_left (fun acc i => insert_position (fun j => nth j keys F64.nan) i acc)
            (seq 0 (List.length keys)) [].

Definition reorder (perm : list nat) (s : Series) : Series :=
  map (fun i => nth i s F64.nan) perm.

(** [df.sort_values(by)]: a new frame. *)
Definition sort_values (df : ref) (by_col : string) : M ref :=
  f <- get_frame df ;;
  match lookup_col by_col (columns f) with
  | Some keys =>
      let perm := argsort keys in
      alloc {| nrows := nrows f;
               columns := map (fun cs => (fst cs, reorder perm (snd cs)))
                              (columns f) |}
  | None => raise (KeyError by_col)
  end.

(** ** Ratio Engine *)

Definition underscore : ascii := "_"%char.

Definition has_underscore (col : string) : bool := Py.contains "_" col.

(** [col.split('_')[-1]] *)
Definition last_part (col : string) : string :=
  List.last (Py.split underscore col) "".

(** Both direct, or both with the same company suffix. *)
Definition same_entity (a b : string) : bool :=
  (negb (has_underscore a) && negb (has_underscore b))
  || (has_underscore a && has_underscore b
      && String.eqb (last_part a) (last_part b)).

Definition suffix_of (col : string) : string :=
  if has_underscore col then "_" +:+ last_part col else "".

(** The two nested loops over candidate columns, the body run on every
    pair of the same entity with the suffix of the first. *)
Definition for_matching (xs ys : list string)
    (body : string -> string -> string -> M unit) : M unit :=
  for_each xs (fun x =>
    for_each ys (fun y =>
      if same_entity x y then body x y (suffix_of x) else ret tt)).

Definition hundred : F64.float := F64.of_Z 100.

(** [df[out] = df[num] / df[den] * 100] *)
Definition assign_percentage (df : ref) (out num den : string) : M unit :=
  n <- get_col df num ;;
  d <- get_col df den ;;
  set_col df out (map (fun q => F64.mul q hundred) (zip_with F64.div n d)).

(** [df[out] = df[num] / df[den]] *)
Definition assign_quotient (df : ref) (out num den : string) : M unit :=
  n <- get_col df num ;;
  d <- get_col df den ;;
  set_col df out (zip_with F64.div n d).

Definition columns_with (sub : string) (cols : list string) : list string :=
  List.filter (Py.contains sub) cols.

Definition columns_with_except (sub excluded : string) (cols : list string)
    : list string :=
  List.filter (fun col => Py.contains sub col && negb (String.eqb col excluded))
              cols.

Definition calculate_profitability_ratios (df : ref) : M ref :=
  cols <- columns_of df ;;
  let rev_cols := columns_with "TOTAL_REV" cols in
  let ni_cols := columns_with_except "NI" "NI_MARGIN" cols in
  let ebitda_cols := columns_with_except "EBITDA" "EBITDA_MARGIN" cols in
  let ebit_cols := columns_with_except "EBIT" "EBIT_MARGIN" cols in
  let asset_cols := columns_with "TOTAL_ASSETS" cols in
  for_matching ebitda_cols rev_cols (fun ebitda_col rev_col suffix =>
    assign_percentage df ("EBITDA_MARGIN" +:+ suffix) ebitda_col rev_col) ;;;
  for_matching ni_cols rev_cols (fun ni_col rev_col suffix =>
    assign_percentage df ("NET_PROFIT_MARGIN" +:+ suffix) ni_col rev_col) ;;;
  for_matching ni_cols asset_cols (fun ni_col asset_col suffix =>
    assign_percentage df ("ROA" +:+ suffix) ni_col asset_col) ;;;
  for_matching ebit_cols rev_cols (fun ebit_col rev_col suffix =>
    assign_percentage df ("EBIT_MARGIN" +:+ suffix) ebit_col rev_col) ;;;
  ret df.

Definition calculate_liquidity_ratios (df : ref) : M ref :=
  cols <- columns_of df ;;
  let cash_cols := columns_with "CASH_EQUIV" cols in
  let asset_cols := columns_with "TOTAL_ASSETS" cols in
  let liab_cols := columns_with "TOTAL_LIAB" cols in
  for_matching cash_cols liab_cols (fun cash_col liab_col suffix =>
    assign_quotient df ("CASH_RATIO" +:+ suffix) cash_col liab_col) ;;;
  for_matching liab_cols asset_cols (fun liab_col asset_col suffix =>
    assign_quotient df ("DEBT_TO_ASSET_RATIO" +:+ suffix) liab_col asset_col) ;;;
  ret df.

Definition calculate_efficiency_ratios (df : ref) : M ref := ret df.

(** The function applied to each row: the quotient, or NaN when the
    equity is zero. *)
Definition debt_to_equity (liab equity : F64.float) : F64.float :=
  if F64.ne equity (F64.of_Z 0) then F64.div liab equity else F64.nan.

Definition calculate_leverage_ratios (df : ref) : M ref :=
  cols <- columns_of df ;;
  let asset_cols := columns_with "TOTAL_ASSETS" cols in
  let liab_cols := columns_with "TOTAL_LIAB" cols in
  for_matching liab_cols asset_cols (fun liab_col asset_col suffix =>
    a <- get_col df asset_col ;;
    l <- get_col df liab_col ;;
    set_col df ("EQUITY" +:+ suffix) (zip_with F64.sub a l) ;;;
    l <- get_col df liab_col ;;
    e <- get_col df ("EQUITY" +:+ suffix) ;;
    set_col df ("DEBT_TO_EQUITY_RATIO" +:+ suffix)
            (zip_with debt_to_equity l e)) ;;;
  ret df.

Definition calculate_valuation_ratios (df : ref) : M ref := ret df.

Definition calculate_financial_ratios (data : ref) : M ref :=
  df <- copy data ;;
  df <- calculate_profitability_ratios df ;;
  df <- calculate_liquidity_ratios df ;;
  df <- calculate_efficiency_ratios df ;;
  df <- calculate_leverage_ratios df ;;
  df <- calculate_valuation_ratios df ;;
  ret df.

(** ** Trend Engine *)

Definition not_nan (x : F64.float) : bool := negb (F64.is_nan x).

(** [s.iloc[-1]] on a series that is not empty. *)
Definition iloc_last (s : Series) : F64.float := List.last s F64.nan.

(** [s.iloc[-k:]] *)
Definition iloc_tail (k : Z) (s : Series) : Series :=
  let n := Z.of_nat (List.length s) in
  let start := - k in
  let start := if (start <? 0)%Z then Z.max (n + start) 0 else start in
  List.skipn (Z.to_nat start) s.

(** [s.min()] and [s.max()]: over the values that are not NaN. *)
Definition series_min (s : Series) : F64.float :=
  match List.filter not_nan s with
  | [] => F64.nan
  | x :: xs => fold_left (fun m y => if F64.lt y m then y else m) xs x
  end.

Definition series_max (s : Series) : F64.float :=
  match List.filter not_nan s with
  | [] => F64.nan
  | x :: xs => fold_left (fun m y => if F64.gt y m then y else m) xs x
  end.

(** [s.first_valid_index()] and [s.last_valid_index()], as row positions. *)
Fixpoint first_valid_from (i : nat) (s : Series) : option nat :=
  match s with
  | [] => None
  | x :: s' => if not_nan x then Some i else first_valid_from (S i) s'
  end.

Definition first_valid_index (s : Series) : option nat :=
  first_valid_from 0 s.

Fixpoint last_valid_from (i : nat) (s : Series) : option nat :=
  match s with
  | [] => None
  | x :: s' =>
      match last_valid_from (S i) s' with
      | Some j => Some j
      | None => if not_nan x then Some i else None
      end
  end.

Definition last_valid_index (s : Series) : option nat :=
  last_valid_from 0 s.

(** The statistics stored for one metric. *)
Record TrendResult := {
  latest : F64.float;
  avg : F64.float;
  min : F64.float;
  max : F64.float;
  cagr : F64.float;
  recent_trend : F64.float
}.

Section Trend.

(** The numeric kernels of pandas and numpy, taken as they come:
    [Series.pct_change], the mean of a non-empty list of numbers, the
    mean of one full rolling window, and the power function. *)
Variable pct_change : Series -> Series.
Variable mean_of : list F64.float -> F64.float.
Variable window_mean : list F64.float -> F64.float.
Variable pow : F64.float -> F64.float -> F64.float.

(** [s.mean()]: NaN is skipped, and the mean of nothing is NaN. *)
Definition series_mean (s : Series) : F64.float :=
  match List.filter not_nan s with
  | [] => F64.nan
  | xs => mean_of xs
  end.

(** The window that ends at row [i]. *)
Definition window_at (k i : nat) (s : Series) : list F64.float :=
  take k (List.skipn (i + 1 - k) s).

(** [s.rolling(window=k).mean()]: NaN until [k] rows are there, and
    wherever the window holds a NaN. *)
Definition rolling_mean_at (k : nat) (s : Series) (i : nat) : F64.float :=
  if (i + 1 <? k)%nat then F64.nan
  else
    let w := window_at k i s in
    if (k =? 0)%nat || existsb F64.is_nan w then F64.nan
    else window_mean w.

Definition rolling_mean (k : nat) (s : Series) : Series :=
  map (rolling_mean_at k s) (seq 0 (List.length s)).

(** [df[out] = df[col].rolling(window=period).mean()], which raises on a
    negative window. *)
Definition assign_moving_average (df : ref) (out col : string)
    (period : Z) : M unit :=
  s <- get_col df col ;;
  if (period <? 0)%Z
  then raise (ValueError "window must be an integer 0 or greater")
  else set_col df out (rolling_mean (Z.to_nat period) s).

(** The compound annual growth rate, in percent. *)
Definition cagr_pct (n : nat) (values years : Series) : F64.float :=
  if (2 <=? n)%nat then
    match first_valid_index values, last_valid_index values with
    | Some first_value, Some last_value =>
        let start_val := nth first_value values F64.nan in
        let end_val := nth last_value values F64.nan in
        let n_years :=
          F64.sub (nth last_value years F64.nan)
                  (nth first_value years F64.nan) in
        if F64.gt n_years (F64.of_Z 0) && F64.gt start_val (F64.of_Z 0)
        then
          let cagr :=
            F64.sub (pow (F64.div end_val start_val)
                         (F64.div (F64.of_Z 1) n_years))
                    (F64.of_Z 1) in
          F64.mul cagr hundred
        else F64.nan
    | _, _ => F64.nan
    end
  else F64.nan.

(** The [recent_trend] entry, from the year-over-year column. *)
Definition recent_trend_of (n : nat) (periods : Z) (yoy : Series)
    : F64.float :=
  if (periods <=? Z.of_nat n)%Z
  then series_mean (iloc_tail periods yoy)
  else F64.nan.

(** The body of the loop over the metrics, on the sorted frame. *)
Definition analyze_metric (df : ref) (periods : Z) (metric : string)
    : M TrendResult :=
  values <- get_col df metric ;;
  set_col df (metric +:+ "_YOY")
          (map (fun g => F64.mul g hundred) (pct_change values)) ;;;
  n <- len df ;;
  values <- get_col df metric ;;
  years <- get_col df "Year" ;;
  let cagr_pct := cagr_pct n values years in
  (if (periods <=? Z.of_nat n)%Z
   then assign_moving_average df (metric +:+ "_MA" +:+ Py.str periods)
                              metric periods
   else ret tt) ;;;
  values <- get_col df metric ;;
  yoy <- get_col df (metric +:+ "_YOY") ;;
  ret {| latest := iloc_last values;
         avg := series_mean values;
         min := series_min values;
         max := series_max values;
         cagr := cagr_pct;
         recent_trend := recent_trend_of n periods yoy |}.

Fixpoint analyze_metrics (df : ref) (periods : Z) (metrics : list string)
    (results : gmap string TrendResult) : M (gmap string TrendResult) :=
  match metrics with
  | [] => ret results
  | metric :: metrics' =>
      cols <- columns_of df ;;
      if Py.mem metric cols then
        r <- analyze_metric df periods metric ;;
        analyze_metrics df periods metrics' (<[metric := r]> results)
      else analyze_metrics df periods metrics' results
  end.

Definition calculate_trend_analysis (df : ref) (metrics : list string)
    (periods : Z) : M (gmap string TrendResult) :=
  f <- get_frame df ;;
  if negb (Py.mem "Year" (map fst (columns f))) || frame_empty f
  then ret ∅
  else
    df <- sort_values df "Year" ;;
    analyze_metrics df periods metrics ∅.

Definition add_moving_averages (df : ref) (cols : list string)
    (periods : list Z) : M ref :=
  result_df <- copy df ;;
  names <- columns_of result_df ;;
  result_df <- (if Py.mem "Year" names
                then sort_values result_df "Year"
                else ret result_df) ;;
  for_each cols (fun col =>
    names <- columns_of result_df ;;
    if Py.mem col names then
      for_each periods (fun period =>
        n <- len result_df ;;
        if (period <=? Z.of_nat n)%Z
        then assign_moving_average result_df
               (col +:+ "_MA" +:+ Py.str period) col period
        else ret tt)
    else ret tt) ;;;
  ret result_df.

End Trend.

(** [Series.pct_change] on a series without gaps:
    [s / s.shift(1) - 1], NaN in the first row. *)
Definition pct_change_plain (s : Series) : Series :=
  match s with
  | [] => []
  | _ :: rest =>
      F64.nan :: zip_with (fun cur prev => F64.sub (F64.div cur prev) (F64.of_Z 1))
                          rest s
  end.

(** The last [j] entries of a list. *)
Definition last_n {A} (j : nat) (l : list A) : list A :=
  List.skipn (List.length l - j) l.

(** The power function where the exponent is 1, the one case the sample
    runs reach: [x ** 1.0] is [x]. *)
Definition pow_unit (x y : F64.float) : F64.float :=
  if F64.eq y (F64.of_Z 1) then x else F64.nan.

(** The mean as a running sum divided by the count. *)
Definition mean_plain (xs : list F64.float) : F64.float :=
  F64.div (fold_left F64.add xs (F64.of_Z 0))
          (F64.of_Z (Z.of_nat (List.length xs))).

End Analysis.

(* ===================================================================== *)
(** * Sample environments and replies *)
(* ===================================================================== *)

Module Samples.

Import Api.

(** The reply to the company-name lookup. *)
Definition name_reply : Reply :=
  {| Identifier := CStr "AAPL";
     Mnemonic := CStr "IQ_COMPANY_NAME";
     Headers := ["IQ_COMPANY_NAME"];
     periodtype := CStr "";
     Rows := [[CStr "Apple Inc."]] |}.

(** A reply carrying one value of a metric for a period. *)
Definition value_reply (id mn period : string) (v : cell) : Reply :=
  {| Identifier := CStr id;
     Mnemonic := CStr mn;
     Headers := ["Value"];
     periodtype := CStr period;
     Rows := [[v]] |}.

(** A working directory without subdirectories: a file can be written
    unless its path goes through a directory. *)
Definition flat_directory (path : string) : bool :=
  negb (Py.contains "/" path).

(** A run in 2024 with credentials set, every POST answered by [replies]. *)
Definition env_ok (replies : list Reply) : Env :=
  {| getenv := fun _ => Some "secret";
     now_year := 2024;
     token_for := fun _ _ => Some "token";
     post := fun _ _ => Some replies;
     to_csv := flat_directory |}.

(** The same run without [CIQ_USER] and [CIQ_PASS]. *)
Definition env_no_credentials : Env :=
  {| getenv := fun _ => None;
     now_year := 2024;
     token_for := fun _ _ => Some "token";
     post := fun _ _ => Some [name_reply];
     to_csv := flat_directory |}.

(** The same run with the data endpoint answering with an error status. *)
Definition env_transport_down : Env :=
  {| getenv := fun _ => Some "secret";
     now_year := 2024;
     token_for := fun _ _ => Some "token";
     post := fun _ _ => None;
     to_csv := flat_directory |}.

(** Two and three years of revenue, oldest first. *)
Definition two_years : Analysis.DataFrame :=
  {| Analysis.nrows := 2;
     Analysis.columns :=
       [ ("Year", [F64.of_Z 2023; F64.of_Z 2024]);
         ("Revenue", [F64.of_Z 100; F64.of_Z 200]) ] |}.

Definition three_years : Analysis.DataFrame :=
  {| Analysis.nrows := 3;
     Analysis.columns :=
       [ ("Year", [F64.of_Z 2022; F64.of_Z 2023; F64.of_Z 2024]);
         ("Revenue", [F64.of_Z 100; F64.of_Z 200; F64.of_Z 300]) ] |}.

End Samples.

(* ===================================================================== *)
(** * Properties: Python strings *)
(* ===================================================================== *)

Section StringFacts.

Lemma prefix_app_l (p s t : string) :
  String.prefix p s = true -> String.prefix p (s +:+ t) = true.
Proof.
  revert s. induction p as [|a p IH]; intros s H.
  - destruct (s +:+ t); reflexivity.
  - destruct s as [|b s]; [discriminate|].
    change (String b s +:+ t) with (String b (s +:+ t)).
    cbn [String.prefix] in *.
    destruct (ascii_dec a b); [apply IH; exact H|discriminate].
Qed.

(** [sub in s] implies [sub in s + t] and [sub in t + s]. *)
Lemma contains_app_l (sub s t : string) :
  Py.contains sub s = true -> Py.contains sub (s +:+ t) = true.
Proof.
  induction s as [|a s IH]; intros H.
  - cbn [Py.contains] in H. rewrite orb_false_r in H.
    destruct sub; [|discriminate]. destruct t; reflexivity.
  - cbn [Py.contains] in H. apply orb_true_iff in H as [H|H].
    + pose proof (prefix_app_l _ _ t H) as Hp.
      change (String a s +:+ t) with (String a (s +:+ t)) in *.
      cbn [Py.contains]. rewrite Hp. reflexivity.
    + change (String a s +:+ t) with (String a (s +:+ t)).
      cbn [Py.contains]. rewrite (IH H). apply orb_true_r.
Qed.

(** Membership of one character, unfolded by one step. *)
Lemma contains_char_cons (c a : ascii) (s : string) :
  Py.contains (String c "") (String a s)
  = Ascii.eqb c a || Py.contains (String c "") s.
Proof.
  cbn [Py.contains String.prefix].
  destruct (ascii_dec c a) as [->|Hne].
  - rewrite Ascii.eqb_refl. destruct s; reflexivity.
  - apply Ascii.eqb_neq in Hne. rewrite Hne. reflexivity.
Qed.

Lemma contains_char_nil (c : ascii) : Py.contains (String c "") "" = false.
Proof. reflexivity. Qed.

Lemma contains_char_app (c : ascii) (s t : string) :
  Py.contains (String c "") (s +:+ t)
  = Py.contains (String c "") s || Py.contains (String c "") t.
Proof.
  induction s as [|a s IH].
  - reflexivity.
  - change (String a s +:+ t) with (String a (s +:+ t)).
    rewrite !contains_char_cons, IH, orb_assoc. reflexivity.
Qed.

(** A string of digits holds no character that is not a digit. *)
Lemma digits_lack (c : ascii) (s : string) :
  Py.is_digit c = false -> Py.all_digits s = true ->
  Py.contains (String c "") s = false.
Proof.
  intros Hc. induction s as [|a s IH]; [reflexivity|].
  cbn [Py.all_digits]. intros H. apply andb_true_iff in H as [Ha Hs].
  rewrite contains_char_cons, (IH Hs), orb_false_r.
  apply Ascii.eqb_neq. intros ->. congruence.
Qed.

(** [(pre + sep + rest).split(sep)] when [sep] is not in [pre]. *)
Lemma split_app (sep : ascii) (pre rest : string) :
  Py.contains (String sep "") pre = false ->
  Py.split sep (pre +:+ String sep rest) = pre :: Py.split sep rest.
Proof.
  induction pre as [|a pre IH]; intros H.
  - change ("" +:+ String sep rest) with (String sep rest).
    cbn [Py.split]. rewrite Ascii.eqb_refl. reflexivity.
  - rewrite contains_char_cons in H. apply orb_false_iff in H as [Ha Hp].
    change (String a pre +:+ String sep rest)
      with (String a (pre +:+ String sep rest)).
    cbn [Py.split]. rewrite Ascii.eqb_sym, Ha, (IH Hp). reflexivity.
Qed.

(** [s.split(sep)] when [sep] is not in [s]. *)
Lemma split_none (sep : ascii) (s : string) :
  Py.contains (String sep "") s = false -> Py.split sep s = [s].
Proof.
  induction s as [|a s IH]; intros H; [reflexivity|].
  rewrite contains_char_cons in H. apply orb_false_iff in H as [Ha Hs].
  cbn [Py.split]. rewrite Ascii.eqb_sym, Ha, (IH Hs). reflexivity.
Qed.

Lemma string_length_app (s t : string) :
  String.length (s +:+ t) = (String.length s + String.length t)%nat.
Proof.
  induction s as [|a s IH]; [reflexivity|].
  change (String a s +:+ t) with (String a (s +:+ t)).
  cbn [String.length]. rewrite IH. reflexivity.
Qed.

Lemma truthy_app_r (s t : string) :
  Py.truthy t = true -> Py.truthy (s +:+ t) = true.
Proof. destruct s; [auto|reflexivity]. Qed.

End StringFacts.

(* ===================================================================== *)
(** * Properties: Unit Normalizer *)
(* ===================================================================== *)

Section NormalizerFacts.

(** The literals of the market-cap rule, as binary64 numbers. *)
Lemma thresholds :
  F64.of_Z 100 = S754_finite false 7036874417766400 (-46)
  /\ F64.of_Z 1000 = S754_finite false 8796093022208000 (-43)
  /\ F64.of_Z 1000000 = S754_finite false 8589934592000000 (-33).
Proof. repeat split; vm_compute; reflexivity. Qed.

(** A number above 1000 is not below 100: inside the [value > 1000] guard
    the trillions branch cannot run. *)
Lemma above_1000_not_below_100 (v : F64.float) :
  F64.gt v (F64.of_Z 1000) = true -> F64.lt v (F64.of_Z 100) = false.
Proof.
  destruct thresholds as (E100 & E1000 & _).
  unfold F64.gt, F64.lt. rewrite E100, E1000.
  destruct v as [s | s | | s m e]; unfold SFltb, SFcompare;
    try destruct s; try discriminate; try reflexivity.
  destruct (Z.compare_spec (-43) e) as [<- | Hlt | Hgt]; try discriminate.
  - intros _. reflexivity.
  - intros _. destruct (Z.compare_spec e (-46)); try reflexivity; lia.
Qed.

Lemma marketcap_tests :
  ("IQ_MARKETCAP" =? "IQ_PE_RATIO")%string = false
  /\ ("IQ_MARKETCAP" =? "IQ_PRICE_CLOSE")%string = false
  /\ ("IQ_MARKETCAP" =? "IQ_MARKETCAP")%string = true
  /\ Py.mem "IQ_MARKETCAP" ["IQ_PE_RATIO"; "IQ_PRICE_CLOSE"] = false.
Proof. repeat split; vm_compute; reflexivity. Qed.

(** A market-cap value that passes the outer guard is scaled by the
    billions rule or left as it is. *)
Lemma normalize_marketcap_guarded (v : F64.float) :
  F64.gt v (F64.of_Z 1000) = true ->
  Api.normalize "IQ_MARKETCAP" v =
    if F64.gt v (F64.of_Z 1000000) then F64.mul v (F64.of_Z 1000) else v.
Proof.
  intros Hgt. destruct marketcap_tests as (E1 & E2 & E3 & _).
  unfold Api.normalize. rewrite E1, E2, E3. cbn [orb andb]. rewrite Hgt.
  rewrite (above_1000_not_below_100 v Hgt).
  destruct (F64.gt v (F64.of_Z 1000000)); reflexivity.
Qed.

(** A market-cap value that fails the outer guard is treated like any
    other magnitude: divided by a million when its size exceeds a million,
    else unchanged. *)
Lemma normalize_marketcap_unguarded (v : F64.float) :
  F64.gt v (F64.of_Z 1000) = false ->
  Api.normalize "IQ_MARKETCAP" v =
    if F64.gt (F64.abs v) (F64.of_Z 1000000) then F64.div v (F64.of_Z 1000000) else v.
Proof.
  intros Hgt. destruct marketcap_tests as (E1 & E2 & E3 & E4).
  unfold Api.normalize. rewrite E1, E2, E3, E4. cbn [orb andb negb].
  rewrite Hgt, andb_true_r. reflexivity.
Qed.

(** No market-cap value below 100 is ever multiplied: it is left unchanged,
    or divided when it lies below minus one million. *)
Lemma normalize_marketcap_small (v : F64.float) :
  F64.lt v (F64.of_Z 100) = true ->
  Api.normalize "IQ_MARKETCAP" v =
    if F64.gt (F64.abs v) (F64.of_Z 1000000) then F64.div v (F64.of_Z 1000000) else v.
Proof.
  intros Hlt. apply normalize_marketcap_unguarded.
  destruct (F64.gt v (F64.of_Z 1000)) eqn:Hgt; [|reflexivity].
  rewrite (above_1000_not_below_100 v Hgt) in Hlt. discriminate.
Qed.

(** The billions branch: 2,500,000 becomes 2,500,000,000; exactly one
    million is left alone, the next integer is scaled. *)
Lemma normalize_marketcap_billions :
  Api.normalize "IQ_MARKETCAP" (F64.of_Z 2500000) = F64.of_Z 2500000000
  /\ Api.normalize "IQ_MARKETCAP" (F64.of_Z 1000000) = F64.of_Z 1000000
  /\ Api.normalize "IQ_MARKETCAP" (F64.of_Z 1000001) = F64.of_Z 1000001000.
Proof. repeat split; vm_compute; reflexivity. Qed.

(** Inside the rule, the value 50 comes back as 50 and not as 50,000,000,
    and so do 99 and 0.5: the trillions branch is never taken. *)
Lemma normalize_marketcap_below_100 :
  Api.normalize "IQ_MARKETCAP" (F64.of_Z 50) = F64.of_Z 50
  /\ Api.normalize "IQ_MARKETCAP" (F64.of_Z 50) <> F64.mul (F64.of_Z 50) (F64.of_Z 1000000)
  /\ Api.normalize "IQ_MARKETCAP" (F64.of_Z 99) = F64.of_Z 99
  /\ Api.normalize "IQ_MARKETCAP" (F64.decimal 5 1) = F64.decimal 5 1.
Proof.
  split; [vm_compute; reflexivity|].
  split; [vm_compute; discriminate|].
  split; vm_compute; reflexivity.
Qed.

(** C5: market-cap values in a run.  In 2024, [fetch_company_by_ticker]
    for MSFT and one year is answered with one market-cap reply, whose
    [Value] is 50 in one run and 2,500,000 in another.  Both runs return
    the row of 2024, and neither row holds a [Market Cap]: the value is
    not up-scaled to 50,000,000 or to 2,500,000,000, it is not stored at
    all, because no value column is chosen for [IQ_MARKETCAP] and the rule
    for market caps is never reached. *)
Theorem market_cap_reply_not_stored :
  let run v :=
    Api.fetch_company_by_ticker Api.decimal_float
      (Samples.env_ok
         [Samples.value_reply "MSFT" "IQ_MARKETCAP" "IQ_FY"
            (Api.CNum (F64.of_Z v))])
      "MSFT" 1 in
  map Api.Year (run 50) = [2024]
  /\ Forall (fun r => Api.metrics r !! "Market Cap" = None) (run 50)
  /\ map Api.Year (run 2500000) = [2024]
  /\ Forall (fun r => Api.metrics r !! "Market Cap" = None) (run 2500000)
  /\ Api.find_value_col Api.decimal_float "IQ_MARKETCAP"
       ["Identifier"; "Mnemonic"; "Period"; "Value"]
       [("Identifier", Api.CStr "MSFT"); ("Mnemonic", Api.CStr "IQ_MARKETCAP");
        ("Period", Api.CStr "IQ_FY"); ("Value", Api.CNum (F64.of_Z 50))]
     = None.
Proof.
  cbv zeta. split; [vm_compute; reflexivity|].
  split; [vm_compute; repeat constructor|].
  split; [vm_compute; reflexivity|].
  split; [vm_compute; repeat constructor|].
  vm_compute. reflexivity.
Qed.

End NormalizerFacts.

(* ===================================================================== *)
(** * Properties: Ratio Engine *)
(* ===================================================================== *)

Section RatioFacts.

Import Analysis.

(** The quotient by a zero of either sign: infinite for a numerator that
    is neither zero nor NaN, NaN otherwise. *)
Lemma div_by_zero (n : F64.float) (s : bool) :
  F64.div n (S754_zero s) =
    match n with
    | S754_zero _ | S754_nan => S754_nan
    | S754_infinity sn | S754_finite sn _ _ => S754_infinity (xorb sn s)
    end.
Proof. destruct n; reflexivity. Qed.

(** A percentage column keeps the infinity: the unguarded paths store an
    infinite ratio for every numerator that is neither zero nor NaN. *)
Lemma percentage_of_zero_denominator (n : F64.float) (s : bool) :
  F64.is_nan n = false -> F64.eq n (F64.of_Z 0) = false ->
  F64.is_inf (F64.mul (F64.div n (S754_zero s)) hundred) = true.
Proof.
  rewrite div_by_zero.
  destruct n as [sn | sn | | sn m e]; try discriminate;
    intros _ _; destruct sn, s; vm_compute; reflexivity.
Qed.

(** The guarded path: a zero equity gives NaN whatever the liabilities. *)
Lemma debt_to_equity_zero (liab : F64.float) (s : bool) :
  debt_to_equity liab (S754_zero s) = F64.nan.
Proof. reflexivity. Qed.

(** The guarded path never yields an infinity from a zero equity, and
    returns the plain quotient otherwise. *)
Lemma debt_to_equity_nonzero (liab equity : F64.float) :
  F64.eq equity (F64.of_Z 0) = false ->
  debt_to_equity liab equity = F64.div liab equity.
Proof. unfold debt_to_equity, F64.ne, F64.eq. intros ->. reflexivity. Qed.

(** C2: the Ratio Engine on a one-row dataset of entity A with EBITDA 5
    and revenue 0.  The run returns normally, and the margin stored for
    the row is plus infinity, not a missing value; on the same run the
    debt-to-equity ratio of a row whose equity is 0 is stored as NaN. *)
Theorem ratio_zero_revenue_stores_infinity :
  let data :=
    {| nrows := 1;
       columns := [ ("EBITDA_A", [F64.of_Z 5]); ("TOTAL_REV_A", [F64.of_Z 0]);
                    ("TOTAL_ASSETS_A", [F64.of_Z 7]); ("TOTAL_LIAB_A", [F64.of_Z 7]) ] |} in
  exists df st f,
    calculate_financial_ratios 0%nat [data] = (Ok df, st)
    /\ st !! df = Some f
    /\ lookup_col "EBITDA_MARGIN_A" (columns f) = Some [S754_infinity false]
    /\ lookup_col "DEBT_TO_EQUITY_RATIO_A" (columns f) = Some [F64.nan].
Proof.
  intros data.
  destruct (calculate_financial_ratios 0%nat [data]) as [r st] eqn:E.
  vm_compute in E. injection E as <- <-.
  eexists _, _, _. split; [reflexivity|].
  split; [reflexivity|]. split; vm_compute; reflexivity.
Qed.

End RatioFacts.

(* ===================================================================== *)
(** * Properties: failures of a run *)
(* ===================================================================== *)

Section FetchFacts.

Import Api.

(** A missing credential makes [ciq_fetch] raise before any request is
    sent. *)
Lemma missing_user_raises (env : Env) (reqs : list Request) :
  getenv env "CIQ_USER" = None ->
  ciq_fetch env reqs
  = Raise (ValueError "Missing environment variable: CIQ_USER").
Proof. intros H. unfold ciq_fetch, _need. rewrite H. reflexivity. Qed.

(** An error status on the first batch makes [ciq_fetch] raise. *)
Lemma transport_error_raises (env : Env) (reqs : list Request) :
  (forall token batch, post env token batch = None) ->
  reqs <> [] ->
  (exists e, ciq_fetch env reqs = Raise e).
Proof.
  intros Hpost Hne. unfold ciq_fetch.
  destruct (_need env "CIQ_USER") as [user|e]; [|eexists; reflexivity].
  destruct (_need env "CIQ_PASS") as [pwd|e]; [|eexists; reflexivity].
  cbn [bind]. destruct (ciq_token env user pwd) as [tok|e]; [|eexists; reflexivity].
  cbn [bind]. destruct reqs as [|r reqs]; [congruence|].
  cbn [List.length batches post_all]. rewrite Hpost. eexists; reflexivity.
Qed.

(** [parse_to_table] of no replies is the empty DataFrame. *)
Lemma parse_nothing : parse_to_table [] = empty_table.
Proof. reflexivity. Qed.

(** C3, as the code has it: whenever the fetch of a run fails
    (configuration or transport), [fetch_company_by_ticker] and
    [fetch_data_from_api] catch the failure and return the empty DataFrame,
    which is also what they return for a run whose fetch succeeded with no
    rows; the return value does not tell the two runs apart. *)
Theorem failed_run_returns_empty
    (py_float : string -> option F64.float) (env env' : Env)
    (ticker : string) (ids : list string) (years : Z) (e1 e2 : exn) :
  ciq_fetch env (build_requests env [Py.upper (Py.strip ticker)] years)
    = Raise e1 ->
  ciq_fetch env (build_requests env ids years) = Raise e2 ->
  ciq_fetch env' (build_requests env' [Py.upper (Py.strip ticker)] years)
    = Ok [] ->
  ciq_fetch env' (build_requests env' ids years) = Ok [] ->
  fetch_company_by_ticker py_float env ticker years = []
  /\ fetch_company_by_ticker py_float env' ticker years = []
  /\ fetch_data_from_api env ids years = empty_table
  /\ fetch_data_from_api env' ids years = empty_table.
Proof.
  intros H1 H2 H3 H4.
  unfold fetch_company_by_ticker, fetch_company_body, fetch_data_from_api.
  rewrite H1, H2, H3, H4. cbn [bind]. repeat split; reflexivity.
Qed.

Lemma failed_run_returns_empty_witness :
  fetch_company_by_ticker decimal_float Samples.env_no_credentials "MSFT" 5 = []
  /\ fetch_company_by_ticker decimal_float (Samples.env_ok []) "MSFT" 5 = []
  /\ fetch_data_from_api Samples.env_no_credentials ["MSFT"] 5 = empty_table
  /\ fetch_data_from_api (Samples.env_ok []) ["MSFT"] 5 = empty_table.
Proof.
  apply (failed_run_returns_empty decimal_float Samples.env_no_credentials
           (Samples.env_ok []) "MSFT" ["MSFT"] 5
           (ValueError "Missing environment variable: CIQ_USER")
           (ValueError "Missing environment variable: CIQ_USER"));
    vm_compute; reflexivity.
Defined.

(** C3 as stated fails: a run without credentials and a run whose
    transport is down both raise inside [ciq_fetch], a run answered with no
    rows does not, and all three hand the caller the same empty value. *)
Lemma failed_run_indistinguishable :
  let reqs env := build_requests env ["MSFT"] 5 in
  ciq_fetch Samples.env_no_credentials (reqs Samples.env_no_credentials)
    = Raise (ValueError "Missing environment variable: CIQ_USER")
  /\ ciq_fetch Samples.env_transport_down (reqs Samples.env_transport_down)
    = Raise HTTPError
  /\ ciq_fetch (Samples.env_ok []) (reqs (Samples.env_ok [])) = Ok []
  /\ fetch_company_by_ticker decimal_float Samples.env_no_credentials "MSFT" 5
     = fetch_company_by_ticker decimal_float (Samples.env_ok []) "MSFT" 5
  /\ fetch_company_by_ticker decimal_float Samples.env_transport_down "MSFT" 5
     = fetch_company_by_ticker decimal_float (Samples.env_ok []) "MSFT" 5
  /\ fetch_data_from_api Samples.env_no_credentials ["MSFT"] 5
     = fetch_data_from_api (Samples.env_ok []) ["MSFT"] 5
  /\ fetch_data_from_api Samples.env_transport_down ["MSFT"] 5
     = fetch_data_from_api (Samples.env_ok []) ["MSFT"] 5.
Proof. repeat split; vm_compute; reflexivity. Qed.

End FetchFacts.

(* ===================================================================== *)
(** * Properties: the origin of metric values *)
(* ===================================================================== *)

Section OriginFacts.

Import Api.

(** C1: a run for AAPL in 2024 that asks for one year and is answered with
    the company name alone.  No row of the reply carries a metric, yet the
    2024 row of the output holds a revenue of 385.7 and six more values:
    they come from the table written into the code. *)
Theorem aapl_row_prepopulated (py_float : string -> option F64.float) :
  let out := fetch_company_by_ticker py_float (Samples.env_ok [Samples.name_reply])
               "AAPL" 1 in
  Forall (fun r => Mnemonic r = CStr "IQ_COMPANY_NAME") [Samples.name_reply]
  /\ map Year out = [2024]
  /\ map (fun r => metrics r !! "Revenue") out = [Some (F64.decimal 3857 1)]
  /\ map (fun r => metrics r !! "Net Income") out = [Some (F64.decimal 973 1)]
  /\ map (fun r => size (metrics r)) out = [7%nat].
Proof.
  intros out. split.
  - repeat constructor.
  - assert (E : out = [fold_left (fun r mv => set_metric (fst mv) (snd mv) r)
                         [ ("Revenue", F64.decimal 3857 1);
                           ("Net Income", F64.decimal 973 1);
                           ("EBITDA", F64.decimal 1265 1);
                           ("EBIT", F64.decimal 1151 1);
                           ("Total Assets", F64.decimal 3582 1);
                           ("Total Liabilities", F64.decimal 2918 1);
                           ("Cash & Equivalents", F64.decimal 302 1) ]
                         (identity_record "AAPL" "Apple Inc." 2024)]).
    { subst out. vm_compute. reflexivity. }
    rewrite E. repeat split; vm_compute; reflexivity.
Qed.

(** The same run for another ticker leaves the metrics of the row empty. *)
Lemma other_ticker_row_empty (py_float : string -> option F64.float) :
  fetch_company_by_ticker py_float (Samples.env_ok [Samples.name_reply]) "MSFT" 1
  = [identity_record "MSFT" "Apple Inc." 2024].
Proof. vm_compute. reflexivity. Qed.

End OriginFacts.

(* ===================================================================== *)
(** * Properties: Period Resolver *)
(* ===================================================================== *)

Section PeriodFacts.

Import Api.

(** A token the absolute rule accepts holds neither [-] nor [+]. *)
Lemma absolute_lacks_sign (c : ascii) (period : string) :
  Py.is_digit c = false -> Ascii.eqb c "F" = false -> Ascii.eqb c "Y" = false ->
  is_absolute period = true ->
  Py.contains (String c "") period = false.
Proof.
  intros Hd HF HY H. unfold is_absolute in H.
  apply andb_true_iff in H as [H Hdig].
  apply andb_true_iff in H as [H _].
  apply andb_true_iff in H as [_ Hpre].
  unfold Py.startswith in Hpre.
  destruct period as [|a [|b rest]]; cbn [String.prefix] in Hpre;
    [discriminate | destruct (ascii_dec "F" a); discriminate |].
  destruct (ascii_dec "F" a) as [<-|]; [|discriminate].
  destruct (ascii_dec "Y" b) as [<-|]; [|discriminate].
  cbn [Py.drop] in Hdig. unfold Py.isdigit in Hdig.
  apply andb_true_iff in Hdig as [_ Hall].
  rewrite !contains_char_cons, HF, HY, (digits_lack c rest Hd Hall).
  reflexivity.
Qed.

(** The absolute rule: [FY] followed by digits is the year the digits
    spell. *)
Lemma absolute_token_year (current_year : Z) (ds : string) :
  Py.isdigit ds = true -> (String.length ds <= 4300)%nat ->
  year_from_period current_year (CStr ("FY" +:+ ds))
  = Some (Py.digits_value 0 ds).
Proof.
  intros Hd Hlen. unfold year_from_period, is_absolute.
  change ("FY" +:+ ds) with (String "F" (String "Y" ds)).
  cbn [Py.truthy Py.drop andb]. rewrite Hd.
  assert (Hpre : Py.startswith "FY" (String "F" (String "Y" ds)) = true).
  { unfold Py.startswith. cbn. destruct ds; reflexivity. }
  rewrite Hpre. cbn [andb String.length].
  destruct ds as [|a ds]; [discriminate|].
  cbn [String.length Nat.ltb Nat.leb andb].
  unfold Py.int_of_digits, Py.int_max_str_digits.
  apply Nat.leb_le in Hlen. rewrite Hlen. reflexivity.
Qed.

(** The offset of a relative token, once the token is split. *)
Lemma relative_year_digits (current_year : Z) (negative : bool)
    (pre ds : string) :
  Py.isdigit ds = true -> (String.length ds <= 4300)%nat ->
  relative_year current_year negative [pre; ds]
  = Some (current_year
          + (if negative then - Py.digits_value 0 ds else Py.digits_value 0 ds)).
Proof.
  intros Hd Hlen. unfold relative_year. rewrite Hd.
  unfold Py.int_of_digits, Py.int_max_str_digits.
  apply Nat.leb_le in Hlen. rewrite Hlen. reflexivity.
Qed.

Lemma isdigit_all (ds : string) :
  Py.isdigit ds = true -> Py.all_digits ds = true.
Proof. unfold Py.isdigit. intros H. apply andb_true_iff in H as [_ H]. exact H. Qed.

(** The relative-past rule: a prefix naming [FY], a hyphen, digits. *)
Lemma relative_past_year (current_year : Z) (pre ds : string) :
  Py.contains "FY" pre = true -> Py.contains "-" pre = false ->
  Py.isdigit ds = true -> (String.length ds <= 4300)%nat ->
  year_from_period current_year (CStr (pre +:+ "-" +:+ ds))
  = Some (current_year + - Py.digits_value 0 ds).
Proof.
  intros HFY Hpre Hd Hlen. unfold year_from_period.
  assert (Hhy : Py.contains "-" (pre +:+ "-" +:+ ds) = true).
  { rewrite contains_char_app.
    change ("-" +:+ ds) with (String "-" ds).
    rewrite contains_char_cons. cbn. apply orb_true_r. }
  destruct (is_absolute (pre +:+ "-" +:+ ds)) eqn:Habs.
  { rewrite (absolute_lacks_sign "-" _ eq_refl eq_refl eq_refl Habs) in Hhy.
    discriminate. }
  unfold is_relative_past.
  rewrite (truthy_app_r pre ("-" +:+ ds) eq_refl).
  rewrite (contains_app_l "FY" pre _ HFY), Hhy. cbn [andb].
  change ("-" +:+ ds) with (String hyphen ds).
  rewrite (split_app hyphen pre ds Hpre).
  rewrite (split_none hyphen ds
             (digits_lack hyphen ds eq_refl (isdigit_all ds Hd))).
  apply (relative_year_digits current_year true pre ds Hd Hlen).
Qed.

(** The relative-future rule: a prefix naming [FY] without a hyphen, a
    plus sign, digits. *)
Lemma relative_future_year (current_year : Z) (pre ds : string) :
  Py.contains "FY" pre = true -> Py.contains "-" pre = false ->
  Py.contains "+" pre = false ->
  Py.isdigit ds = true -> (String.length ds <= 4300)%nat ->
  year_from_period current_year (CStr (pre +:+ "+" +:+ ds))
  = Some (current_year + Py.digits_value 0 ds).
Proof.
  intros HFY Hhy Hpl Hd Hlen. unfold year_from_period.
  assert (Hplus : Py.contains "+" (pre +:+ "+" +:+ ds) = true).
  { rewrite contains_char_app.
    change ("+" +:+ ds) with (String "+" ds).
    rewrite contains_char_cons. cbn. apply orb_true_r. }
  assert (Hnohy : Py.contains "-" (pre +:+ "+" +:+ ds) = false).
  { rewrite contains_char_app, Hhy.
    change ("+" +:+ ds) with (String "+" ds).
    rewrite contains_char_cons.
    rewrite (digits_lack "-" ds eq_refl (isdigit_all ds Hd)). reflexivity. }
  destruct (is_absolute (pre +:+ "+" +:+ ds)) eqn:Habs.
  { rewrite (absolute_lacks_sign "+" _ eq_refl eq_refl eq_refl Habs) in Hplus.
    discriminate. }
  unfold is_relative_past, is_relative_future.
  rewrite (truthy_app_r pre ("+" +:+ ds) eq_refl).
  rewrite (contains_app_l "FY" pre _ HFY), Hnohy, Hplus. cbn [andb].
  change ("+" +:+ ds) with (String plus ds).
  rewrite (split_app plus pre ds Hpl).
  rewrite (split_none plus ds
             (digits_lack plus ds eq_refl (isdigit_all ds Hd))).
  apply (relative_year_digits current_year false pre ds Hd Hlen).
Qed.

(** A year read off the period token is the year of the record, unless it
    is 0. *)
Lemma resolve_year_of_period (current_year y : Z) (cols : list string)
    (row : record) :
  Py.mem "Period" cols = true ->
  year_from_period current_year (at_col row "Period") = Some y ->
  y <> 0 ->
  resolve_year current_year cols row = Some y.
Proof.
  intros Hmem Hy Hnz. unfold resolve_year. rewrite Hmem, Hy.
  unfold no_year. apply Z.eqb_neq in Hnz. rewrite Hnz. reflexivity.
Qed.

(** C6: an absolute token [FY] + four digits resolves to the year the
    digits spell; a relative token, a prefix naming [FY] then [-] or [+]
    and the digits of an offset, resolves to the current year minus or
    plus that offset; a token the absolute rule accepts is decided by that
    rule, before the relative ones are looked at; and the year read off
    the token of a record is the year of the record (the year 0 apart,
    which Python takes for no year). *)
Theorem period_token_year (current_year : Z) (year_digits pre ds : string) :
  String.length year_digits = 4%nat -> Py.all_digits year_digits = true ->
  Py.contains "FY" pre = true -> Py.contains "-" pre = false ->
  Py.contains "+" pre = false ->
  Py.isdigit ds = true -> (String.length ds <= 4300)%nat ->
  let k := Py.digits_value 0 ds in
  year_from_period current_year (CStr ("FY" +:+ year_digits))
    = Some (Py.digits_value 0 year_digits)
  /\ year_from_period current_year (CStr (pre +:+ "-" +:+ ds))
    = Some (current_year + - k)
  /\ year_from_period current_year (CStr (pre +:+ "+" +:+ ds))
    = Some (current_year + k)
  /\ (forall period, is_absolute period = true ->
        year_from_period current_year (CStr period)
        = Py.int_of_digits (Py.drop 2 period))
  /\ (forall cols row y,
        Py.mem "Period" cols = true ->
        year_from_period current_year (at_col row "Period") = Some y ->
        y <> 0 ->
        resolve_year current_year cols row = Some y).
Proof.
  intros Hlen4 Hall HFY Hhy Hpl Hd Hlen k.
  split; [|split; [|split; [|split]]].
  - apply absolute_token_year; [|lia].
    unfold Py.isdigit. rewrite Hall.
    destruct year_digits; [discriminate|reflexivity].
  - apply relative_past_year; assumption.
  - apply relative_future_year; assumption.
  - intros period Habs. unfold year_from_period. rewrite Habs. reflexivity.
  - intros cols row y. apply resolve_year_of_period.
Qed.

Lemma period_token_year_witness :
  year_from_period 2024 (CStr "FY2022") = Some 2022
  /\ year_from_period 2024 (CStr "IQ_FY-2") = Some 2022
  /\ year_from_period 2024 (CStr "IQ_FY+2") = Some 2026.
Proof.
  destruct (period_token_year 2024 "2022" "IQ_FY" "2") as (H1 & H2 & H3 & _ & _);
    try (vm_compute; reflexivity).
  - vm_compute. lia.
  - split; [exact H1 | split; [exact H2 | exact H3]].
Defined.

(** The examples of the resolver: anchor 2024, offset -2 and +1. *)
Lemma period_examples :
  map (year_from_period 2024)
      [CStr "FY2022"; CStr "IQ_FY-2"; CStr "IQ_FY+1"; CStr "IQ_FY"; CStr ""; CNone]
  = [Some 2022; Some 2022; Some 2025; Some 2024; None; None].
Proof. vm_compute. reflexivity. Qed.

Lemma find_none_seqZ (P : Z -> bool) (m n : Z) :
  forallb (fun y' => negb (P y')) (seqZ m n) = true ->
  List.find P (seqZ m n) = None.
Proof.
  induction (seqZ m n) as [|x l IH]; [reflexivity|].
  cbn [forallb List.find]. intros H. apply andb_true_iff in H as [Hx Hl].
  apply negb_true_iff in Hx. rewrite Hx. auto.
Qed.

(** What a search through consecutive integers finds. *)
Lemma find_seqZ_some (P : Z -> bool) (m n y : Z) :
  List.find P (seqZ m n) = Some y <->
  m <= y < m + n /\ P y = true
  /\ forall y', m <= y' < y -> P y' = false.
Proof.
  destruct (Z.le_gt_cases n 0) as [Hn|Hn].
  { rewrite seqZ_nil by exact Hn. split; [discriminate|]. lia. }
  rewrite <- (Z2Nat.id n) by lia. generalize (Z.to_nat n) as k. clear.
  intros k. revert m. induction k as [|k IH]; intros m.
  { rewrite seqZ_nil by lia. split; [discriminate|]. lia. }
  rewrite seqZ_cons by lia. cbn [List.find].
  replace (Z.pred (Z.of_nat (S k))) with (Z.of_nat k) by lia.
  destruct (P m) eqn:Hm.
  - split.
    + intros [= <-]. split; [lia|]. split; [exact Hm|]. lia.
    + intros (Hr & Hy & Hmin). destruct (Z.eq_dec m y) as [->|Hne];
        [reflexivity|].
      rewrite Hmin in Hm by lia. discriminate.
  - rewrite IH. split.
    + intros (Hr & Hy & Hmin). split; [lia|]. split; [exact Hy|].
      intros y' Hy'. destruct (Z.eq_dec y' m) as [->|Hne]; [exact Hm|].
      apply Hmin. lia.
    + intros (Hr & Hy & Hmin).
      assert (m <> y) by (intros ->; congruence).
      split; [lia|]. split; [exact Hy|]. intros y' Hy'. apply Hmin. lia.
Qed.

Lemma find_seqZ_none (P : Z -> bool) (m n : Z) :
  List.find P (seqZ m n) = None <->
  forall y, m <= y < m + n -> P y = false.
Proof.
  split.
  - intros H y Hy. destruct (P y) eqn:E; [|reflexivity].
    assert (Hin : In y (seqZ m n)).
    { apply list_elem_of_In, elem_of_seqZ. lia. }
    exfalso. exact (eq_true_false_abs _ E (find_none _ _ H y Hin)).
  - intros H. destruct (List.find P (seqZ m n)) as [y|] eqn:E; [|reflexivity].
    apply find_seqZ_some in E as (Hr & Hy & _).
    rewrite (H y Hr) in Hy. discriminate.
Qed.

(** C7, as the code has it: on a token that none of the absolute,
    relative and current-period conditions accepts, the scan tries the
    years from [current_year - 10] through [current_year + 1] in ascending
    order and resolves to the first one whose digits occur in the token,
    and to no year when the digits of none of them occur; so a token that
    holds, of the years of the stated window, only [current_year + 2] is
    not resolved. *)
Theorem fallback_scan_window (current_year : Z) (period : string) :
  is_absolute period = false -> is_relative_past period = false ->
  is_relative_future period = false -> is_current period = false ->
  (forall y,
     year_from_period current_year (CStr period) = Some y <->
     current_year - 10 <= y <= current_year + 1
     /\ Py.contains (Py.str y) period = true
     /\ forall y', current_year - 10 <= y' < y ->
                   Py.contains (Py.str y') period = false)
  /\ (year_from_period current_year (CStr period) = None <->
      forall y, current_year - 10 <= y <= current_year + 1 ->
                Py.contains (Py.str y) period = false)
  /\ (Py.contains (Py.str (current_year + 2)) period = true ->
      (forall y, current_year - 10 <= y <= current_year + 1 ->
                 Py.contains (Py.str y) period = false) ->
      year_from_period current_year (CStr period) = None).
Proof.
  intros H1 H2 H3 H4.
  assert (E : year_from_period current_year (CStr period)
              = List.find (fun y => Py.contains (Py.str y) period)
                          (seqZ (current_year - 10) 12)).
  { unfold year_from_period. rewrite H1, H2, H3, H4. unfold Py.range.
    f_equal. f_equal. lia. }
  assert (Hnone : year_from_period current_year (CStr period) = None <->
                  forall y, current_year - 10 <= y <= current_year + 1 ->
                            Py.contains (Py.str y) period = false).
  { rewrite E, find_seqZ_none. split; intros H y Hy; apply H; lia. }
  split; [|split; [exact Hnone|]].
  - intros y. rewrite E, find_seqZ_some. split.
    + intros (Hr & Hy & Hmin). split; [lia|]. split; [exact Hy|exact Hmin].
    + intros (Hr & Hy & Hmin). split; [lia|]. split; [exact Hy|exact Hmin].
  - intros _ H. apply Hnone. exact H.
Qed.

Lemma fallback_scan_window_witness :
  year_from_period 2024 (CStr "CY2025") = Some 2025
  /\ year_from_period 2024 (CStr "CY2026") = None.
Proof.
  split.
  - destruct (fallback_scan_window 2024 "CY2025"
                eq_refl eq_refl eq_refl eq_refl) as (Hsome & _ & _).
    apply Hsome. split; [lia|]. split; [vm_compute; reflexivity|].
    intros y' Hy'.
    assert (Hcases : y' = 2014 \/ y' = 2015 \/ y' = 2016 \/ y' = 2017
                     \/ y' = 2018 \/ y' = 2019 \/ y' = 2020 \/ y' = 2021
                     \/ y' = 2022 \/ y' = 2023 \/ y' = 2024) by lia.
    repeat (destruct Hcases as [->|Hcases]; [vm_compute; reflexivity|]).
    subst y'. vm_compute. reflexivity.
  - destruct (fallback_scan_window 2024 "CY2026"
                eq_refl eq_refl eq_refl eq_refl) as (_ & _ & Hplus).
    apply Hplus; [vm_compute; reflexivity|].
    intros y' Hy'.
    assert (Hcases : y' = 2014 \/ y' = 2015 \/ y' = 2016 \/ y' = 2017
                     \/ y' = 2018 \/ y' = 2019 \/ y' = 2020 \/ y' = 2021
                     \/ y' = 2022 \/ y' = 2023 \/ y' = 2024 \/ y' = 2025)
      by lia.
    repeat (destruct Hcases as [->|Hcases]; [vm_compute; reflexivity|]).
    subst y'. vm_compute. reflexivity.
Defined.

(** On such a token, a scan that finds none of these years gives no year. *)
Lemma fallback_scan_none (current_year : Z) (period : string) :
  is_absolute period = false -> is_relative_past period = false ->
  is_relative_future period = false -> is_current period = false ->
  forallb (fun y' => negb (Py.contains (Py.str y') period))
          (Py.range (current_year - 10) (current_year + 2)) = true ->
  year_from_period current_year (CStr period) = None.
Proof.
  intros H1 H2 H3 H4 Hnone.
  unfold year_from_period. rewrite H1, H2, H3, H4.
  apply find_none_seqZ. exact Hnone.
Qed.

(** C7 as stated fails at the upper end of the window: in 2024 the token
    [CY2026] is accepted by none of the earlier conditions and contains
    the year [2024 + 2], which lies in the stated window, and the resolver
    gives no year for it, on the token and on a record that carries it. *)
Lemma fallback_scan_misses_plus_two :
  let period := "CY2026" in
  let row := [("Identifier", CStr "X"); ("Mnemonic", CStr "IQ_TOTAL_REV");
              ("Period", CStr period); ("Value", CNum (F64.of_Z 5))] in
  is_absolute period = false /\ is_relative_past period = false
  /\ is_relative_future period = false /\ is_current period = false
  /\ Py.contains (Py.str (2024 + 2)) period = true
  /\ 2024 - 10 <= 2024 + 2 <= 2024 + 2
  /\ year_from_period 2024 (CStr period) = None
  /\ year_from_period 2024 (CStr period) <> Some (2024 + 2)
  /\ resolve_year 2024 ["Identifier"; "Mnemonic"; "Period"; "Value"] row = None.
Proof.
  cbv zeta. repeat split; try (vm_compute; reflexivity); try lia.
  vm_compute. discriminate.
Qed.

End PeriodFacts.

(* ===================================================================== *)
(** * Properties: Canonical Assembler *)
(* ===================================================================== *)

Section AssemblerFacts.

Import Api.

Lemma set_metric_identity (name : string) (v : F64.float) (r : YearRecord) :
  same_identity r (set_metric name v r).
Proof. repeat split. Qed.

Lemma evolves_refl (written : string -> F64.float -> Prop)
    (o : option YearRecord) : evolves written o o.
Proof. destruct o; cbn; [|exact I]. repeat split; auto. Qed.

Lemma evolves_trans (written : string -> F64.float -> Prop)
    (o1 o2 o3 : option YearRecord) :
  evolves written o1 o2 -> evolves written o2 o3 -> evolves written o1 o3.
Proof.
  destruct o1 as [r1|], o2 as [r2|], o3 as [r3|]; cbn; try tauto.
  intros [(A1 & A2 & A3 & A4) [P1 M1]] [(B1 & B2 & B3 & B4) [P2 M2]].
  split; [repeat split; congruence|]. split.
  - intros name v H3. destruct (P2 name v H3) as [H2|HW]; [|right; exact HW].
    exact (P1 name v H2).
  - intros HW. rewrite (M2 HW). exact (M1 HW).
Qed.

(** A loop whose every step respects a preorder respects it as a whole. *)
Lemma fold_left_preorder {A B : Type} (R : A -> A -> Prop) (f : A -> B -> A)
    (l : list B) (a : A) :
  (forall a, R a a) ->
  (forall a b c, R a b -> R b c -> R a c) ->
  (forall a x, x ∈ l -> R a (f a x)) ->
  R a (fold_left f l a).
Proof.
  intros Hrefl Htrans. revert a.
  induction l as [|x l IH]; intros a Hstep; cbn [fold_left]; [apply Hrefl|].
  apply (Htrans _ (f a x)).
  - apply Hstep. left.
  - apply IH. intros a' x' Hx'. apply Hstep. right. exact Hx'.
Qed.

Section Run.

Variable py_float : string -> option F64.float.
Variable current_year : Z.
Variable raw_df : Table.

Lemma Evolves_refl fd :
  Evolves (written_by py_float current_year raw_df) fd fd.
Proof. intros y. apply evolves_refl. Qed.

Lemma Evolves_trans fd1 fd2 fd3 :
  Evolves (written_by py_float current_year raw_df) fd1 fd2 ->
  Evolves (written_by py_float current_year raw_df) fd2 fd3 ->
  Evolves (written_by py_float current_year raw_df) fd1 fd3.
Proof. intros H1 H2 y. exact (evolves_trans _ _ _ _ (H1 y) (H2 y)). Qed.

(** One row writes at most the entry of the year it resolves to, and
    only the metric it carries. *)
Lemma process_row_evolves (metric : string * string)
    (first_row : record) (rest : list record) (c : string)
    (fd : gmap Z YearRecord) (row : record) :
  metric ∈ metric_names ->
  rows_of_mnemonic (fst metric) raw_df = first_row :: rest ->
  find_value_col py_float (fst metric) (columns raw_df) first_row = Some c ->
  row ∈ first_row :: rest ->
  Evolves (written_by py_float current_year raw_df) fd
    (process_row py_float current_year (columns raw_df)
       (fst metric) (snd metric) c fd row).
Proof.
  intros Hm Hrows Hcol Hrow. unfold process_row.
  destruct (resolve_year current_year (columns raw_df) row) as [y|] eqn:Hy;
    [|apply Evolves_refl].
  destruct (no_year (Some y) || negb (has_year fd y)); [apply Evolves_refl|].
  destruct (extract_value py_float c (columns raw_df) row) as [value|] eqn:Hv;
    [|apply Evolves_refl].
  assert (HW : written_by py_float current_year raw_df y (snd metric)
                 (normalize (fst metric) value)).
  { exists metric, first_row, rest, c, row, value.
    repeat (split; [first [assumption | reflexivity]|]). reflexivity. }
  intros y'. destruct (decide (y = y')) as [<-|Hne].
  - rewrite lookup_alter_eq.
    destruct (fd !! y) as [r|]; cbn; [|exact I].
    split; [apply set_metric_identity|]. split.
    + intros name v Hl.
      destruct (decide (snd metric = name)) as [<-|Hn].
      * rewrite lookup_insert_eq in Hl. injection Hl as <-. right. exact HW.
      * rewrite lookup_insert_ne in Hl by exact Hn. left. exact Hl.
    + intros Hnone. exfalso. exact (Hnone _ _ HW).
  - rewrite lookup_alter_ne by exact Hne. apply evolves_refl.
Qed.

Lemma process_metric_evolves (fd : gmap Z YearRecord)
    (metric : string * string) :
  metric ∈ metric_names ->
  Evolves (written_by py_float current_year raw_df) fd
    (process_metric py_float current_year raw_df fd metric).
Proof.
  intros Hm. unfold process_metric.
  destruct (rows_of_mnemonic (fst metric) raw_df) as [|first_row rest] eqn:Hrows;
    [apply Evolves_refl|].
  destruct (find_value_col py_float (fst metric) (columns raw_df) first_row)
    as [c|] eqn:Hcol; cbn [col_truthy]; [|apply Evolves_refl].
  destruct (Py.truthy c); [|apply Evolves_refl].
  apply (fold_left_preorder
           (Evolves (written_by py_float current_year raw_df)));
    [apply Evolves_refl|apply Evolves_trans|].
  intros fd' row Hrow.
  apply (process_row_evolves metric first_row rest c); assumption.
Qed.

Lemma process_all_evolves (fd : gmap Z YearRecord) :
  Evolves (written_by py_float current_year raw_df) fd
    (fold_left (process_metric py_float current_year raw_df)
               metric_names fd).
Proof.
  apply (fold_left_preorder
           (Evolves (written_by py_float current_year raw_df)));
    [apply Evolves_refl|apply Evolves_trans|].
  intros fd' metric Hm. apply process_metric_evolves. exact Hm.
Qed.

End Run.

(** The initial dictionary has an entry for exactly the listed years. *)
Lemma init_data_lookup (ticker name : string) (ys : list Z) (y : Z) :
  init_data ticker name ys !! y
  = if decide (y ∈ ys) then Some (init_record ticker name y) else None.
Proof.
  unfold init_data.
  assert (G : forall m : gmap Z YearRecord,
             fold_left (fun fd year => <[year := init_record ticker name year]> fd)
                       ys m !! y
             = if decide (y ∈ ys) then Some (init_record ticker name y)
               else m !! y).
  { induction ys as [|x ys IH]; intros m; cbn [fold_left].
    - rewrite decide_False by apply not_elem_of_nil. reflexivity.
    - rewrite IH. destruct (decide (y ∈ ys)) as [Hin|Hnin].
      + rewrite decide_True by (right; exact Hin). reflexivity.
      + destruct (decide (y = x)) as [->|Hne].
        * rewrite decide_True by left. apply lookup_insert_eq.
        * rewrite decide_False.
          -- apply lookup_insert_ne. congruence.
          -- intros Hin. apply elem_of_cons in Hin as [?|?]; contradiction. }
  rewrite G. destruct (decide (y ∈ ys)); [reflexivity|apply lookup_empty].
Qed.

Lemma fold_set_metric_identity (kv : list (string * F64.float))
    (r : YearRecord) :
  same_identity r (fold_left (fun r mv => set_metric (fst mv) (snd mv) r) kv r).
Proof.
  revert r. induction kv as [|x kv IH]; intros r; cbn [fold_left].
  - repeat split.
  - destruct (IH (set_metric (fst x) (snd x) r)) as (A & B & C & D).
    repeat split; assumption.
Qed.

Lemma init_record_identity (ticker name : string) (y : Z) :
  same_identity (identity_record ticker name y) (init_record ticker name y).
Proof.
  unfold init_record.
  destruct (Py.upper ticker =? "AAPL")%string; [|repeat split].
  destruct (historical_for y apple_historical); [|repeat split].
  apply fold_set_metric_identity.
Qed.

Lemma init_record_other (ticker name : string) (y : Z) :
  Py.upper ticker <> "AAPL" ->
  init_record ticker name y = identity_record ticker name y.
Proof.
  intros H. unfold init_record. apply String.eqb_neq in H. rewrite H.
  reflexivity.
Qed.


(** Consecutive integers are in ascending order. *)
Lemma seqZ_sorted (m n : Z) : Sorted Z.le (seqZ m n).
Proof.
  destruct (Z.le_gt_cases n 0) as [Hn|Hn].
  { rewrite seqZ_nil by exact Hn. constructor. }
  rewrite <- (Z2Nat.id n) by lia. generalize (Z.to_nat n) as k. clear.
  intros k. revert m. induction k as [|k IH]; intros m.
  - rewrite seqZ_nil by lia. constructor.
  - rewrite seqZ_cons by lia.
    replace (Z.pred (Z.of_nat (S k))) with (Z.of_nat k) by lia.
    constructor; [apply IH|].
    destruct k as [|k]; [rewrite seqZ_nil by lia; constructor|].
    rewrite seqZ_cons by lia. constructor. lia.
Qed.

(** The sorted keys of a dictionary whose keys are a run of consecutive
    integers. *)
Lemma sorted_keys_window (fd : gmap Z YearRecord) (m n : Z) :
  (forall y, is_Some (fd !! y) <-> y ∈ seqZ m n) ->
  merge_sort Z.le (map fst (map_to_list fd)) = seqZ m n.
Proof.
  intros Hdom. apply (Sorted_unique Z.le).
  - apply Sorted_merge_sort. apply _.
  - apply seqZ_sorted.
  - rewrite merge_sort_Permutation. apply NoDup_Permutation.
    + apply NoDup_fst_map_to_list.
    + apply NoDup_seqZ.
    + intros y. rewrite <- Hdom. rewrite list_elem_of_fmap. split.
      * intros ([y' r] & -> & Hin). apply elem_of_map_to_list in Hin.
        exists r. exact Hin.
      * intros [r Hr]. exists (y, r). split; [reflexivity|].
        apply elem_of_map_to_list. exact Hr.
Qed.

(** Reading a list of years off a dictionary that holds, under each of
    them, a row of that year. *)
Lemma years_of_rows (fd : gmap Z YearRecord) (l : list Z) :
  (forall y, y ∈ l -> exists r, fd !! y = Some r /\ Year r = y) ->
  map Year (omap (fun y => fd !! y) l) = l.
Proof.
  induction l as [|x l IH]; intros H; [reflexivity|].
  cbn [omap list_omap]. destruct (H x) as (r & Hr & Hy); [left|].
  rewrite Hr. cbn [map]. rewrite Hy. f_equal. apply IH.
  intros y Hin. apply H. right. exact Hin.
Qed.


(** What the loops leave under a year of the window, and outside it. *)
Lemma processed_entry (py_float : string -> option F64.float)
    (current_year : Z) (ticker : string) (raw_df : Table)
    (ys : list Z) (y : Z) :
  let name := company_name_of ticker raw_df in
  let fd := fold_left (process_metric py_float current_year raw_df)
                      metric_names (init_data ticker name ys) in
  if decide (y ∈ ys)
  then exists r, fd !! y = Some r
                 /\ same_identity (identity_record ticker name y) r
                 /\ (forall metric v, metrics r !! metric = Some v ->
                       metrics (init_record ticker name y) !! metric = Some v
                       \/ written_by py_float current_year raw_df y metric v)
                 /\ (~ extracted_for py_float current_year raw_df y ->
                     metrics r = metrics (init_record ticker name y))
  else fd !! y = None.
Proof.
  intros name fd.
  pose proof (process_all_evolves py_float current_year raw_df
                (init_data ticker name ys) y) as H.
  fold fd in H. rewrite init_data_lookup in H.
  destruct (decide (y ∈ ys)) as [Hin|Hnin].
  - destruct (fd !! y) as [r|]; cbn in H; [|contradiction].
    destruct H as [(A & B & C & D) [P M]]. exists r. split; [reflexivity|].
    split; [|split; [exact P|]].
    + destruct (init_record_identity ticker name y) as (A' & B' & C' & D').
      repeat split; congruence.
    + intros Hnone. apply M. intros metric v HW. apply Hnone.
      exists metric, v. exact HW.
  - destruct (fd !! y); cbn in H; [contradiction|reflexivity].
Qed.

(** The rows of a normalised table: one per year of the window, in
    ascending order, each with the identity fields of its year; and, for a
    ticker other than AAPL, every metric value of a row is one the rows of
    the table write for its year, and a row has no metrics when no data
    was extracted for its year. *)
Lemma assemble_rows (py_float : string -> option F64.float)
    (current_year : Z) (ticker : string) (years : Z) (raw_df : Table) :
  let out := assemble py_float current_year ticker years raw_df in
  map Year out = Py.range (current_year - years + 1) (current_year + 1)
  /\ Forall (fun r =>
               same_identity
                 (identity_record ticker (company_name_of ticker raw_df) (Year r))
                 r) out
  /\ (Py.upper ticker <> "AAPL" ->
      Forall (fun r =>
                (forall metric v, metrics r !! metric = Some v ->
                   written_by py_float current_year raw_df (Year r) metric v)
                /\ (~ extracted_for py_float current_year raw_df (Year r) ->
                    metrics r = ∅)) out).
Proof.
  intros out. unfold assemble in out.
  set (name := company_name_of ticker raw_df) in *.
  set (ys := Py.range (current_year - years + 1) (current_year + 1)) in *.
  set (fd := fold_left _ _ _) in out.
  assert (Hentry := fun y => processed_entry py_float current_year ticker raw_df ys y).
  cbv zeta in Hentry. fold name fd in Hentry.
  assert (Hkeys : merge_sort Z.le (map fst (map_to_list fd)) = ys).
  { apply sorted_keys_window. intros y. specialize (Hentry y).
    destruct (decide (y ∈ ys)) as [Hin|Hnin].
    - destruct Hentry as (r & Hr & _). rewrite Hr. split; [auto|eauto].
    - rewrite Hentry. split; [intros [? ?]; discriminate|contradiction]. }
  unfold result_rows in out. subst out. rewrite Hkeys.
  split; [|split].
  - apply years_of_rows. intros y Hin. specialize (Hentry y).
    rewrite decide_True in Hentry by exact Hin.
    destruct Hentry as (r & Hr & (A & _) & _). exists r. split; [exact Hr|].
    exact A.
  - apply Forall_forall. intros r Hr.
    apply list_elem_of_omap in Hr as (y & Hin & Hy).
    specialize (Hentry y). rewrite decide_True in Hentry by exact Hin.
    destruct Hentry as (r' & Hr' & Hid & _).
    assert (r' = r) as -> by congruence.
    destruct Hid as (A & B & C & D). cbn [Year identity_record] in A.
    rewrite A. repeat split; assumption.
  - intros Hother. apply Forall_forall. intros r Hr.
    apply list_elem_of_omap in Hr as (y & Hin & Hy).
    specialize (Hentry y). rewrite decide_True in Hentry by exact Hin.
    destruct Hentry as (r' & Hr' & (A & _) & P & M).
    assert (r' = r) as -> by congruence.
    cbn [Year identity_record] in A. rewrite A.
    rewrite (init_record_other ticker name y Hother) in P, M.
    cbn [metrics identity_record] in P, M. split.
    + intros metric v Hl. destruct (P metric v Hl) as [He|HW]; [|exact HW].
      rewrite lookup_empty in He. discriminate.
    + exact M.
Qed.

(** A table that is not empty comes from a list of replies that is not
    empty; once it is written to its file, it is normalised. *)
Lemma fetch_company_of_rows (py_float : string -> option F64.float)
    (env : Env) (ticker : string) (years : Z) (rows : list Reply) :
  ciq_fetch env (build_requests env [Py.upper (Py.strip ticker)] years)
    = Ok rows ->
  table_empty (parse_to_table rows) = false ->
  to_csv env (raw_csv_path ticker) = true ->
  fetch_company_by_ticker py_float env ticker years
  = assemble py_float (now_year env) ticker years (parse_to_table rows).
Proof.
  intros Hfetch Hne Hcsv. unfold fetch_company_by_ticker, fetch_company_body.
  rewrite Hfetch. cbn [bind].
  destruct rows as [|row rows]; [discriminate|]. rewrite Hne, Hcsv.
  reflexivity.
Qed.

(** A raw table that cannot be written to its file ends the run. *)
Lemma fetch_company_unwritable (py_float : string -> option F64.float)
    (env : Env) (ticker : string) (years : Z) (rows : list Reply) :
  ciq_fetch env (build_requests env [Py.upper (Py.strip ticker)] years)
    = Ok rows ->
  table_empty (parse_to_table rows) = false ->
  to_csv env (raw_csv_path ticker) = false ->
  fetch_company_body py_float env ticker years = Raise OSError
  /\ fetch_company_by_ticker py_float env ticker years = [].
Proof.
  intros Hfetch Hne Hcsv. unfold fetch_company_by_ticker, fetch_company_body.
  rewrite Hfetch. cbn [bind].
  destruct rows as [|row rows]; [discriminate|]. rewrite Hne, Hcsv.
  split; reflexivity.
Qed.

(** C8, as the code has it: whenever the fetch succeeds, at least one
    row is flattened from its replies and the raw table is written to
    its file [<ticker>_raw_data.csv], the output has exactly one row for
    each year of the window [current_year - years + 1 .. current_year], in
    ascending order and for no other year; every row carries the identity
    fields of its year; and, for a ticker other than AAPL, a year for which
    no data was extracted carries nothing else.  When the fetch fails, no
    row is flattened or the file cannot be written, the output has no
    row. *)
Theorem fetched_rows_cover_window (py_float : string -> option F64.float)
    (env : Env) (ticker : string) (years : Z) :
  let fetched :=
    ciq_fetch env (build_requests env [Py.upper (Py.strip ticker)] years) in
  let out := fetch_company_by_ticker py_float env ticker years in
  (forall rows,
     fetched = Ok rows ->
     table_empty (parse_to_table rows) = false ->
     to_csv env (ticker +:+ "_raw_data.csv") = true ->
     map Year out = seqZ (now_year env - years + 1) years
     /\ Forall (fun r =>
                  Date r = Py.str (Year r) +:+ "-12-31"
                  /\ Ticker r = Py.upper ticker
                  /\ Company r = company_name_of ticker (parse_to_table rows))
               out
     /\ (Py.upper ticker <> "AAPL" ->
         Forall (fun r =>
                   ~ extracted_for py_float (now_year env)
                       (parse_to_table rows) (Year r) ->
                   metrics r = ∅) out))
  /\ (forall e, fetched = Raise e -> out = [])
  /\ (forall rows,
        fetched = Ok rows ->
        table_empty (parse_to_table rows) = true
        \/ to_csv env (ticker +:+ "_raw_data.csv") = false ->
        out = []).
Proof.
  intros fetched out. subst fetched out. split; [|split].
  - intros rows Hfetch Hne Hcsv.
    rewrite (fetch_company_of_rows py_float env ticker years rows
               Hfetch Hne Hcsv).
    destruct (assemble_rows py_float (now_year env) ticker years
                (parse_to_table rows)) as (Hy & Hid & Hm).
    split; [|split].
    + rewrite Hy. unfold Py.range. f_equal. lia.
    + eapply Forall_impl; [exact Hid|]. cbn beta.
      intros r (A & B & C & D). cbn in B, C, D. auto.
    + intros Hother. eapply Forall_impl; [exact (Hm Hother)|]. cbn beta.
      intros r [_ H]. exact H.
  - intros e Hfetch. unfold fetch_company_by_ticker, fetch_company_body.
    rewrite Hfetch. reflexivity.
  - intros rows Hfetch Hcase.
    destruct (table_empty (parse_to_table rows)) eqn:Hne.
    + unfold fetch_company_by_ticker, fetch_company_body.
      rewrite Hfetch. cbn [bind].
      destruct rows as [|row rows]; [reflexivity|]. rewrite Hne.
      reflexivity.
    + destruct Hcase as [Hcase|Hcsv]; [discriminate|].
      exact (proj2 (fetch_company_unwritable py_float env ticker years rows
                      Hfetch Hne Hcsv)).
Qed.

(** For a ticker other than AAPL, every metric value of the output is the
    normalised value of a cell of a row the fetch returned, filed under
    the year that row resolves to. *)
Lemma fetched_values_come_from_rows
    (py_float : string -> option F64.float)
    (env : Env) (ticker : string) (years : Z) (rows : list Reply) :
  ciq_fetch env (build_requests env [Py.upper (Py.strip ticker)] years)
    = Ok rows ->
  table_empty (parse_to_table rows) = false ->
  to_csv env (raw_csv_path ticker) = true ->
  Py.upper ticker <> "AAPL" ->
  Forall (fun r =>
            forall metric v, metrics r !! metric = Some v ->
              written_by py_float (now_year env) (parse_to_table rows)
                         (Year r) metric v)
         (fetch_company_by_ticker py_float env ticker years).
Proof.
  intros Hfetch Hne Hcsv Hother.
  rewrite (fetch_company_of_rows py_float env ticker years rows Hfetch Hne
             Hcsv).
  destruct (assemble_rows py_float (now_year env) ticker years
              (parse_to_table rows)) as (_ & _ & Hm).
  eapply Forall_impl; [exact (Hm Hother)|]. cbn beta.
  intros r [H _]. exact H.
Qed.

Lemma fetched_rows_cover_window_witness :
  let out := fetch_company_by_ticker decimal_float
               (Samples.env_ok [Samples.name_reply]) "msft" 3 in
  map Year out = [2022; 2023; 2024]
  /\ Forall (fun r => metrics r = ∅) out.
Proof.
  destruct (fetched_rows_cover_window decimal_float
              (Samples.env_ok [Samples.name_reply]) "msft" 3)
    as (Hcover & _ & _).
  destruct (Hcover [Samples.name_reply]) as (Hy & _ & Hm);
    [vm_compute; reflexivity | vm_compute; reflexivity
    | vm_compute; reflexivity |].
  split; [exact Hy|].
  eapply Forall_impl; [apply Hm; vm_compute; discriminate|].
  cbn beta. intros r H. apply H.
  intros (name & v & metric & first_row & rest & c & row & value
          & Hin & _ & Hrows & _).
  revert Hrows. repeat (apply elem_of_cons in Hin as [->|Hin];
    [vm_compute; discriminate|]). inversion Hin.
Defined.

(** C8 as stated fails when the reply holds no rows: in 2024, three years
    are requested, the fetch succeeds with an empty reply list, and the
    output has no row at all, where the window has the years 2022 to
    2024. *)
(** A ticker with a path separator: the fetch succeeds and a row is
    flattened, the file [BRK/B_raw_data.csv] cannot be written in a
    directory without subdirectories, and the output has no row. *)
Lemma unwritable_table_gives_no_rows :
  let env := Samples.env_ok [Samples.name_reply] in
  ciq_fetch env (build_requests env [Py.upper (Py.strip "BRK/B")] 3)
    = Ok [Samples.name_reply]
  /\ table_empty (parse_to_table [Samples.name_reply]) = false
  /\ to_csv env (raw_csv_path "BRK/B") = false
  /\ fetch_company_by_ticker decimal_float env "BRK/B" 3 = [].
Proof. repeat split; vm_compute; reflexivity. Qed.

Lemma empty_reply_gives_no_rows :
  1 <= 3
  /\ ciq_fetch (Samples.env_ok [])
       (build_requests (Samples.env_ok []) [Py.upper (Py.strip "MSFT")] 3)
     = Ok []
  /\ fetch_company_by_ticker decimal_float (Samples.env_ok []) "MSFT" 3 = []
  /\ map Year (fetch_company_by_ticker decimal_float (Samples.env_ok []) "MSFT" 3)
     <> seqZ (2024 - 3 + 1) 3.
Proof.
  split; [lia|]. split; [vm_compute; reflexivity|].
  split; [vm_compute; reflexivity|]. vm_compute. discriminate.
Qed.

End AssemblerFacts.

(* ===================================================================== *)
(** * Properties: Value Extractor *)
(* ===================================================================== *)

Section ExtractorFacts.

Import Api.

Variable py_float : string -> option F64.float.

(** The value column of a financial metric is [Value] when the table has
    such a column. *)
Lemma value_column_conventional (mnemonic : string) (cols : list string)
    (first_row : record) :
  Py.mem mnemonic financial_mnemonics = true ->
  Py.mem "Value" cols = true ->
  find_value_col py_float mnemonic cols first_row = Some "Value".
Proof. intros H1 H2. unfold find_value_col. rewrite H1, H2. reflexivity. Qed.

(** No value column is chosen for a mnemonic outside the seven financial
    ones, so nothing is extracted from its records. *)
Lemma other_mnemonic_not_extracted (mnemonic : string) (cols : list string)
    (first_row row : record) :
  Py.mem mnemonic financial_mnemonics = false ->
  value_of_record py_float mnemonic cols first_row row = None.
Proof.
  intros H. unfold value_of_record, find_value_col. rewrite H. reflexivity.
Qed.

(** A number that is not NaN in the value column is the value. *)
Lemma primary_value_number (f : F64.float) :
  F64.is_nan f = false -> primary_value py_float (CNum f) = Some f.
Proof. intros H. unfold primary_value. cbn [isna]. rewrite H. reflexivity. Qed.

(** A string in the value column is read after cleaning, unless it looks
    like a date or names unavailable data. *)
Lemma primary_value_string (s : string) :
  Py.contains "/" s = false -> Py.contains "-" s = false ->
  Py.mem (Py.lower s) unavailable = false ->
  primary_value py_float (CStr s) = clean_float py_float s.
Proof.
  intros H1 H2 H3. unfold primary_value. cbn [isna negb].
  rewrite H1, H2, H3. reflexivity.
Qed.

(** The loop over the alternatives returns what the first of its columns
    that yields a value yields. *)
Lemma scan_alternatives_first (value_col : string) (row : record)
    (cols : list string) :
  scan_alternatives py_float value_col row cols
  = hd_error (omap (fun col => alternative_value py_float (at_col row col))
                   (alternative_columns value_col cols)).
Proof.
  unfold alternative_columns.
  induction cols as [|col cols IH]; [reflexivity|].
  cbn [scan_alternatives List.filter].
  destruct (Py.mem col metadata_columns || (col =? value_col)%string);
    cbn [negb]; [exact IH|].
  cbn [omap list_omap].
  destruct (alternative_value py_float (at_col row col)); [reflexivity|exact IH].
Qed.

Lemma hd_error_omap_none {A B : Type} (f : A -> option B) (l : list A) :
  hd_error (omap f l) = None <-> Forall (fun x => f x = None) l.
Proof.
  induction l as [|x l IH]; cbn [omap list_omap].
  - split; [constructor|reflexivity].
  - destruct (f x) eqn:E; cbn [hd_error].
    + split; [discriminate|]. intros H. inversion H; congruence.
    + rewrite IH. split; [intros H; constructor; assumption|].
      intros H. inversion H; assumption.
Qed.

(** The column the search through the first row stops at. *)
Lemma scan_first_row_origin (first_row : record) (cols : list string)
    (c : string) :
  scan_first_row py_float first_row cols = Some c ->
  exists pre post,
    cols = pre ++ c :: post
    /\ Py.mem c metadata_columns = false
    /\ match at_col first_row c with
       | CNum _ => True
       | CStr val => is_Some (clean_float py_float val)
       | CNone => False
       end
    /\ Forall (fun c' =>
                 Py.mem c' metadata_columns = true
                 \/ match at_col first_row c' with
                    | CNum _ => False
                    | CStr val => clean_float py_float val = None
                    | CNone => True
                    end) pre.
Proof.
  induction cols as [|col cols IH]; cbn [scan_first_row]; [discriminate|].
  assert (Hrec : scan_first_row py_float first_row cols = Some c ->
                 (Py.mem col metadata_columns = true
                  \/ match at_col first_row col with
                     | CNum _ => False
                     | CStr val => clean_float py_float val = None
                     | CNone => True
                     end) ->
                 exists pre post,
                   col :: cols = pre ++ c :: post
                   /\ Py.mem c metadata_columns = false
                   /\ match at_col first_row c with
                      | CNum _ => True
                      | CStr val => is_Some (clean_float py_float val)
                      | CNone => False
                      end
                   /\ Forall (fun c' =>
                                Py.mem c' metadata_columns = true
                                \/ match at_col first_row c' with
                                   | CNum _ => False
                                   | CStr val => clean_float py_float val = None
                                   | CNone => True
                                   end) pre).
  { intros E Hcol. destruct (IH E) as (pre & post & A & B & C & D).
    exists (col :: pre), post. split; [rewrite A; reflexivity|].
    split; [exact B|]. split; [exact C|]. constructor; assumption. }
  destruct (Py.mem col metadata_columns) eqn:Em.
  { intros E. apply Hrec; [exact E|left; reflexivity]. }
  destruct (at_col first_row col) as [f|val|] eqn:Ecell.
  - intros [= E]. rewrite <- E. exists [], cols. split; [reflexivity|].
    split; [exact Em|]. rewrite Ecell. split; [exact I|constructor].
  - destruct (clean_float py_float val) as [x|] eqn:Ec.
    + intros [= E]. rewrite <- E. exists [], cols. split; [reflexivity|].
      split; [exact Em|]. rewrite Ecell, Ec. split; [eauto|constructor].
    + intros E. apply Hrec; [exact E|]. right. reflexivity.
  - intros E. apply Hrec; [exact E|]. right. exact I.
Qed.

(** The first column that yields a value, in the order of the scan. *)
Lemma hd_error_omap_some {A B : Type} (g : A -> option B) (l : list A)
    (b : B) :
  hd_error (omap g l) = Some b <->
  exists pre x post,
    l = pre ++ x :: post /\ g x = Some b /\ Forall (fun y => g y = None) pre.
Proof.
  induction l as [|x l IH]; cbn [omap list_omap].
  - split; [discriminate|]. intros (pre & y & post & E & _).
    destruct pre; discriminate.
  - destruct (g x) as [b'|] eqn:E; cbn [hd_error].
    + split.
      * intros [= ->]. exists [], x, l. split; [reflexivity|].
        split; [exact E|constructor].
      * intros (pre & y & post & El & Hy & Hpre).
        destruct pre as [|p pre]; cbn in El; injection El as -> ->.
        -- congruence.
        -- inversion Hpre; congruence.
    + rewrite IH. split.
      * intros (pre & y & post & -> & Hy & Hpre).
        exists (x :: pre), y, post. split; [reflexivity|].
        split; [exact Hy|constructor; assumption].
      * intros (pre & y & post & El & Hy & Hpre).
        destruct pre as [|p pre]; cbn in El; injection El as -> ->.
        -- congruence.
        -- exists pre, y, post. split; [reflexivity|].
           split; [exact Hy|]. inversion Hpre; assumption.
Qed.

(** When the value column gives nothing. *)
Lemma primary_value_none (x : cell) :
  primary_value py_float x = None <->
  x = CNone
  \/ (exists f, x = CNum f /\ F64.is_nan f = true)
  \/ (exists s, x = CStr s
                /\ (Py.contains "/" s = true \/ Py.contains "-" s = true
                    \/ Py.mem (Py.lower s)
                         ["n/a"; "data unavailable"; "na"; ""] = true
                    \/ py_float (Py.strip (Py.remove_char "," s)) = None)).
Proof.
  unfold primary_value, clean_float, unavailable, comma.
  destruct x as [f|s|]; cbn [isna negb].
  - destruct (F64.is_nan f) eqn:E; cbn [negb].
    + split; [|reflexivity]. intros _. right. left. eauto.
    + split; [discriminate|].
      intros [H|[(f' & [= <-] & H)|(s & H & _)]]; congruence.
  - split.
    + intros H. right. right. exists s. split; [reflexivity|].
      destruct (Py.contains "/" s); [auto|].
      destruct (Py.contains "-" s); [auto|].
      destruct (Py.mem (Py.lower s) _); [auto|]. cbn [orb] in H. auto.
    + intros [H|[(f & H & _)|(s' & [= <-] & H)]]; try discriminate.
      destruct H as [->|[->|[->|H]]]; rewrite ?orb_true_r; try reflexivity.
      destruct (_ || _ || _); [reflexivity|exact H].
  - split; [auto|reflexivity].
Qed.

(** When a column of the scan gives a value, and when it gives none. *)
Lemma alternative_value_some (x : cell) (v : F64.float) :
  alternative_value py_float x = Some v <->
  (x = CNum v /\ F64.is_nan v = false)
  \/ (exists s, x = CStr s
                /\ Py.contains "/" s = false /\ Py.contains "-" s = false
                /\ (2 <= String.length s)%nat
                /\ py_float (Py.strip (Py.remove_char "," s)) = Some v).
Proof.
  unfold alternative_value, clean_float, comma.
  destruct x as [f|s|]; cbn [isna].
  - rewrite orb_false_r. destruct (F64.is_nan f) eqn:E.
    + split; [discriminate|].
      intros [[[= <-] H]|(s & H & _)]; congruence.
    + split.
      * intros [= ->]. left. auto.
      * intros [[[= <-] _]|(s & H & _)]; [reflexivity|discriminate].
  - cbn [orb]. destruct (String.eqb_spec s "") as [->|Hne].
    + split; [discriminate|].
      intros [[H _]|(s & [= <-] & _ & _ & Hlen & _)]; [discriminate|].
      cbn in Hlen. lia.
    + split.
      * intros H. right. exists s. split; [reflexivity|].
        destruct (Py.contains "/" s); [discriminate|].
        destruct (Py.contains "-" s); [discriminate|].
        cbn [orb] in H. destruct (Nat.ltb_spec (String.length s) 2);
          [discriminate|]. auto.
      * intros [[H _]|(s' & [= <-] & H1 & H2 & Hlen & H)]; [discriminate|].
        rewrite H1, H2. cbn [orb].
        destruct (Nat.ltb_spec (String.length s) 2); [lia|exact H].
  - split; [discriminate|]. intros [[H _]|(s & H & _)]; discriminate.
Qed.

Lemma alternative_value_none (x : cell) :
  alternative_value py_float x = None <->
  x = CNone
  \/ (exists f, x = CNum f /\ F64.is_nan f = true)
  \/ (exists s, x = CStr s
                /\ (Py.contains "/" s = true \/ Py.contains "-" s = true
                    \/ (String.length s < 2)%nat
                    \/ py_float (Py.strip (Py.remove_char "," s)) = None)).
Proof.
  destruct (alternative_value py_float x) as [v|] eqn:E.
  - apply alternative_value_some in E. split; [discriminate|].
    intros [->|[(f & -> & Hf)|(s & -> & Hs)]].
    + destruct E as [[H _]|(s & H & _)]; discriminate.
    + destruct E as [[[= <-] H]|(s & H & _)]; congruence.
    + destruct E as [[H _]|(s' & [= <-] & H1 & H2 & Hlen & H)];
        [discriminate|].
      destruct Hs as [Hs|[Hs|[Hs|Hs]]]; [congruence|congruence|lia|congruence].
  - split; [|reflexivity]. intros _.
    destruct x as [f|s|]; [right; left|right; right|left; reflexivity].
    + exists f. split; [reflexivity|].
      destruct (F64.is_nan f) eqn:Hf; [reflexivity|].
      assert (H : alternative_value py_float (CNum f) = Some f)
        by (apply alternative_value_some; left; auto).
      congruence.
    + exists s. split; [reflexivity|].
      destruct (Py.contains "/" s) eqn:H1; [auto|].
      destruct (Py.contains "-" s) eqn:H2; [auto|].
      destruct (Nat.ltb_spec (String.length s) 2) as [Hlt|Hge]; [auto|].
      right. right. right.
      destruct (py_float (Py.strip (Py.remove_char "," s))) as [v|] eqn:Hp;
        [|reflexivity].
      assert (H : alternative_value py_float (CStr s) = Some v).
      { apply alternative_value_some. right. exists s. auto. }
      congruence.
Qed.

(** C4, as the code has it, for a row of one of the seven financial
    mnemonics whose value column is [c] ([Value] when the table has that
    column, else the first column, the metadata columns apart, whose cell
    in the first row of the metric is a float or a string that reads as
    one after comma stripping).  A number that is not NaN in column [c]
    is returned.  A string there is returned as the number it spells once
    commas and surrounding blanks are removed, provided it has no [/] and
    no [-] and is not an "unavailable" marker.  In every other case (no
    value, NaN, a string with [/] or [-], a marker, a string that spells
    no number) the other columns are scanned in table order, the metadata
    columns apart, and the first cell that is a number other than NaN, or
    a string of two characters or more without [/] and [-] that spells a
    number, gives the value.  Extraction fails exactly when column [c]
    and all those columns give nothing. *)
Theorem value_extraction (mnemonic : string) (cols : list string)
    (first_row row : record) (c : string) :
  Py.mem mnemonic financial_mnemonics = true ->
  find_value_col py_float mnemonic cols first_row = Some c ->
  Py.truthy c = true ->
  let result := value_of_record py_float mnemonic cols first_row row in
  let spells := fun s => py_float (Py.strip (Py.remove_char "," s)) in
  let marker := fun s =>
    Py.mem (Py.lower s) ["n/a"; "data unavailable"; "na"; ""] in
  let nothing_in_c :=
    at_col row c = CNone
    \/ (exists f, at_col row c = CNum f /\ F64.is_nan f = true)
    \/ (exists s, at_col row c = CStr s
                  /\ (Py.contains "/" s = true \/ Py.contains "-" s = true
                      \/ marker s = true \/ spells s = None)) in
  let gives := fun (x : cell) (v : F64.float) =>
    (x = CNum v /\ F64.is_nan v = false)
    \/ (exists s, x = CStr s
                  /\ Py.contains "/" s = false /\ Py.contains "-" s = false
                  /\ (2 <= String.length s)%nat /\ spells s = Some v) in
  let gives_nothing := fun (x : cell) =>
    x = CNone
    \/ (exists f, x = CNum f /\ F64.is_nan f = true)
    \/ (exists s, x = CStr s
                  /\ (Py.contains "/" s = true \/ Py.contains "-" s = true
                      \/ (String.length s < 2)%nat \/ spells s = None)) in
  let others :=
    List.filter (fun col =>
                   negb (Py.mem col ["Mnemonic"; "Identifier"; "Period"]
                         || String.eqb col c)) cols in
  (Py.mem "Value" cols = true -> c = "Value")
  /\ (Py.mem "Value" cols = false ->
      exists pre post,
        cols = pre ++ c :: post
        /\ Py.mem c ["Mnemonic"; "Identifier"; "Period"] = false
        /\ match at_col first_row c with
           | CNum _ => True
           | CStr s => is_Some (spells s)
           | CNone => False
           end
        /\ Forall (fun c' =>
                     Py.mem c' ["Mnemonic"; "Identifier"; "Period"] = true
                     \/ match at_col first_row c' with
                        | CNum _ => False
                        | CStr s => spells s = None
                        | CNone => True
                        end) pre)
  /\ (forall f, at_col row c = CNum f -> F64.is_nan f = false ->
        result = Some f)
  /\ (forall s f, at_col row c = CStr s ->
        Py.contains "/" s = false -> Py.contains "-" s = false ->
        marker s = false -> spells s = Some f ->
        result = Some f)
  /\ (nothing_in_c ->
      forall v,
        result = Some v <->
        exists pre col post,
          others = pre ++ col :: post
          /\ gives (at_col row col) v
          /\ Forall (fun col' => gives_nothing (at_col row col')) pre)
  /\ (result = None <->
      nothing_in_c
      /\ Forall (fun col => gives_nothing (at_col row col)) others).
Proof.
  intros Hfin Hcol Htruthy result spells marker nothing_in_c gives
         gives_nothing others.
  assert (Hres : result = extract_value py_float c cols row).
  { subst result. unfold value_of_record. rewrite Hcol. cbn [col_truthy].
    rewrite Htruthy. reflexivity. }
  unfold extract_value in Hres. rewrite scan_alternatives_first in Hres.
  change (alternative_columns c cols) with others in Hres.
  assert (Hnone : primary_value py_float (at_col row c) = None
                  <-> nothing_in_c)
    by apply primary_value_none.
  assert (Hall : Forall (fun col =>
                           alternative_value py_float (at_col row col) = None)
                        others
                 <-> Forall (fun col => gives_nothing (at_col row col)) others).
  { split; intros H; (eapply Forall_impl; [exact H|]); cbn beta;
      intros col; apply alternative_value_none. }
  split; [|split; [|split; [|split; [|split]]]].
  - intros HV.
    rewrite (value_column_conventional mnemonic cols first_row Hfin HV) in Hcol.
    congruence.
  - intros HV. unfold find_value_col in Hcol. rewrite Hfin, HV in Hcol.
    exact (scan_first_row_origin first_row cols c Hcol).
  - intros f Hcell Hnan. rewrite Hres, Hcell, (primary_value_number f Hnan).
    reflexivity.
  - intros s f Hcell H1 H2 H3 Hclean.
    rewrite Hres, Hcell, (primary_value_string s H1 H2 H3).
    unfold clean_float, comma. fold (spells s). rewrite Hclean. reflexivity.
  - intros Hc v. apply Hnone in Hc. rewrite Hres, Hc.
    rewrite hd_error_omap_some. split.
    + intros (pre & col & post & E & Hv & Hpre).
      exists pre, col, post. split; [exact E|].
      split; [apply alternative_value_some; exact Hv|].
      eapply Forall_impl; [exact Hpre|]. cbn beta. intros col'.
      apply alternative_value_none.
    + intros (pre & col & post & E & Hv & Hpre).
      exists pre, col, post. split; [exact E|].
      split; [apply alternative_value_some; exact Hv|].
      eapply Forall_impl; [exact Hpre|]. cbn beta. intros col'.
      apply alternative_value_none.
  - rewrite <- Hnone, <- Hall, Hres.
    destruct (primary_value py_float (at_col row c)).
    + split; [discriminate|]. intros [H _]. discriminate.
    + rewrite hd_error_omap_none. split; [auto|]. intros [_ H]. exact H.
Qed.

End ExtractorFacts.

Section ExtractorCases.

Import Api.

Lemma value_extraction_witness :
  let cols := ["Identifier"; "Mnemonic"; "Period"; "Value"; "Reported"] in
  let row v w := [("Identifier", CStr "MSFT"); ("Mnemonic", CStr "IQ_TOTAL_REV");
                  ("Period", CStr "FY2024"); ("Value", v); ("Reported", w)] in
  value_of_record decimal_float "IQ_TOTAL_REV" cols (row CNone CNone)
    (row (CStr "1,234.5") CNone) = Some (F64.decimal 12345 1)
  /\ value_of_record decimal_float "IQ_TOTAL_REV" cols (row CNone CNone)
    (row (CStr "N/A") (CStr "77")) = Some (F64.of_Z 77).
Proof.
  intros cols row.
  assert (Hfin : Py.mem "IQ_TOTAL_REV" financial_mnemonics = true)
    by (vm_compute; reflexivity).
  assert (Hcol : find_value_col decimal_float "IQ_TOTAL_REV" cols
                   (row CNone CNone) = Some "Value")
    by (vm_compute; reflexivity).
  split.
  - destruct (value_extraction decimal_float "IQ_TOTAL_REV" cols
                (row CNone CNone) (row (CStr "1,234.5") CNone) "Value"
                Hfin Hcol eq_refl) as (_ & _ & _ & Hstr & _).
    apply (Hstr "1,234.5"); vm_compute; reflexivity.
  - destruct (value_extraction decimal_float "IQ_TOTAL_REV" cols
                (row CNone CNone) (row (CStr "N/A") (CStr "77")) "Value"
                Hfin Hcol eq_refl) as (_ & _ & _ & _ & Hscan & _).
    apply Hscan.
    + right. right. exists "N/A". split; [reflexivity|]. left. reflexivity.
    + exists [], "Reported", []. split; [reflexivity|]. split; [|constructor].
      right. exists "77". split; [reflexivity|].
      repeat split; vm_compute; reflexivity.
Defined.

(** C4 as stated fails on a numeric string with a minus sign: the [Value]
    cell [-5] of a revenue record is a number after comma stripping, and
    no value is extracted, because a [-] marks the cell as date-like; the
    same holds for the single digit [7] in the only other column. *)
Lemma negative_string_not_extracted :
  let cols := ["Identifier"; "Mnemonic"; "Period"; "Value"; "Reported"] in
  let row := [("Identifier", CStr "MSFT"); ("Mnemonic", CStr "IQ_TOTAL_REV");
              ("Period", CStr "FY2024"); ("Value", CStr "-5");
              ("Reported", CStr "7")] in
  Py.mem "Value" cols = true
  /\ at_col row "Value" = CStr "-5"
  /\ clean_float decimal_float "-5" = Some (SFopp (F64.of_Z 5))
  /\ clean_float decimal_float "7" = Some (F64.of_Z 7)
  /\ value_of_record decimal_float "IQ_TOTAL_REV" cols row row = None.
Proof. cbv zeta. repeat split; vm_compute; reflexivity. Qed.

(** A market-data record with a plain number in its [Value] column: no
    value is extracted from it either. *)
Lemma market_cap_not_extracted :
  let cols := ["Identifier"; "Mnemonic"; "Period"; "Value"] in
  let row := [("Identifier", CStr "MSFT"); ("Mnemonic", CStr "IQ_MARKETCAP");
              ("Period", CStr "IQ_FY"); ("Value", CNum (F64.of_Z 2500000))] in
  value_of_record decimal_float "IQ_MARKETCAP" cols row row = None.
Proof. vm_compute. reflexivity. Qed.

End ExtractorCases.

(* ===================================================================== *)
(** * Properties: the stages and the frames they are given *)
(* ===================================================================== *)

Section FrameFacts.

Import Analysis.

Lemma keeps_ret (n : nat) {A} (a : A) (Q : A -> Prop) :
  Q a -> keeps n (ret a) Q.
Proof.
  intros HQ st res st' _ E. injection E as <- <-.
  split; [reflexivity|]. split; [lia|]. intros a' [= <-]. exact HQ.
Qed.

Lemma keeps_raise (n : nat) {A} (e : exn) (Q : A -> Prop) :
  keeps n (raise e) Q.
Proof.
  intros st res st' _ E. injection E as <- <-.
  split; [reflexivity|]. split; [lia|]. intros a' [=].
Qed.

Lemma keeps_bind (n : nat) {A B} (m : M A) (k : A -> M B)
    (Q : A -> Prop) (Q' : B -> Prop) :
  keeps n m Q -> (forall a, Q a -> keeps n (k a) Q') ->
  keeps n (bind m k) Q'.
Proof.
  intros Hm Hk st res st' Hn E. unfold bind in E.
  destruct (m st) as [[a|e] st1] eqn:E1.
  - destruct (Hm st (Ok a) st1 Hn E1) as (T1 & L1 & Q1).
    destruct (Hk a (Q1 a eq_refl) st1 res st' ltac:(lia) E) as (T2 & L2 & Q2).
    split; [congruence|]. split; [lia|exact Q2].
  - injection E as <- <-.
    destruct (Hm st (Raise e) st1 Hn E1) as (T1 & L1 & _).
    split; [exact T1|]. split; [exact L1|]. intros a [=].
Qed.

Lemma keeps_weaken (n : nat) {A} (m : M A) (Q Q' : A -> Prop) :
  keeps n m Q -> (forall a, Q a -> Q' a) -> keeps n m Q'.
Proof.
  intros Hm HQ st res st' Hn E. destruct (Hm st res st' Hn E) as (T & L & H).
  split; [exact T|]. split; [exact L|]. intros a Ha. apply HQ, H, Ha.
Qed.

(** Reading a frame changes nothing. *)
Lemma keeps_get_frame (n : nat) (df : ref) : keeps n (get_frame df) anything.
Proof.
  intros st res st' _ E. unfold get_frame in E.
  case_match; simplify_eq; (split; [reflexivity|]); (split; [lia|]);
    intros; exact I.
Qed.

(** Writing a frame at or above [n] leaves the first [n] frames alone. *)
Lemma keeps_put_frame (n : nat) (df : ref) (f : DataFrame) :
  (n <= df)%nat -> keeps n (put_frame df f) anything.
Proof.
  intros Hd st res st' _ E. injection E as <- <-. unfold store in *.
  split; [apply take_insert_ge; exact Hd|].
  split; [rewrite length_insert; lia|intros; exact I].
Qed.

(** A new frame sits above every frame of the store. *)
Lemma keeps_alloc (n : nat) (f : DataFrame) :
  keeps n (alloc f) (fun df => (n <= df)%nat).
Proof.
  intros st res st' Hn E. injection E as <- <-. unfold store in *.
  split; [apply take_app_le; exact Hn|].
  split; [rewrite length_app; lia|]. intros a [= <-]. exact Hn.
Qed.

Lemma keeps_for_each (n : nat) {A} (l : list A) (body : A -> M unit) :
  (forall x, keeps n (body x) anything) -> keeps n (for_each l body) anything.
Proof.
  intros Hb. induction l as [|x l IH]; cbn [for_each].
  - apply keeps_ret. exact I.
  - eapply keeps_bind; [apply Hb|]. intros _ _. exact IH.
Qed.

Lemma keeps_copy (n : nat) (df : ref) :
  keeps n (copy df) (fun df' => (n <= df')%nat).
Proof.
  unfold copy. eapply keeps_bind; [apply keeps_get_frame|].
  intros f _. apply keeps_alloc.
Qed.

Lemma keeps_columns_of (n : nat) (df : ref) : keeps n (columns_of df) anything.
Proof.
  unfold columns_of. eapply keeps_bind; [apply keeps_get_frame|].
  intros f _. apply keeps_ret. exact I.
Qed.

Lemma keeps_len (n : nat) (df : ref) : keeps n (len df) anything.
Proof.
  unfold len. eapply keeps_bind; [apply keeps_get_frame|].
  intros f _. apply keeps_ret. exact I.
Qed.

Lemma keeps_get_col (n : nat) (df : ref) (c : string) :
  keeps n (get_col df c) anything.
Proof.
  unfold get_col. eapply keeps_bind; [apply keeps_get_frame|].
  intros f _. destruct (lookup_col c (columns f)).
  - apply keeps_ret. exact I.
  - apply keeps_raise.
Qed.

Lemma keeps_set_col (n : nat) (df : ref) (c : string) (s : Series) :
  (n <= df)%nat -> keeps n (set_col df c s) anything.
Proof.
  intros Hd. unfold set_col. eapply keeps_bind; [apply keeps_get_frame|].
  intros f _. apply keeps_put_frame. exact Hd.
Qed.

Lemma keeps_sort_values (n : nat) (df : ref) (by_col : string) :
  keeps n (sort_values df by_col) (fun df' => (n <= df')%nat).
Proof.
  unfold sort_values. eapply keeps_bind; [apply keeps_get_frame|].
  intros f _. destruct (lookup_col by_col (columns f)).
  - apply keeps_alloc.
  - apply keeps_raise.
Qed.

(** One step of a computation on a frame at or above [n]. *)
Ltac keeps_step :=
  first
    [ apply keeps_ret; exact I
    | apply keeps_raise
    | apply keeps_get_col
    | apply keeps_set_col; assumption
    | apply keeps_len
    | apply keeps_columns_of
    | apply keeps_for_each; intros
    | eapply keeps_bind; [|intros ? _] ].

Ltac keeps_auto := repeat keeps_step.

Lemma keeps_for_matching (n : nat) (xs ys : list string)
    (body : string -> string -> string -> M unit) :
  (forall x y s, keeps n (body x y s) anything) ->
  keeps n (for_matching xs ys body) anything.
Proof.
  intros Hb. unfold for_matching.
  apply keeps_for_each. intros x. apply keeps_for_each. intros y.
  destruct (same_entity x y); [apply Hb|apply keeps_ret; exact I].
Qed.

Lemma keeps_assign_percentage (n : nat) (df : ref) (out num den : string) :
  (n <= df)%nat -> keeps n (assign_percentage df out num den) anything.
Proof. intros Hd. unfold assign_percentage. keeps_auto. Qed.

Lemma keeps_assign_quotient (n : nat) (df : ref) (out num den : string) :
  (n <= df)%nat -> keeps n (assign_quotient df out num den) anything.
Proof. intros Hd. unfold assign_quotient. keeps_auto. Qed.

(** Each family of ratios writes to the frame it is given and returns
    it. *)
Lemma keeps_profitability (n : nat) (df : ref) :
  (n <= df)%nat ->
  keeps n (calculate_profitability_ratios df) (fun df' => (n <= df')%nat).
Proof.
  intros Hd. unfold calculate_profitability_ratios.
  eapply keeps_bind; [apply keeps_columns_of|]. intros cols _.
  repeat (eapply keeps_bind;
          [apply keeps_for_matching; intros;
           apply keeps_assign_percentage; exact Hd | intros _ _]).
  apply keeps_ret. exact Hd.
Qed.

Lemma keeps_liquidity (n : nat) (df : ref) :
  (n <= df)%nat ->
  keeps n (calculate_liquidity_ratios df) (fun df' => (n <= df')%nat).
Proof.
  intros Hd. unfold calculate_liquidity_ratios.
  eapply keeps_bind; [apply keeps_columns_of|]. intros cols _.
  repeat (eapply keeps_bind;
          [apply keeps_for_matching; intros;
           apply keeps_assign_quotient; exact Hd | intros _ _]).
  apply keeps_ret. exact Hd.
Qed.

Lemma keeps_leverage (n : nat) (df : ref) :
  (n <= df)%nat ->
  keeps n (calculate_leverage_ratios df) (fun df' => (n <= df')%nat).
Proof.
  intros Hd. unfold calculate_leverage_ratios.
  eapply keeps_bind; [apply keeps_columns_of|]. intros cols _.
  eapply keeps_bind; [|intros _ _; apply keeps_ret; exact Hd].
  apply keeps_for_matching. intros. keeps_auto.
Qed.

Lemma keeps_financial_ratios (n : nat) (data : ref) :
  keeps n (calculate_financial_ratios data) (fun df => (n <= df)%nat).
Proof.
  unfold calculate_financial_ratios.
  eapply keeps_bind; [apply keeps_copy|]. intros df Hd.
  eapply keeps_bind; [apply keeps_profitability; exact Hd|]. clear df Hd.
  intros df Hd.
  eapply keeps_bind; [apply keeps_liquidity; exact Hd|]. clear df Hd.
  intros df Hd.
  eapply keeps_bind; [apply keeps_ret; exact Hd|]. clear df Hd.
  intros df Hd.
  eapply keeps_bind; [apply keeps_leverage; exact Hd|]. clear df Hd.
  intros df Hd.
  eapply keeps_bind; [apply keeps_ret; exact Hd|]. clear df Hd.
  intros df Hd. apply keeps_ret. exact Hd.
Qed.

Section Kernels.

Variable pct_change : Series -> Series.
Variable mean_of window_mean : list F64.float -> F64.float.
Variable pow : F64.float -> F64.float -> F64.float.

Lemma keeps_assign_moving_average (n : nat) (df : ref)
    (out col : string) (period : Z) :
  (n <= df)%nat ->
  keeps n (assign_moving_average window_mean df out col period) anything.
Proof.
  intros Hd. unfold assign_moving_average.
  eapply keeps_bind; [apply keeps_get_col|]. intros s _.
  destruct (period <? 0)%Z; keeps_auto.
Qed.

Lemma keeps_analyze_metric (n : nat) (df : ref) (periods : Z)
    (metric : string) :
  (n <= df)%nat ->
  keeps n (analyze_metric pct_change mean_of window_mean pow df periods metric)
        anything.
Proof.
  intros Hd. unfold analyze_metric.
  eapply keeps_bind; [apply keeps_get_col|]. intros values _.
  eapply keeps_bind; [apply keeps_set_col; exact Hd|]. intros _ _.
  eapply keeps_bind; [apply keeps_len|]. intros rows _.
  eapply keeps_bind; [apply keeps_get_col|]. intros values' _.
  eapply keeps_bind; [apply keeps_get_col|]. intros years _.
  eapply keeps_bind.
  { destruct (periods <=? Z.of_nat rows)%Z.
    - apply keeps_assign_moving_average. exact Hd.
    - apply keeps_ret. exact I. }
  intros _ _. keeps_auto.
Qed.

Lemma keeps_analyze_metrics (n : nat) (df : ref) (periods : Z)
    (metrics : list string) (results : gmap string TrendResult) :
  (n <= df)%nat ->
  keeps n (analyze_metrics pct_change mean_of window_mean pow df periods
             metrics results) anything.
Proof.
  intros Hd. revert results.
  induction metrics as [|metric metrics IH]; intros results;
    cbn [analyze_metrics].
  - apply keeps_ret. exact I.
  - eapply keeps_bind; [apply keeps_columns_of|]. intros cols _.
    destruct (Py.mem metric cols); [|apply IH].
    eapply keeps_bind; [apply keeps_analyze_metric; exact Hd|].
    intros r _. apply IH.
Qed.

Lemma keeps_trend_analysis (n : nat) (df : ref) (metrics : list string)
    (periods : Z) :
  keeps n (calculate_trend_analysis pct_change mean_of window_mean pow
             df metrics periods) anything.
Proof.
  unfold calculate_trend_analysis.
  eapply keeps_bind; [apply keeps_get_frame|]. intros f _.
  destruct (negb (Py.mem "Year" (map fst (columns f))) || frame_empty f).
  - apply keeps_ret. exact I.
  - eapply keeps_bind; [apply keeps_sort_values|]. intros sorted Hd.
    apply keeps_analyze_metrics. exact Hd.
Qed.

Lemma keeps_moving_averages (n : nat) (df : ref) (cols : list string)
    (periods : list Z) :
  keeps n (add_moving_averages window_mean df cols periods)
        (fun df' => (n <= df')%nat).
Proof.
  unfold add_moving_averages.
  eapply keeps_bind; [apply keeps_copy|]. intros result_df Hd.
  eapply keeps_bind; [apply keeps_columns_of|]. intros names _.
  eapply keeps_bind with (Q := fun df' => (n <= df')%nat).
  { destruct (Py.mem "Year" names).
    - apply keeps_sort_values.
    - apply keeps_ret. exact Hd. }
  clear result_df Hd. intros result_df Hd.
  eapply keeps_bind; [|intros _ _; apply keeps_ret; exact Hd].
  apply keeps_for_each. intros col.
  eapply keeps_bind; [apply keeps_columns_of|]. intros names' _.
  destruct (Py.mem col names'); [|apply keeps_ret; exact I].
  apply keeps_for_each. intros period.
  eapply keeps_bind; [apply keeps_len|]. intros rows _.
  destruct (period <=? Z.of_nat rows)%Z.
  - apply keeps_assign_moving_average. exact Hd.
  - apply keeps_ret. exact I.
Qed.

(** What [keeps] says of a frame the caller holds. *)
Lemma keeps_lookup {A} (m : M A) (Q : A -> Prop) (st st' : store)
    (res : outcome A) (data : ref) (f : DataFrame) :
  keeps (List.length st) m Q ->
  st !! data = Some f -> m st = (res, st') ->
  st' !! data = Some f /\ take (List.length st) st' = st
  /\ forall a, res = Ok a -> Q a.
Proof.
  intros Hk Hf E. destruct (Hk st res st' ltac:(lia) E) as (T & L & HQ).
  unfold store in *. rewrite firstn_all in T. split; [|split; [exact T|exact HQ]].
  apply lookup_lt_Some in Hf as Hlt.
  pose proof (lookup_take_lt st' (List.length st) data Hlt) as Hk'.
  rewrite T in Hk'. etrans; [symmetry; exact Hk'|exact Hf].
Qed.

(** C10: [calculate_financial_ratios], [calculate_trend_analysis] and
    [add_moving_averages], run on the reference [data] of a frame [f] in
    anything store, with anything metrics, columns and periods, and whether they
    return or raise: afterwards [data] still refers to [f], rows and
    columns as before, and so does every other frame that existed; the
    frame returned by the first and the third is a new object, which is
    where the ratio and moving-average columns are. *)
Theorem stages_leave_input_unchanged (st : store) (data : ref)
    (f : DataFrame) (metrics cols : list string) (periods : Z)
    (ps : list Z) :
  st !! data = Some f ->
  (forall res st',
      calculate_financial_ratios data st = (res, st') ->
      st' !! data = Some f /\ take (List.length st) st' = st
      /\ forall df, res = Ok df -> df <> data)
  /\ (forall res st',
      calculate_trend_analysis pct_change mean_of window_mean pow
        data metrics periods st = (res, st') ->
      st' !! data = Some f /\ take (List.length st) st' = st)
  /\ (forall res st',
      add_moving_averages window_mean data cols ps st = (res, st') ->
      st' !! data = Some f /\ take (List.length st) st' = st
      /\ forall df, res = Ok df -> df <> data).
Proof.
  intros Hf. apply lookup_lt_Some in Hf as Hlt.
  split; [|split]; intros res st' E.
  - destruct (keeps_lookup _ _ _ _ _ _ _
                (keeps_financial_ratios (List.length st) data) Hf E)
      as (H1 & H2 & HQ).
    split; [exact H1|]. split; [exact H2|].
    intros df Hdf. specialize (HQ df Hdf). cbn beta in HQ. lia.
  - destruct (keeps_lookup _ _ _ _ _ _ _
                (keeps_trend_analysis (List.length st) data metrics periods)
                Hf E) as (H1 & H2 & _).
    split; [exact H1|exact H2].
  - destruct (keeps_lookup _ _ _ _ _ _ _
                (keeps_moving_averages (List.length st) data cols ps) Hf E)
      as (H1 & H2 & HQ).
    split; [exact H1|]. split; [exact H2|].
    intros df Hdf. specialize (HQ df Hdf). cbn beta in HQ. lia.
Qed.

End Kernels.

Lemma stages_leave_input_unchanged_witness :
  (calculate_financial_ratios 0%nat [Samples.three_years]).2 !! 0%nat
    = Some Samples.three_years
  /\ (calculate_trend_analysis pct_change_plain mean_plain mean_plain pow_unit
        0%nat ["Revenue"] 2 [Samples.three_years]).2 !! 0%nat
    = Some Samples.three_years
  /\ (add_moving_averages mean_plain 0%nat ["Revenue"] [3; 5]
        [Samples.three_years]).2 !! 0%nat
    = Some Samples.three_years.
Proof.
  destruct (stages_leave_input_unchanged pct_change_plain mean_plain
              mean_plain pow_unit [Samples.three_years] 0%nat
              Samples.three_years ["Revenue"] ["Revenue"] 2 [3; 5] eq_refl)
    as (H1 & H2 & H3).
  split; [|split].
  - destruct (calculate_financial_ratios 0%nat [Samples.three_years])
      as [res st'] eqn:E.
    exact (proj1 (H1 res st' eq_refl)).
  - destruct (calculate_trend_analysis _ _ _ _ _ _ _ _) as [res st'] eqn:E.
    exact (proj1 (H2 res st' eq_refl)).
  - destruct (add_moving_averages _ _ _ _ _) as [res st'] eqn:E.
    exact (proj1 (H3 res st' eq_refl)).
Defined.

End FrameFacts.

(* ===================================================================== *)
(** * Properties: Trend Engine *)
(* ===================================================================== *)

Section TrendFacts.

Import Analysis.

(** ** Columns of a frame *)

Lemma lookup_col_assign_eq (c : string) (s : Series)
    (cols : list (string * Series)) :
  lookup_col c (assign_col c s cols) = Some s.
Proof.
  induction cols as [|[c' s'] cols IH]; cbn [assign_col lookup_col].
  - rewrite String.eqb_refl. reflexivity.
  - destruct (String.eqb c' c) eqn:E; cbn [lookup_col].
    + rewrite String.eqb_refl. reflexivity.
    + rewrite E. exact IH.
Qed.

Lemma lookup_col_assign_ne (c c' : string) (s : Series)
    (cols : list (string * Series)) :
  c <> c' -> lookup_col c (assign_col c' s cols) = lookup_col c cols.
Proof.
  intros Hne. apply String.eqb_neq in Hne.
  induction cols as [|[c0 s0] cols IH]; cbn [assign_col lookup_col].
  - rewrite String.eqb_sym, Hne. reflexivity.
  - destruct (String.eqb c0 c') eqn:E; cbn [lookup_col].
    + apply String.eqb_eq in E as ->. rewrite String.eqb_sym, Hne.
      reflexivity.
    + destruct (String.eqb c0 c); [reflexivity|exact IH].
Qed.

Lemma lookup_col_mem (c : string) (s : Series)
    (cols : list (string * Series)) :
  lookup_col c cols = Some s -> Py.mem c (map fst cols) = true.
Proof.
  unfold Py.mem. induction cols as [|[c' s'] cols IH]; [discriminate|].
  cbn [lookup_col map fst existsb]. rewrite (String.eqb_sym c c').
  destruct (String.eqb c' c); [reflexivity|exact IH].
Qed.

Lemma lookup_col_reorder (perm : list nat) (c : string) (s : Series)
    (cols : list (string * Series)) :
  lookup_col c cols = Some s ->
  lookup_col c (map (fun cs => (fst cs, reorder perm (snd cs))) cols)
  = Some (reorder perm s).
Proof.
  induction cols as [|[c' s'] cols IH]; [discriminate|].
  cbn [lookup_col map fst snd].
  destruct (String.eqb c' c); [intros [= <-]; reflexivity|exact IH].
Qed.

(** ** Names of derived columns *)

Lemma append_longer (s t : string) : t <> "" -> s <> s +:+ t.
Proof.
  intros Ht E. apply (f_equal String.length) in E.
  rewrite string_length_app in E. destruct t; [congruence|cbn in E; lia].
Qed.

Lemma append_inj (s t u : string) : s +:+ t = s +:+ u -> t = u.
Proof.
  induction s as [|a s IH]; [auto|].
  change (String a s +:+ t) with (String a (s +:+ t)).
  change (String a s +:+ u) with (String a (s +:+ u)).
  intros [= E]. exact (IH E).
Qed.

Lemma year_is_not_yoy (metric : string) : "Year" <> metric +:+ "_YOY".
Proof.
  intros E. apply (f_equal String.length) in E as L.
  rewrite string_length_app in L. cbn in L.
  destruct metric; [discriminate|cbn in L; lia].
Qed.

(** ** Running the primitives *)

Lemma bind_ok {A B} (m : M A) (k : A -> M B) (st st1 : store) (a : A) :
  m st = (Ok a, st1) -> bind m k st = k a st1.
Proof. intros E. unfold bind. rewrite E. reflexivity. Qed.

Lemma run_get_frame (st : store) (d : ref) (g : DataFrame) :
  st !! d = Some g -> get_frame d st = (Ok g, st).
Proof. intros E. unfold get_frame. unfold store in *. rewrite E. reflexivity. Qed.

Lemma run_get_col (st : store) (d : ref) (g : DataFrame) (c : string)
    (s : Series) :
  st !! d = Some g -> lookup_col c (columns g) = Some s ->
  get_col d c st = (Ok s, st).
Proof.
  intros Hg Hc. unfold get_col.
  rewrite (bind_ok _ _ _ _ _ (run_get_frame st d g Hg)), Hc. reflexivity.
Qed.

Lemma run_len (st : store) (d : ref) (g : DataFrame) :
  st !! d = Some g -> len d st = (Ok (nrows g), st).
Proof.
  intros Hg. unfold len.
  rewrite (bind_ok _ _ _ _ _ (run_get_frame st d g Hg)). reflexivity.
Qed.

Lemma run_columns_of (st : store) (d : ref) (g : DataFrame) :
  st !! d = Some g -> columns_of d st = (Ok (map fst (columns g)), st).
Proof.
  intros Hg. unfold columns_of.
  rewrite (bind_ok _ _ _ _ _ (run_get_frame st d g Hg)). reflexivity.
Qed.

Lemma run_set_col (st : store) (d : ref) (g : DataFrame) (c : string)
    (s : Series) :
  st !! d = Some g ->
  exists st',
    set_col d c s st = (Ok tt, st')
    /\ st' !! d = Some {| nrows := nrows g;
                          columns := assign_col c s (columns g) |}.
Proof.
  intros Hg. unfold set_col.
  rewrite (bind_ok _ _ _ _ _ (run_get_frame st d g Hg)).
  eexists. split; [reflexivity|]. unfold store in *.
  apply list_lookup_insert_eq. eapply lookup_lt_Some. exact Hg.
Qed.


(** ** The recent-trend formula *)

Section Kernels.

Variable pct_change : Series -> Series.
Variable mean_of window_mean : list F64.float -> F64.float.
Variable pow : F64.float -> F64.float -> F64.float.

(** With fewer rows than the window the statistic is missing. *)
Lemma recent_trend_short (n : nat) (periods : Z) (yoy : Series) :
  Z.of_nat n < periods ->
  recent_trend_of mean_of n periods yoy = F64.nan.
Proof.
  intros H. unfold recent_trend_of.
  apply Z.leb_gt in H. rewrite H. reflexivity.
Qed.

Lemma recent_trend_long (n : nat) (periods : Z) (yoy : Series) :
  periods <= Z.of_nat n ->
  recent_trend_of mean_of n periods yoy
  = series_mean mean_of (iloc_tail periods yoy).
Proof.
  intros H. unfold recent_trend_of.
  apply Z.leb_le in H. rewrite H. reflexivity.
Qed.

(** [s.iloc[-k:]] for a positive [k]: the last [k] entries. *)
Lemma iloc_tail_last (k : Z) (s : Series) :
  1 <= k -> iloc_tail k s = last_n (Z.to_nat k) s.
Proof.
  intros Hk. unfold iloc_tail, last_n.
  assert (E : (- k <? 0)%Z = true) by (apply Z.ltb_lt; lia).
  rewrite E. f_equal. lia.
Qed.

Lemma filter_all {A} (p : A -> bool) (l : list A) :
  forallb p l = true -> List.filter p l = l.
Proof.
  induction l as [|x l IH]; [reflexivity|].
  cbn [forallb List.filter]. intros H. apply andb_true_iff in H as [Hx Hl].
  rewrite Hx, (IH Hl). reflexivity.
Qed.

Lemma forallb_skipn {A} (p : A -> bool) (j : nat) (l : list A) :
  forallb p l = true -> forallb p (List.skipn j l) = true.
Proof.
  revert j. induction l as [|x l IH]; intros [|j]; cbn; auto.
  intros H. apply andb_true_iff in H as [_ Hl]. apply IH. exact Hl.
Qed.

(** On a year-over-year column without gaps (NaN in the first row, [n]
    observations after it) and a window [k] within the number of rows,
    the non-missing entries among the last [k] rows are the last
    [min k n] observations. *)
Lemma tail_observations (k : Z) (obs : Series) :
  1 <= k <= Z.of_nat (S (List.length obs)) ->
  forallb not_nan obs = true ->
  List.filter not_nan (iloc_tail k (F64.nan :: obs))
  = last_n (Nat.min (Z.to_nat k) (List.length obs)) obs.
Proof.
  intros Hk Hobs. rewrite iloc_tail_last by lia. unfold last_n.
  cbn [List.length].
  destruct (Nat.le_gt_cases (Z.to_nat k) (List.length obs)) as [Hle|Hgt].
  - rewrite Nat.min_l by exact Hle.
    replace (S (List.length obs) - Z.to_nat k)%nat
      with (S (List.length obs - Z.to_nat k)) by lia.
    cbn [List.skipn]. apply filter_all, forallb_skipn, Hobs.
  - rewrite Nat.min_r by lia.
    replace (S (List.length obs) - Z.to_nat k)%nat with 0%nat by lia.
    rewrite Nat.sub_diag. cbn [List.skipn List.filter not_nan F64.is_nan negb].
    apply filter_all, Hobs.
Qed.

Lemma last_n_nonempty {A} (j : nat) (l : list A) :
  (1 <= j)%nat -> l <> [] -> last_n j l <> [].
Proof.
  intros Hj Hl E. unfold last_n in E.
  apply (f_equal (@List.length A)) in E. rewrite length_skipn in E.
  destruct l; [congruence|]. cbn in E. lia.
Qed.

Lemma recent_trend_gap_free (n : nat) (k : Z) (obs : Series) :
  n = S (List.length obs) -> 1 <= k <= Z.of_nat n ->
  obs <> [] -> forallb not_nan obs = true ->
  recent_trend_of mean_of n k (F64.nan :: obs)
  = mean_of (last_n (Nat.min (Z.to_nat k) (List.length obs)) obs).
Proof.
  intros -> Hk Hne Hobs. rewrite recent_trend_long by lia.
  unfold series_mean. rewrite (tail_observations k obs Hk Hobs).
  destruct (last_n _ obs) eqn:E; [|reflexivity].
  exfalso. revert E. apply last_n_nonempty; [|exact Hne].
  destruct obs; [congruence|]. cbn [List.length]. lia.
Qed.

(** ** The loop body on one metric *)

Lemma analyze_metric_recent (st : store) (d : ref) (g : DataFrame)
    (metric : string) (periods : Z) (values years : Series) :
  st !! d = Some g ->
  lookup_col metric (columns g) = Some values ->
  lookup_col "Year" (columns g) = Some years ->
  0 <= periods ->
  exists r st',
    analyze_metric pct_change mean_of window_mean pow d periods metric st
    = (Ok r, st')
    /\ recent_trend r
       = recent_trend_of mean_of (nrows g) periods
           (map (fun x => F64.mul x hundred) (pct_change values)).
Proof.
  intros Hg Hv Hy Hp. unfold analyze_metric.
  set (yoy := map (fun x => F64.mul x hundred) (pct_change values)).
  rewrite (bind_ok _ _ _ _ _ (run_get_col st d g metric values Hg Hv)).
  destruct (run_set_col st d g (metric +:+ "_YOY") yoy Hg)
    as (st1 & E1 & Hg1).
  rewrite (bind_ok _ _ _ _ _ E1).
  set (g1 := {| nrows := nrows g;
                columns := assign_col (metric +:+ "_YOY") yoy (columns g) |})
    in Hg1.
  assert (Hv1 : lookup_col metric (columns g1) = Some values).
  { cbn [columns g1]. rewrite lookup_col_assign_ne; [exact Hv|].
    apply append_longer. discriminate. }
  assert (Hy1 : lookup_col "Year" (columns g1) = Some years).
  { cbn [columns g1]. rewrite lookup_col_assign_ne; [exact Hy|].
    apply year_is_not_yoy. }
  assert (Hyoy1 : lookup_col (metric +:+ "_YOY") (columns g1) = Some yoy).
  { cbn [columns g1]. apply lookup_col_assign_eq. }
  rewrite (bind_ok _ _ _ _ _ (run_len st1 d g1 Hg1)).
  rewrite (bind_ok _ _ _ _ _ (run_get_col st1 d g1 metric values Hg1 Hv1)).
  rewrite (bind_ok _ _ _ _ _ (run_get_col st1 d g1 "Year" years Hg1 Hy1)).
  cbn [nrows g1].
  assert (Hma : exists st2 g2,
             (if (periods <=? Z.of_nat (nrows g))%Z
              then assign_moving_average window_mean d
                     (metric +:+ "_MA" +:+ Py.str periods) metric periods
              else ret tt) st1 = (Ok tt, st2)
             /\ st2 !! d = Some g2
             /\ lookup_col metric (columns g2) = Some values
             /\ lookup_col (metric +:+ "_YOY") (columns g2) = Some yoy).
  { destruct (periods <=? Z.of_nat (nrows g))%Z.
    - unfold assign_moving_average.
      rewrite (bind_ok _ _ _ _ _ (run_get_col st1 d g1 metric values Hg1 Hv1)).
      assert (Hneg : (periods <? 0)%Z = false) by (apply Z.ltb_ge; lia).
      rewrite Hneg.
      destruct (run_set_col st1 d g1 (metric +:+ "_MA" +:+ Py.str periods)
                  (rolling_mean window_mean (Z.to_nat periods) values) Hg1)
        as (st2 & E2 & Hg2).
      eexists st2, _. split; [exact E2|]. split; [exact Hg2|].
      cbn [columns]. split.
      + rewrite lookup_col_assign_ne; [exact Hv1|].
        apply append_longer. discriminate.
      + rewrite lookup_col_assign_ne; [exact Hyoy1|].
        intros E. apply append_inj in E. discriminate.
    - exists st1, g1. repeat split; assumption. }
  destruct Hma as (st2 & g2 & E2 & Hg2 & Hv2 & Hyoy2).
  rewrite (bind_ok _ _ _ _ _ E2).
  rewrite (bind_ok _ _ _ _ _ (run_get_col st2 d g2 metric values Hg2 Hv2)).
  rewrite (bind_ok _ _ _ _ _
             (run_get_col st2 d g2 (metric +:+ "_YOY") yoy Hg2 Hyoy2)).
  eexists _, _. split; reflexivity.
Qed.

(** ** The whole analysis on one metric *)

(** The window 0: the slice [iloc[-0:]] is the whole column, so the
    statistic is the mean over all rows of the year-over-year column. *)
Lemma recent_trend_zero_window (n : nat) (yoy : Series) :
  recent_trend_of mean_of n 0 yoy = series_mean mean_of yoy.
Proof.
  unfold recent_trend_of.
  assert (E : (0 <=? Z.of_nat n)%Z = true) by (apply Z.leb_le; lia).
  rewrite E. reflexivity.
Qed.

(** C9, as the code has it, for one metric of a frame that has a [Year]
    column and at least one row, and a window [periods >= 1].  The
    analysis returns; with fewer rows than the window the recent trend
    is missing, also when year-over-year observations exist; otherwise
    it is the mean of the entries that are not missing (NaN is skipped,
    and the mean of nothing is NaN) among the last [periods] rows of the
    year-over-year column, which on a column without gaps ([n]
    observations after the empty first row) is the mean of the last
    [min periods n] observations. *)
Theorem recent_trend_statistic (st : store) (df : ref) (f : DataFrame)
    (metric : string) (periods : Z) (keys values : Series) :
  st !! df = Some f -> frame_empty f = false ->
  lookup_col "Year" (columns f) = Some keys ->
  lookup_col metric (columns f) = Some values ->
  1 <= periods ->
  let yoy := map (fun x => F64.mul x hundred)
                 (pct_change (reorder (argsort keys) values)) in
  exists results r st',
    calculate_trend_analysis pct_change mean_of window_mean pow
      df [metric] periods st = (Ok results, st')
    /\ results !! metric = Some r
    /\ (Z.of_nat (nrows f) < periods -> recent_trend r = F64.nan)
    /\ (periods <= Z.of_nat (nrows f) ->
        let present :=
          List.filter (fun x => negb (F64.is_nan x))
                      (List.skipn (List.length yoy - Z.to_nat periods) yoy) in
        recent_trend r
        = match present with [] => F64.nan | _ => mean_of present end)
    /\ (forall obs,
          1 <= periods <= Z.of_nat (nrows f) ->
          yoy = F64.nan :: obs -> nrows f = S (List.length obs) ->
          obs <> [] -> forallb not_nan obs = true ->
          recent_trend r
          = mean_of (last_n (Nat.min (Z.to_nat periods) (List.length obs))
                            obs)).
Proof.
  intros Hf Hne Hk Hv Hp yoy. unfold calculate_trend_analysis.
  rewrite (bind_ok _ _ _ _ _ (run_get_frame st df f Hf)).
  rewrite (lookup_col_mem "Year" keys (columns f) Hk), Hne. cbn [negb orb].
  set (g := {| nrows := nrows f;
               columns := map (fun cs => (fst cs, reorder (argsort keys) (snd cs)))
                              (columns f) |}).
  assert (Esort : sort_values df "Year" st
                  = (Ok (List.length st), st ++ [g])).
  { unfold sort_values.
    rewrite (bind_ok _ _ _ _ _ (run_get_frame st df f Hf)), Hk.
    reflexivity. }
  rewrite (bind_ok _ _ _ _ _ Esort).
  assert (Hg : (st ++ [g]) !! List.length st = Some g).
  { unfold store in *. apply list_lookup_middle. reflexivity. }
  assert (Hgv : lookup_col metric (columns g)
                = Some (reorder (argsort keys) values)).
  { apply lookup_col_reorder. exact Hv. }
  assert (Hgy : lookup_col "Year" (columns g)
                = Some (reorder (argsort keys) keys)).
  { apply lookup_col_reorder. exact Hk. }
  cbn [analyze_metrics].
  rewrite (bind_ok _ _ _ _ _ (run_columns_of _ _ g Hg)).
  rewrite (lookup_col_mem metric _ (columns g) Hgv).
  assert (Hp0 : 0 <= periods) by lia.
  destruct (analyze_metric_recent (st ++ [g]) (List.length st) g metric
              periods _ _ Hg Hgv Hgy Hp0) as (r & st' & Erun & Hr).
  rewrite (bind_ok _ _ _ _ _ Erun).
  exists (<[metric := r]> ∅), r, st'. cbn [nrows g] in Hr. fold yoy in Hr.
  split; [reflexivity|]. split; [apply lookup_insert_eq|].
  split; [intros H; rewrite Hr; apply recent_trend_short; exact H|].
  split.
  { intros H. rewrite Hr, (recent_trend_long _ _ _ H).
    rewrite (iloc_tail_last periods yoy Hp).
    unfold series_mean, last_n, not_nan.
    destruct (List.filter _ _); reflexivity. }
  intros obs Hrange Hyoy Hrows Hobs Hall.
  rewrite Hr, Hyoy. apply recent_trend_gap_free; assumption.
Qed.

End Kernels.

Lemma recent_trend_statistic_witness :
  exists results r st',
    calculate_trend_analysis pct_change_plain mean_plain mean_plain pow_unit
      0%nat ["Revenue"] 2 [Samples.three_years] = (Ok results, st')
    /\ results !! "Revenue" = Some r
    /\ recent_trend r = mean_plain [F64.of_Z 100; F64.of_Z 50]
    /\ mean_plain [F64.of_Z 100; F64.of_Z 50] = F64.of_Z 75.
Proof.
  destruct (recent_trend_statistic pct_change_plain mean_plain mean_plain
              pow_unit [Samples.three_years] 0%nat Samples.three_years
              "Revenue" 2
              [F64.of_Z 2022; F64.of_Z 2023; F64.of_Z 2024]
              [F64.of_Z 100; F64.of_Z 200; F64.of_Z 300]
              eq_refl eq_refl eq_refl eq_refl ltac:(lia))
    as (results & r & st' & Erun & Hres & _ & _ & Hgap).
  exists results, r, st'. split; [exact Erun|]. split; [exact Hres|].
  split; [|vm_compute; reflexivity].
  rewrite (Hgap [F64.of_Z 100; F64.of_Z 50]).
  - reflexivity.
  - cbn. lia.
  - vm_compute. reflexivity.
  - reflexivity.
  - discriminate.
  - reflexivity.
Defined.

(** C9 as stated fails below the window: two years of revenue, 100 then
    200, give one year-over-year observation, 100 percent; with the window
    at 3 we have [0 < 1 < 3], the mean of the last [min 3 1] observations
    is 100, and the recent trend that is stored is NaN. *)
Lemma recent_trend_missing_below_window :
  exists results r st' sorted,
    calculate_trend_analysis pct_change_plain mean_plain mean_plain pow_unit
      0%nat ["Revenue"] 3 [Samples.two_years] = (Ok results, st')
    /\ st' !! 1%nat = Some sorted
    /\ lookup_col "Revenue_YOY" (columns sorted)
       = Some [F64.nan; F64.of_Z 100]
    /\ mean_plain (last_n (Nat.min 3 1) [F64.of_Z 100]) = F64.of_Z 100
    /\ results !! "Revenue" = Some r
    /\ recent_trend r = F64.nan
    /\ recent_trend r <> F64.of_Z 100.
Proof.
  destruct (calculate_trend_analysis pct_change_plain mean_plain mean_plain
              pow_unit 0%nat ["Revenue"] 3 [Samples.two_years])
    as [res st'] eqn:E.
  vm_compute in E. injection E as <- <-.
  eexists _, _, _, _. split; [reflexivity|]. split; [reflexivity|].
  split; [vm_compute; reflexivity|]. split; [vm_compute; reflexivity|].
  split; [vm_compute; reflexivity|]. split; [reflexivity|].
  vm_compute. discriminate.
Qed.

End TrendFacts.

(* ===================================================================== *)
(** * Properties: integers as strings, and the planner's period tokens *)
(* ===================================================================== *)

Section DecimalFacts.

(** The digits [str] writes are read back by [int] with the same value. *)
Lemma digits_value_uint_acc (d : Decimal.uint) (acc : positive) :
  Py.digits_value (Zpos acc) (NilEmpty.string_of_uint d)
  = Zpos (Pos.of_uint_acc d acc).
Proof.
  revert acc. induction d; intros acc; cbn [NilEmpty.string_of_uint
    Py.digits_value Pos.of_uint_acc]; [reflexivity|..];
    rewrite <- IHd; f_equal; vm_compute Py.digit_val; lia.
Qed.

Lemma digits_value_uint (d : Decimal.uint) :
  Py.digits_value 0 (NilEmpty.string_of_uint d) = Z.of_N (Pos.of_uint d).
Proof.
  induction d; cbn [NilEmpty.string_of_uint Py.digits_value Pos.of_uint Z.of_N];
    [reflexivity|exact IHd|..];
    rewrite <- digits_value_uint_acc; reflexivity.
Qed.

Lemma all_digits_uint (d : Decimal.uint) :
  Py.all_digits (NilEmpty.string_of_uint d) = true.
Proof.
  induction d; cbn [NilEmpty.string_of_uint Py.all_digits];
    [reflexivity|..]; rewrite IHd; reflexivity.
Qed.

(** [str(n)] of a natural number is a digit string whose value is [n]. *)
Lemma str_nonneg (n : Z) :
  0 <= n ->
  Py.isdigit (Py.str n) = true /\ Py.digits_value 0 (Py.str n) = n.
Proof.
  intros Hn. destruct n as [|p|p]; [split; reflexivity| |lia].
  unfold Py.str, Py.isdigit. cbn [Z.to_int NilEmpty.string_of_int].
  rewrite all_digits_uint, digits_value_uint, DecimalPos.Unsigned.of_to.
  split; [|reflexivity]. rewrite andb_true_r.
  pose proof (DecimalPos.Unsigned.to_uint_nonnil p) as Hnil.
  destruct (Pos.to_uint p); [congruence|reflexivity..].
Qed.

(** [str(n)] of a negative number is a minus sign before [str(-n)]. *)
Lemma str_neg (n : Z) : n < 0 -> Py.str n = "-" +:+ Py.str (- n).
Proof. intros Hn. destruct n as [|p|p]; [lia|lia|reflexivity]. Qed.

(** [int(str(n))] is [n], within the conversion limit. *)
Lemma int_of_str (n : Z) :
  0 <= n -> (String.length (Py.str n) <= 4300)%nat ->
  Py.int_of_digits (Py.str n) = Some n.
Proof.
  intros Hn Hlen. unfold Py.int_of_digits, Py.int_max_str_digits.
  apply Nat.leb_le in Hlen. rewrite Hlen.
  rewrite (proj2 (str_nonneg n Hn)). reflexivity.
Qed.

End DecimalFacts.

Section PlannerFacts.

Import Api.

(** The tokens written for one year offset, read back: the relative token
    of a past offset, the absolute token of its year, and the relative
    token of the current or a future offset. *)
Lemma offset_tokens_resolve (current_year offset : Z) :
  (String.length (Py.str (Z.abs offset)) <= 4300)%nat ->
  (offset < 0 ->
     year_from_period current_year (CStr ("IQ_FY" +:+ Py.str offset))
     = Some (current_year + offset))
  /\ (0 <= current_year + offset ->
      (String.length (Py.str (current_year + offset)) <= 4300)%nat ->
      year_from_period current_year
        (CStr ("FY" +:+ Py.str (current_year + offset)))
      = Some (current_year + offset))
  /\ (0 <= offset ->
      year_from_period current_year (CStr ("IQ_FY+" +:+ Py.str offset))
      = Some (current_year + offset)).
Proof.
  intros Hlen. split; [|split].
  - intros Hneg. rewrite (str_neg offset Hneg).
    replace (Z.abs offset) with (- offset) in Hlen by lia.
    destruct (str_nonneg (- offset) ltac:(lia)) as [Hd Hv].
    change ("IQ_FY" +:+ "-" +:+ Py.str (- offset))
      with ("IQ_FY" +:+ "-" +:+ Py.str (- offset)).
    rewrite (relative_past_year current_year "IQ_FY" (Py.str (- offset))
               eq_refl eq_refl Hd Hlen).
    rewrite Hv. f_equal. lia.
  - intros Hy Hylen.
    destruct (str_nonneg (current_year + offset) Hy) as [Hd Hv].
    rewrite (absolute_token_year current_year _ Hd Hylen), Hv. reflexivity.
  - intros Hpos. replace (Z.abs offset) with offset in Hlen by lia.
    destruct (str_nonneg offset Hpos) as [Hd Hv].
    change ("IQ_FY+" +:+ Py.str offset)
      with ("IQ_FY" +:+ "+" +:+ Py.str offset).
    rewrite (relative_future_year current_year "IQ_FY" (Py.str offset)
               eq_refl eq_refl eq_refl Hd Hlen).
    rewrite Hv. reflexivity.
Qed.

(** Every per-year request the planner builds for an offset carries a
    period token that the Period Resolver reads back as the year
    [current_year + offset], in the relative convention and, for a past
    offset, in the absolute one as well. *)
Theorem planner_tokens_resolve (current_year offset : Z)
    (cid mn : string) (req : Request) :
  req ∈ requests_for_offset current_year cid mn offset ->
  0 <= current_year + offset ->
  (String.length (Py.str (Z.abs offset)) <= 4300)%nat ->
  (String.length (Py.str (current_year + offset)) <= 4300)%nat ->
  identifier req = cid /\ mnemonic req = mn /\ function req = "GDSP"
  /\ exists p, properties req = Some p
               /\ year_from_period current_year (CStr (periodType p))
                  = Some (current_year + offset).
Proof.
  intros Hin Hy Hlen Hylen.
  destruct (offset_tokens_resolve current_year offset Hlen)
    as (Hpast & Habs & Hfut).
  unfold requests_for_offset in Hin.
  destruct (offset <? 0)%Z eqn:E.
  - apply Z.ltb_lt in E.
    apply elem_of_cons in Hin as [->|Hin];
      [|apply elem_of_cons in Hin as [->|Hin]; [|inversion Hin]].
    + repeat split. eexists. split; [reflexivity|]. apply Hpast. exact E.
    + repeat split. eexists. split; [reflexivity|]. apply Habs; assumption.
  - apply Z.ltb_ge in E.
    apply elem_of_cons in Hin as [->|Hin]; [|inversion Hin].
    repeat split. eexists. split; [reflexivity|]. apply Hfut. exact E.
Qed.

Lemma planner_tokens_resolve_witness :
  Forall (fun req =>
            exists p, properties req = Some p
                      /\ year_from_period 2024 (CStr (periodType p))
                         = Some 2022)
         (requests_for_offset 2024 "AAPL" "IQ_NI" (-2)).
Proof.
  apply Forall_forall. intros req Hin.
  destruct (planner_tokens_resolve 2024 (-2) "AAPL" "IQ_NI" req Hin)
    as (_ & _ & _ & H).
  - lia.
  - vm_compute. lia.
  - vm_compute. lia.
  - exact H.
Defined.

Lemma elem_of_concat_map {A B : Type} (f : A -> list B) (l : list A)
    (x : A) (y : B) :
  x ∈ l -> y ∈ f x -> y ∈ concat (map f l).
Proof.
  intros Hx Hy. apply list_elem_of_In, in_concat. exists (f x). split.
  - apply in_map. apply list_elem_of_In. exact Hx.
  - apply list_elem_of_In. exact Hy.
Qed.

(** The requests of a company hold those of each of its financial
    mnemonics, for each offset from [-(years - 1)] to [1]. *)
Lemma offset_requests_planned (env : Env) (company_ids : list string)
    (years offset : Z) (cid mn : string) (req : Request) :
  cid ∈ company_ids -> mn ∈ financial_mnemonics ->
  - (years - 1) <= offset < 2 ->
  req ∈ requests_for_offset (now_year env) cid mn offset ->
  req ∈ build_requests env company_ids years.
Proof.
  intros Hcid Hmn Hoff Hreq. unfold build_requests.
  apply (elem_of_concat_map _ _ cid); [exact Hcid|].
  unfold requests_for_company.
  apply elem_of_app. right. apply elem_of_app. left.
  apply (elem_of_concat_map _ _ mn); [exact Hmn|].
  unfold requests_for_financial. right.
  apply (elem_of_concat_map _ _ offset); [|exact Hreq].
  unfold Py.range. apply elem_of_seqZ. lia.
Qed.

(** The plan covers the window: for every company, every financial
    mnemonic and every year of the window
    [current_year - years + 1 .. current_year], [build_requests] holds a
    request for that company and mnemonic whose period token the Period
    Resolver reads back as that year. *)
Theorem window_years_requested (env : Env) (company_ids : list string)
    (years y : Z) (cid mn : string) :
  cid ∈ company_ids -> mn ∈ financial_mnemonics ->
  now_year env - years + 1 <= y <= now_year env ->
  (String.length (Py.str (now_year env - y)) <= 4300)%nat ->
  exists req p,
    req ∈ build_requests env company_ids years
    /\ identifier req = cid /\ mnemonic req = mn
    /\ properties req = Some p
    /\ year_from_period (now_year env) (CStr (periodType p)) = Some y.
Proof.
  intros Hcid Hmn Hy Hlen.
  set (offset := y - now_year env).
  assert (Habs : Z.abs offset = now_year env - y) by (unfold offset; lia).
  rewrite <- Habs in Hlen.
  destruct (offset_tokens_resolve (now_year env) offset Hlen)
    as (Hpast & _ & Hfut).
  replace y with (now_year env + offset) by (unfold offset; lia).
  destruct (offset <? 0)%Z eqn:E.
  - apply Z.ltb_lt in E.
    exists (gdsp cid mn (Some ("IQ_FY" +:+ Py.str offset))).
    eexists. split.
    + apply (offset_requests_planned env company_ids years offset cid mn);
        [exact Hcid|exact Hmn|unfold offset; lia|].
      unfold requests_for_offset. apply Z.ltb_lt in E. rewrite E. left.
    + split; [reflexivity|]. split; [reflexivity|]. split; [reflexivity|].
      apply Hpast. exact E.
  - apply Z.ltb_ge in E.
    exists (gdsp cid mn (Some ("IQ_FY+" +:+ Py.str offset))).
    eexists. split.
    + apply (offset_requests_planned env company_ids years offset cid mn);
        [exact Hcid|exact Hmn|unfold offset; lia|].
      unfold requests_for_offset. apply Z.ltb_ge in E. rewrite E. left.
    + split; [reflexivity|]. split; [reflexivity|]. split; [reflexivity|].
      apply Hfut. exact E.
Qed.

Lemma window_years_requested_witness :
  exists req p,
    req ∈ build_requests (Samples.env_ok []) ["MSFT"] 3
    /\ identifier req = "MSFT" /\ mnemonic req = "IQ_EBITDA"
    /\ properties req = Some p
    /\ year_from_period 2024 (CStr (periodType p)) = Some 2022.
Proof.
  apply (window_years_requested (Samples.env_ok []) ["MSFT"] 3 2022
           "MSFT" "IQ_EBITDA").
  - left.
  - vm_compute. do 2 right. left.
  - vm_compute. split; discriminate.
  - vm_compute. lia.
Defined.

End PlannerFacts.

(* ===================================================================== *)
(** * Properties: the size of a plan and its batches *)
(* ===================================================================== *)

Section PlanSizeFacts.

Import Api.

Lemma length_concat_map {A B : Type} (f : A -> list B) (g : A -> nat)
    (l : list A) :
  (forall x, x ∈ l -> List.length (f x) = g x) ->
  List.length (concat (map f l)) = list_sum (map g l).
Proof.
  induction l as [|x l IH]; intros H; [reflexivity|].
  cbn [map concat list_sum]. rewrite List.length_app, (H x) by left.
  rewrite IH; [reflexivity|]. intros y Hy. apply H. right. exact Hy.
Qed.

Lemma list_sum_const {A : Type} (k : nat) (l : list A) :
  list_sum (map (fun _ => k) l) = (k * List.length l)%nat.
Proof.
  induction l as [|x l IH]; [cbn; lia|].
  change (list_sum (map (fun _ : A => k) (x :: l)))
    with (k + list_sum (map (fun _ : A => k) l))%nat.
  rewrite IH. cbn [List.length]. lia.
Qed.

(** One financial mnemonic takes one multi-period request, two requests
    for each past year and one each for the current and the next year. *)
Lemma length_requests_for_financial (current_year years : Z)
    (cid mn : string) :
  1 <= years ->
  List.length (requests_for_financial current_year years cid mn)
  = Z.to_nat (2 * years + 1).
Proof.
  intros Hy. unfold requests_for_financial. cbn [List.length].
  unfold Py.range.
  replace (2 - - (years - 1)) with ((years - 1) + 2) by lia.
  rewrite seqZ_app by lia. rewrite map_app, concat_app, List.length_app.
  rewrite (length_concat_map _ (fun _ => 2%nat)).
  - rewrite list_sum_const, length_seqZ.
    replace (- (years - 1) + (years - 1)) with 0 by lia.
    assert (E : List.length (concat (map (requests_for_offset current_year
                                            cid mn) (seqZ 0 2))) = 2%nat)
      by reflexivity.
    rewrite E. lia.
  - intros x Hx. apply elem_of_seqZ in Hx. unfold requests_for_offset.
    assert (E : (x <? 0)%Z = true) by (apply Z.ltb_lt; lia).
    rewrite E. reflexivity.
Qed.

Lemma length_requests_for_company (current_year years : Z) (cid : string) :
  1 <= years ->
  List.length (requests_for_company current_year years cid)
  = Z.to_nat (17 * years + 13).
Proof.
  intros Hy. unfold requests_for_company.
  rewrite !List.length_app, List.length_map.
  rewrite (length_concat_map _ (fun _ => Z.to_nat (2 * years + 1)))
    by (intros; apply length_requests_for_financial; exact Hy).
  rewrite (length_concat_map _ (fun _ => Z.to_nat years)).
  - rewrite !list_sum_const. cbn [List.length financial_mnemonics]. lia.
  - intros mn _. rewrite List.length_map. unfold Py.range.
    rewrite length_seqZ. f_equal. lia.
Qed.

(** For [years >= 1] the plan holds [17 * years + 13] requests for each
    company: 3 lookups, [2 * years + 1] requests for each of the seven
    financial mnemonics, 3 market-data requests and [years] requests for
    each of the three estimates. *)
Theorem build_requests_count (env : Env) (company_ids : list string)
    (years : Z) :
  1 <= years ->
  List.length (build_requests env company_ids years)
  = (List.length company_ids * Z.to_nat (17 * years + 13))%nat.
Proof.
  intros Hy. unfold build_requests.
  rewrite (length_concat_map _ (fun _ => Z.to_nat (17 * years + 13)))
    by (intros; apply length_requests_for_company; exact Hy).
  rewrite list_sum_const. lia.
Qed.

Lemma build_requests_count_witness :
  List.length (build_requests (Samples.env_ok []) ["AAPL"; "MSFT"] 5)
  = 196%nat.
Proof.
  rewrite (build_requests_count (Samples.env_ok []) ["AAPL"; "MSFT"] 5)
    by lia.
  reflexivity.
Defined.

(** ** Batches *)

Lemma batches_concat (fuel : nat) (l : list Request) :
  (List.length l <= fuel)%nat -> concat (batches fuel l) = l.
Proof.
  revert l. induction fuel as [|fuel IH]; intros l Hlen.
  - destruct l; [reflexivity|cbn in Hlen; lia].
  - destruct l as [|x l]; [reflexivity|].
    cbn [batches concat]. rewrite IH.
    + apply take_drop.
    + rewrite length_skipn. unfold BATCH_SIZE. cbn [List.length] in *. lia.
Qed.

Lemma batches_sizes (fuel : nat) (l : list Request) :
  Forall (fun b => (1 <= List.length b <= BATCH_SIZE)%nat) (batches fuel l).
Proof.
  revert l. induction fuel as [|fuel IH]; intros l; [constructor|].
  destruct l as [|x l]; [constructor|].
  cbn [batches]. constructor; [|apply IH].
  rewrite length_take. unfold BATCH_SIZE. cbn [List.length]. lia.
Qed.

Lemma batches_count (fuel : nat) (l : list Request) :
  (List.length l <= fuel)%nat ->
  List.length (batches fuel l)
  = ((List.length l + (BATCH_SIZE - 1)) / BATCH_SIZE)%nat.
Proof.
  revert l. induction fuel as [|fuel IH]; intros l Hlen.
  - destruct l; [reflexivity|cbn in Hlen; lia].
  - destruct l as [|x l]; [reflexivity|].
    cbn [batches List.length].
    rewrite IH
      by (rewrite length_skipn; unfold BATCH_SIZE; cbn [List.length] in *; lia).
    rewrite length_skipn. cbn [List.length]. unfold BATCH_SIZE.
    set (n := List.length l).
    destruct (Nat.le_gt_cases (S n) 100) as [Hs|Hb].
    + replace (S n - 100)%nat with 0%nat by lia.
      change ((0 + (100 - 1)) / 100)%nat with 0%nat.
      apply (Nat.div_unique _ _ _ n); lia.
    + replace (S n + (100 - 1))%nat
        with ((S n - 100 + (100 - 1)) + 1 * 100)%nat by lia.
      rewrite Nat.div_add by lia. lia.
Qed.

(** The slices [ciq_fetch] posts: put end to end they are the plan, each
    request once and in order; none is empty and none holds more than
    [BATCH_SIZE] requests; and there are [ceil(n / BATCH_SIZE)] of them. *)
Theorem batches_partition (input_requests : list Request) :
  let bs := batches (List.length input_requests) input_requests in
  concat bs = input_requests
  /\ Forall (fun b => (1 <= List.length b <= BATCH_SIZE)%nat) bs
  /\ List.length bs
     = ((List.length input_requests + (BATCH_SIZE - 1)) / BATCH_SIZE)%nat.
Proof.
  intros bs. subst bs. split; [apply batches_concat; lia|].
  split; [apply batches_sizes|apply batches_count; lia].
Qed.

End PlanSizeFacts.

(* ===================================================================== *)
(** * Properties: the fetch as a whole *)
(* ===================================================================== *)

Section TransportFacts.

Import Api.

(** [_need] accepts a variable that is set and not empty. *)
Lemma need_ok (env : Env) (key val : string) :
  _need env key = Ok val <-> getenv env key = Some val /\ val <> "".
Proof.
  unfold _need. destruct (getenv env key) as [v|]; [|split; [discriminate|]].
  - destruct v as [|a v]; cbn [Py.truthy].
    + split; [discriminate|]. intros [[= <-] H]. congruence.
    + split; [intros [= <-]; split; [reflexivity|discriminate]|].
      intros [[= <-] _]. reflexivity.
  - intros [H _]. discriminate.
Qed.

Lemma need_raises (env : Env) (key : string) :
  getenv env key = None \/ getenv env key = Some "" ->
  _need env key = Raise (ValueError ("Missing environment variable: " +:+ key)).
Proof. unfold _need. intros [-> | ->]; reflexivity. Qed.

(** The loop over the batches returns the replies of all of them, in
    order, after the ones it starts from. *)
Lemma post_all_ok (env : Env) (token : string) (bs : list (list Request))
    (acc replies : list Reply) :
  post_all env token bs acc = Ok replies <->
  exists rs, Forall2 (fun b r => post env token b = Some r) bs rs
             /\ replies = acc ++ concat rs.
Proof.
  revert acc. induction bs as [|b bs IH]; intros acc; cbn [post_all].
  - split.
    + intros [= <-]. exists []. split; [constructor|].
      cbn. rewrite app_nil_r. reflexivity.
    + intros (rs & H & ->). inversion H; subst. cbn.
      rewrite app_nil_r. reflexivity.
  - destruct (post env token b) as [r|] eqn:E.
    + rewrite IH. split.
      * intros (rs & H & ->). exists (r :: rs).
        split; [constructor; assumption|]. cbn. rewrite app_assoc.
        reflexivity.
      * intros (rs & H & ->). inversion H as [|? r' ? rs' Hb Hrest]; subst.
        assert (r' = r) as -> by congruence.
        exists rs'. split; [exact Hrest|]. cbn. rewrite app_assoc.
        reflexivity.
    + split; [discriminate|].
      intros (rs & H & _). inversion H; subst. congruence.
Qed.

Lemma post_all_raises (env : Env) (token : string) (bs : list (list Request))
    (acc : list Reply) (e : exn) :
  post_all env token bs acc = Raise e ->
  e = HTTPError /\ exists b, b ∈ bs /\ post env token b = None.
Proof.
  revert acc. induction bs as [|b bs IH]; intros acc; cbn [post_all];
    [discriminate|].
  destruct (post env token b) as [r|] eqn:E.
  - intros H. destruct (IH _ H) as (He & b' & Hin & Hb').
    split; [exact He|]. exists b'. split; [right; exact Hin|exact Hb'].
  - intros [= <-]. split; [reflexivity|]. exists b. split; [left|exact E].
Qed.

(** [ciq_fetch] is all or nothing.  It returns exactly when both
    credentials are set and not empty, a token is obtained, and every
    batch is answered; what it returns is then the replies of the batches
    in the order the batches were sent.  One failing batch fails the
    fetch, whatever the earlier batches returned. *)
Theorem ciq_fetch_all_or_nothing (env : Env) (input_requests : list Request)
    (replies : list Reply) :
  ciq_fetch env input_requests = Ok replies <->
  exists user pwd token rs,
    getenv env "CIQ_USER" = Some user /\ user <> ""
    /\ getenv env "CIQ_PASS" = Some pwd /\ pwd <> ""
    /\ token_for env user pwd = Some token
    /\ Forall2 (fun b r => post env token b = Some r)
               (batches (List.length input_requests) input_requests) rs
    /\ replies = concat rs.
Proof.
  unfold ciq_fetch. split.
  - destruct (_need env "CIQ_USER") as [user|e] eqn:Eu; [|discriminate].
    destruct (_need env "CIQ_PASS") as [pwd|e] eqn:Ep; [|discriminate].
    cbn [bind]. unfold ciq_token.
    destruct (token_for env user pwd) as [token|] eqn:Et; [|discriminate].
    cbn [bind]. intros H. apply post_all_ok in H as (rs & Hrs & ->).
    apply need_ok in Eu as [Eu Hu]. apply need_ok in Ep as [Ep Hp].
    exists user, pwd, token, rs. repeat (split; [assumption|]). reflexivity.
  - intros (user & pwd & token & rs & Eu & Hu & Ep & Hp & Et & Hrs & ->).
    rewrite (proj2 (need_ok env "CIQ_USER" user) (conj Eu Hu)).
    rewrite (proj2 (need_ok env "CIQ_PASS" pwd) (conj Ep Hp)).
    cbn [bind]. unfold ciq_token. rewrite Et. cbn [bind].
    apply post_all_ok. exists rs. split; [exact Hrs|reflexivity].
Qed.

(** The failures of [ciq_fetch], in the order it meets them: a user name
    that is unset or empty raises a [ValueError] naming [CIQ_USER],
    whatever else is set; with a user name, a password that is unset or
    empty raises one naming [CIQ_PASS]; and every other failure comes
    from the transport (the error [HTTPError] stands for): the token
    endpoint gave no token, or a batch was not answered. *)
Theorem ciq_fetch_failures (env : Env) (input_requests : list Request) :
  (getenv env "CIQ_USER" = None \/ getenv env "CIQ_USER" = Some "" ->
   ciq_fetch env input_requests
   = Raise (ValueError "Missing environment variable: CIQ_USER"))
  /\ (forall user,
        getenv env "CIQ_USER" = Some user -> user <> "" ->
        getenv env "CIQ_PASS" = None \/ getenv env "CIQ_PASS" = Some "" ->
        ciq_fetch env input_requests
        = Raise (ValueError "Missing environment variable: CIQ_PASS"))
  /\ (forall user pwd e,
        getenv env "CIQ_USER" = Some user -> user <> "" ->
        getenv env "CIQ_PASS" = Some pwd -> pwd <> "" ->
        ciq_fetch env input_requests = Raise e ->
        e = HTTPError
        /\ (token_for env user pwd = None
            \/ exists token b,
                 token_for env user pwd = Some token
                 /\ b ∈ batches (List.length input_requests) input_requests
                 /\ post env token b = None)).
Proof.
  split; [|split].
  - intros H. unfold ciq_fetch. rewrite (need_raises env "CIQ_USER" H).
    reflexivity.
  - intros user Eu Hu H. unfold ciq_fetch.
    rewrite (proj2 (need_ok env "CIQ_USER" user) (conj Eu Hu)).
    rewrite (need_raises env "CIQ_PASS" H). reflexivity.
  - intros user pwd e Eu Hu Ep Hp. unfold ciq_fetch.
    rewrite (proj2 (need_ok env "CIQ_USER" user) (conj Eu Hu)).
    rewrite (proj2 (need_ok env "CIQ_PASS" pwd) (conj Ep Hp)).
    cbn [bind]. unfold ciq_token.
    destruct (token_for env user pwd) as [token|] eqn:Et; cbn [bind].
    + intros H. apply post_all_raises in H as (He & b & Hin & Hb).
      split; [exact He|]. right. exists token, b. auto.
    + intros [= <-]. split; [reflexivity|left; reflexivity].
Qed.

(** The plan is empty exactly when no company is given, whatever the
    number of years; and then [fetch_data_from_api] returns the empty
    DataFrame in every environment: nothing is posted, and a failure of
    the credentials or of the token is swallowed. *)
Theorem fetch_no_company (env : Env) (company_ids : list string)
    (years : Z) :
  (build_requests env company_ids years = [] <-> company_ids = [])
  /\ fetch_data_from_api env [] years = empty_table.
Proof.
  split.
  - split; [|intros ->; reflexivity].
    destruct company_ids as [|cid ids]; [reflexivity|]. discriminate.
  - unfold fetch_data_from_api.
    change (build_requests env [] years) with (@nil Request).
    unfold ciq_fetch.
    destruct (_need env "CIQ_USER"); [|reflexivity].
    destruct (_need env "CIQ_PASS"); [|reflexivity].
    cbn [bind]. destruct (ciq_token env a a0); reflexivity.
Qed.

End TransportFacts.

(* ===================================================================== *)
(** * Properties: Response Flattener *)
(* ===================================================================== *)

Section FlattenerFacts.

Import Api.

Lemma dict_get_app (k : string) (d e : record) :
  dict_get k (d ++ e)
  = match dict_get k d with Some v => Some v | None => dict_get k e end.
Proof.
  induction d as [|[k' v'] d IH]; [reflexivity|].
  cbn [app dict_get]. destruct (k' =? k)%string; [reflexivity|exact IH].
Qed.

Lemma dict_get_set (k k' : string) (v : cell) (d : record) :
  dict_get k' (dict_set k v d)
  = if (k =? k')%string then Some v else dict_get k' d.
Proof.
  induction d as [|[k0 v0] d IH]; cbn [dict_set dict_get]; [reflexivity|].
  destruct (k0 =? k)%string eqn:E0; cbn [dict_get].
  - apply String.eqb_eq in E0 as ->. destruct (k =? k')%string; reflexivity.
  - rewrite IH. destruct (k0 =? k')%string eqn:E1; [|reflexivity].
    apply String.eqb_eq in E1 as ->. rewrite String.eqb_sym, E0.
    reflexivity.
Qed.

(** After [d.update(e)], a key holds what the last pair of [e] with that
    key gives it, and what it held in [d] when [e] has no such pair. *)
Lemma dict_get_update (k : string) (e d : record) :
  dict_get k (dict_update d e)
  = match dict_get k (rev e) with
    | Some v => Some v
    | None => dict_get k d
    end.
Proof.
  unfold dict_update. revert d.
  induction e as [|[k0 v0] e IH]; intros d; cbn [fold_left rev];
    [reflexivity|].
  rewrite IH, dict_get_app. cbn [fst snd dict_get].
  destruct (dict_get k (rev e)); [reflexivity|].
  rewrite dict_get_set. destruct (k0 =? k)%string; reflexivity.
Qed.

Lemma dict_get_none (k : string) (d : record) :
  dict_get k d = None <-> k ∉ map fst d.
Proof.
  induction d as [|[k' v'] d IH]; cbn [dict_get map fst].
  - split; [intros _; apply not_elem_of_nil|reflexivity].
  - rewrite not_elem_of_cons. destruct (k' =? k)%string eqn:E.
    + apply String.eqb_eq in E as ->. split; [discriminate|].
      intros [H _]. congruence.
    + apply String.eqb_neq in E. rewrite IH. split; [|intros [_ H]; exact H].
      intros H. split; [congruence|exact H].
Qed.

(** The last pair with key [k] decides a lookup in the reversed list. *)
Lemma dict_set_keys (k : string) (v : cell) (d : record) :
  map fst (dict_set k v d)
  = if decide (k ∈ map fst d) then map fst d else map fst d ++ [k].
Proof.
  induction d as [|[k0 v0] d IH]; cbn [dict_set map fst].
  - rewrite decide_False by apply not_elem_of_nil. reflexivity.
  - destruct (k0 =? k)%string eqn:E0; cbn [map fst].
    + apply String.eqb_eq in E0 as ->.
      rewrite decide_True by left. reflexivity.
    + apply String.eqb_neq in E0. rewrite IH.
      destruct (decide (k ∈ map fst d)) as [Hin|Hnin].
      * rewrite decide_True by (right; exact Hin). reflexivity.
      * rewrite decide_False; [reflexivity|].
        intros H. apply elem_of_cons in H as [->|H]; contradiction.
Qed.

Lemma dict_set_nodup (k : string) (v : cell) (d : record) :
  NoDup (map fst d) -> NoDup (map fst (dict_set k v d)).
Proof.
  intros H. rewrite dict_set_keys.
  destruct (decide (k ∈ map fst d)) as [Hin|Hnin]; [exact H|].
  apply NoDup_app. split; [exact H|]. split; [|apply NoDup_singleton].
  intros x Hx Hx'. apply list_elem_of_singleton in Hx' as ->. contradiction.
Qed.

Lemma dict_update_nodup (d e : record) :
  NoDup (map fst d) -> NoDup (map fst (dict_update d e)).
Proof.
  unfold dict_update. revert d.
  induction e as [|kv e IH]; intros d H; cbn [fold_left]; [exact H|].
  apply IH, dict_set_nodup, H.
Qed.

(** In a dictionary, a key holds the value it is paired with. *)
Lemma dict_get_elem (k : string) (v : cell) (d : list (string * cell)) :
  NoDup (map fst d) -> dict_get k d = Some v <-> (k, v) ∈ d.
Proof.
  induction d as [|[k0 v0] d IH]; cbn [dict_get map fst]; intros H.
  - split; [discriminate|]. intros Hin. inversion Hin.
  - apply NoDup_cons in H as [Hk0 H]. rewrite elem_of_cons.
    destruct (k0 =? k)%string eqn:E.
    + apply String.eqb_eq in E as ->. split.
      * intros [= ->]. left. reflexivity.
      * intros [[= ->]|Hin]; [reflexivity|].
        exfalso. apply Hk0. apply list_elem_of_fmap. exists (k, v). auto.
    + apply String.eqb_neq in E. rewrite (IH H). split; [auto|].
      intros [[= -> ->]|Hin]; [congruence|exact Hin].
Qed.

Lemma elem_of_rev {A : Type} (x : A) (l : list A) : x ∈ rev l <-> x ∈ l.
Proof. rewrite !list_elem_of_In. symmetry. apply in_rev. Qed.

Lemma dict_get_rev (k : string) (d : list (string * cell)) :
  NoDup (map fst d) -> dict_get k (rev d) = dict_get k d.
Proof.
  intros H.
  assert (Hr : NoDup (map fst (rev d))).
  { rewrite map_rev, <- Permutation_rev. exact H. }
  destruct (dict_get k d) as [v|] eqn:E.
  - apply (dict_get_elem k v _ Hr). apply elem_of_rev.
    apply (dict_get_elem k v _ H). exact E.
  - apply dict_get_none. rewrite map_rev, elem_of_rev.
    apply dict_get_none. exact E.
Qed.

Lemma dict_get_rev_last (k : string) (v : cell) (l : list (string * cell))
    (i : nat) :
  l !! i = Some (k, v) ->
  (forall i' kv, (i < i')%nat -> l !! i' = Some kv -> fst kv <> k) ->
  dict_get k (rev l) = Some v.
Proof.
  revert i. induction l as [|[k0 v0] l IH] using rev_ind; intros i Hi Hlast.
  { discriminate. }
  rewrite rev_app_distr. cbn [rev app dict_get].
  destruct (decide (i = List.length l)) as [->|Hne].
  - rewrite list_lookup_middle in Hi by reflexivity.
    injection Hi as -> ->. rewrite String.eqb_refl. reflexivity.
  - assert (Hlt : (i < List.length l)%nat).
    { apply lookup_lt_Some in Hi. rewrite List.length_app in Hi.
      cbn in Hi. lia. }
    rewrite lookup_app_l in Hi by exact Hlt.
    assert (Hk : k0 <> k).
    { apply (Hlast (List.length l) (k0, v0) Hlt).
      apply list_lookup_middle. reflexivity. }
    apply String.eqb_neq in Hk. rewrite Hk.
    apply (IH i Hi). intros i' kv Hlt' Hi'.
    apply (Hlast i' kv Hlt'). rewrite lookup_app_l; [exact Hi'|].
    apply lookup_lt_Some in Hi'. exact Hi'.
Qed.

Lemma combine_lookup {A B : Type} (l : list A) (l' : list B) (i : nat)
    (a : A) (b : B) :
  List.combine l l' !! i = Some (a, b) <-> l !! i = Some a /\ l' !! i = Some b.
Proof.
  revert l' i. induction l as [|x l IH]; intros [|y l'] [|i];
    cbn [List.combine]; try (split; [discriminate|intros [? ?]; discriminate]).
  - cbn. split; [intros [= -> ->]; auto|intros [[= ->] [= ->]]; reflexivity].
  - cbn. apply IH.
Qed.

Lemma combine_keys {B : Type} (l : list string) (l' : list B) :
  map fst (List.combine l l') = take (List.length l') l.
Proof.
  revert l'. induction l as [|x l IH]; intros [|y l']; cbn; try reflexivity.
  f_equal. apply IH.
Qed.

(** The cells of a flattened record.  The record of the [j]-th entry of a
    reply holds, under a header, the cell of the entry at the position of
    that header; where a header occurs more than once the last occurrence
    that still has a cell decides (so a header named like a metadata key
    replaces the metadata).  Under any other key it holds the reply's
    identifier, mnemonic or period type, and NaN for a key that is neither
    a header nor a metadata key. *)
Theorem flattened_record_cells (row : Reply) (j : nat) (entry : list cell) :
  Rows row !! j = Some entry ->
  exists r,
    flatten_reply row !! j = Some r
    /\ (forall i h c,
          Headers row !! i = Some h -> entry !! i = Some c ->
          (forall i', (i < i')%nat -> (i' < List.length entry)%nat ->
                      Headers row !! i' <> Some h) ->
          at_col r h = c)
    /\ (forall k,
          k ∉ take (List.length entry) (Headers row) ->
          at_col r k
          = if (k =? "Identifier")%string then Identifier row
            else if (k =? "Mnemonic")%string then Mnemonic row
            else if (k =? "Period")%string then periodtype row
            else CNum F64.nan).
Proof.
  intros Hj. unfold flatten_reply. rewrite list_lookup_fmap, Hj.
  eexists. split; [reflexivity|]. unfold at_col, dict_zip.
  split.
  - intros i h c Hh Hc Hlast.
    rewrite dict_get_update.
    assert (E : dict_get h (rev (List.combine (Headers row) entry)) = Some c).
    { apply (dict_get_rev_last h c _ i).
      - apply combine_lookup. auto.
      - intros i' [h' c'] Hlt Hi'. apply combine_lookup in Hi' as [Hh' Hc'].
        cbn [fst]. intros ->. apply (Hlast i' Hlt); [|exact Hh'].
        apply lookup_lt_Some in Hc'. exact Hc'. }
    assert (E' : dict_get h (dict_update [] (List.combine (Headers row) entry))
                 = Some c).
    { rewrite dict_get_update, E. reflexivity. }
    rewrite dict_get_rev, E'; [reflexivity|].
    apply dict_update_nodup. constructor.
  - intros k Hk.
    rewrite dict_get_update, dict_get_rev
      by (apply dict_update_nodup; constructor).
    rewrite dict_get_update.
    assert (E : dict_get k (rev (List.combine (Headers row) entry)) = None).
    { apply dict_get_none. rewrite map_rev, elem_of_rev, combine_keys.
      exact Hk. }
    rewrite E. cbn [dict_get].
    rewrite (String.eqb_sym "Identifier"), (String.eqb_sym "Mnemonic"),
      (String.eqb_sym "Period").
    destruct (k =? "Identifier")%string; [reflexivity|].
    destruct (k =? "Mnemonic")%string; [reflexivity|].
    destruct (k =? "Period")%string; reflexivity.
Qed.

Lemma flattened_record_cells_witness :
  let row := {| Identifier := CStr "MSFT";
                Mnemonic := CStr "IQ_TOTAL_REV";
                Headers := ["Value"; "Period"; "Value"];
                periodtype := CStr "IQ_FY";
                Rows := [[CNum (F64.of_Z 1); CStr "FY2023";
                          CNum (F64.of_Z 2)]] |} in
  exists r,
    flatten_reply row !! 0%nat = Some r
    /\ at_col r "Value" = CNum (F64.of_Z 2)
    /\ at_col r "Period" = CStr "FY2023"
    /\ at_col r "Mnemonic" = CStr "IQ_TOTAL_REV"
    /\ at_col r "Date" = CNum F64.nan.
Proof.
  intros row.
  destruct (flattened_record_cells row 0
              [CNum (F64.of_Z 1); CStr "FY2023"; CNum (F64.of_Z 2)] eq_refl)
    as (r & Hr & Hcell & Hmeta).
  exists r. split; [exact Hr|].
  split; [|split; [|split]].
  - apply (Hcell 2%nat); [reflexivity|reflexivity|].
    intros i' H1 H2. cbn in H2. lia.
  - apply (Hcell 1%nat); [reflexivity|reflexivity|].
    intros i' H1 H2. cbn in H2.
    destruct i' as [|[|[|i']]]; try lia. discriminate.
  - rewrite (Hmeta "Mnemonic"); [reflexivity|].
    intros H. repeat (apply elem_of_cons in H as [H|H]; [discriminate|]).
    inversion H.
  - rewrite (Hmeta "Date"); [reflexivity|].
    intros H. repeat (apply elem_of_cons in H as [H|H]; [discriminate|]).
    inversion H.
Defined.

Lemma mem_elem (s : string) (l : list string) :
  Py.mem s l = true <-> s ∈ l.
Proof.
  unfold Py.mem. induction l as [|x l IH]; cbn [existsb].
  - split; [discriminate|]. intros H. inversion H.
  - rewrite orb_true_iff, IH, elem_of_cons, String.eqb_eq. reflexivity.
Qed.

(** What [from_records] does to the columns when it meets one more
    record: the columns so far stay in front, and the keys of the record
    that are new follow. *)
Lemma add_columns_spec (r : record) (cols : list string) :
  NoDup cols ->
  NoDup (add_columns cols r)
  /\ (exists ext, add_columns cols r = cols ++ ext)
  /\ (forall c, c ∈ add_columns cols r <-> c ∈ cols \/ c ∈ map fst r).
Proof.
  unfold add_columns. revert cols.
  induction r as [|[k v] r IH]; intros cols H; cbn [fold_left map fst].
  - split; [exact H|]. split; [exists []; rewrite app_nil_r; reflexivity|].
    intros c. split; [auto|]. intros [Hc|Hc]; [exact Hc|inversion Hc].
  - destruct (Py.mem k cols) eqn:E.
    + apply mem_elem in E. destruct (IH cols H) as (A & B & C).
      split; [exact A|]. split; [exact B|]. intros c. rewrite C, elem_of_cons.
      split; [tauto|]. intros [Hc|[->|Hc]]; auto.
    + assert (Hk : k ∉ cols).
      { intros Hin. apply mem_elem in Hin. congruence. }
      assert (H' : NoDup (cols ++ [k])).
      { apply NoDup_app. split; [exact H|]. split; [|apply NoDup_singleton].
        intros x Hx Hx'. apply list_elem_of_singleton in Hx' as ->.
        contradiction. }
      destruct (IH (cols ++ [k]) H') as (A & (ext & B) & C).
      split; [exact A|]. split.
      * exists (k :: ext). rewrite B, <- app_assoc. reflexivity.
      * intros c. rewrite C, elem_of_app, list_elem_of_singleton, elem_of_cons.
        tauto.
Qed.

Lemma from_records_spec (rs : list record) (cols : list string) :
  NoDup cols ->
  NoDup (fold_left add_columns rs cols)
  /\ (exists ext, fold_left add_columns rs cols = cols ++ ext)
  /\ (forall c, c ∈ fold_left add_columns rs cols
                <-> c ∈ cols \/ exists r, r ∈ rs /\ c ∈ map fst r).
Proof.
  revert cols. induction rs as [|r rs IH]; intros cols H; cbn [fold_left].
  - split; [exact H|]. split; [exists []; rewrite app_nil_r; reflexivity|].
    intros c. split; [auto|]. intros [Hc|(r & Hr & _)]; [exact Hc|inversion Hr].
  - destruct (add_columns_spec r cols H) as (A & (ext & B) & C).
    destruct (IH _ A) as (A' & (ext' & B') & C').
    split; [exact A'|]. split.
    + exists (ext ++ ext'). rewrite B', B, <- app_assoc. reflexivity.
    + intros c. rewrite C', C. split.
      * intros [[Hc|Hc]|(r' & Hr' & Hc)]; [auto| |].
        -- right. exists r. split; [left|exact Hc].
        -- right. exists r'. split; [right; exact Hr'|exact Hc].
      * intros [Hc|(r' & Hr' & Hc)]; [auto|].
        apply elem_of_cons in Hr' as [->|Hr']; [auto|].
        right. exists r'. auto.
Qed.

Lemma dict_update_keys (d e : record) :
  exists ext,
    map fst (dict_update d e) = map fst d ++ ext
    /\ forall k, k ∈ ext -> k ∈ map fst e.
Proof.
  unfold dict_update. revert d.
  induction e as [|[k v] e IH]; intros d; cbn [fold_left fst snd].
  - exists []. rewrite app_nil_r. split; [reflexivity|]. intros k H.
    inversion H.
  - destruct (IH (dict_set k v d)) as (ext & E & Hext).
    rewrite E, dict_set_keys. cbn [map fst].
    destruct (decide (k ∈ map fst d)).
    + exists ext. split; [reflexivity|]. intros k' H. right. auto.
    + exists (k :: ext). rewrite <- app_assoc. split; [reflexivity|].
      intros k' H. apply elem_of_cons in H as [->|H]; [left|right; auto].
Qed.

(** The keys of a flattened record: the three metadata keys first, then
    headers of the reply. *)
Lemma flattened_keys (row : Reply) (r : record) :
  r ∈ flatten_reply row ->
  exists ext,
    map fst r = "Identifier" :: "Mnemonic" :: "Period" :: ext
    /\ forall k, k ∈ ext -> k ∈ Headers row.
Proof.
  unfold flatten_reply. intros H.
  apply list_elem_of_fmap in H as (entry & -> & _).
  destruct (dict_update_keys
              [("Identifier", Identifier row); ("Mnemonic", Mnemonic row);
               ("Period", periodtype row)]
              (dict_zip (Headers row) entry)) as (ext & E & Hext).
  exists ext. split; [exact E|]. intros k Hk. apply Hext in Hk.
  unfold dict_zip in Hk.
  destruct (dict_update_keys [] (List.combine (Headers row) entry))
    as (ext' & E' & Hext').
  rewrite E' in Hk. cbn [map app] in Hk. apply Hext' in Hk.
  rewrite combine_keys in Hk. apply elem_of_take in Hk as (i & Hi & _).
  apply list_elem_of_lookup_2 in Hi. exact Hi.
Qed.

(** The rows of the raw table: one for each entry of each reply, so a
    reply without entries adds nothing, and the table is empty exactly
    when no reply has an entry. *)
Theorem parse_to_table_rows (rows : list Reply) :
  List.length (records (parse_to_table rows))
  = list_sum (map (fun row => List.length (Rows row)) rows)
  /\ (table_empty (parse_to_table rows) = true
      <-> Forall (fun row => Rows row = []) rows).
Proof.
  unfold parse_to_table, from_records, table_empty. cbn [records].
  split.
  - induction rows as [|row rows IH]; [reflexivity|].
    cbn [map concat]. rewrite List.length_app, IH.
    unfold flatten_reply at 1. rewrite List.length_map. reflexivity.
  - induction rows as [|row rows IH]; cbn [map concat].
    + split; [constructor|reflexivity].
    + unfold flatten_reply at 1.
      destruct (Rows row) as [|entry entries] eqn:E; cbn [map app].
      * rewrite IH. split; [intros H; constructor; [exact E|exact H]|].
        intros H. inversion H; assumption.
      * split; [discriminate|]. intros H. inversion H; congruence.
Qed.

(** The columns of the raw table: no name twice; the names are the keys
    of the records; a table that has a row starts with [Identifier],
    [Mnemonic] and [Period]; and every further column is a header of a
    reply. *)
Theorem parse_to_table_columns (rows : list Reply) :
  let t := parse_to_table rows in
  NoDup (columns t)
  /\ (forall c, c ∈ columns t <-> exists r, r ∈ records t /\ c ∈ map fst r)
  /\ (table_empty t = false ->
      take 3 (columns t) = ["Identifier"; "Mnemonic"; "Period"])
  /\ (forall c, c ∈ columns t ->
        c ∈ ["Identifier"; "Mnemonic"; "Period"]
        \/ exists row, row ∈ rows /\ c ∈ Headers row).
Proof.
  intros t. subst t. unfold parse_to_table, from_records, table_empty.
  cbn [columns records].
  set (rs := concat (map flatten_reply rows)).
  assert (Hkeys : forall r, r ∈ rs -> exists row ext,
             row ∈ rows
             /\ map fst r = "Identifier" :: "Mnemonic" :: "Period" :: ext
             /\ forall k, k ∈ ext -> k ∈ Headers row).
  { intros r Hr. subst rs.
    apply list_elem_of_In, in_concat in Hr as (l & Hl & Hr).
    apply in_map_iff in Hl as (row & <- & Hrow).
    apply list_elem_of_In in Hr, Hrow.
    destruct (flattened_keys row r Hr) as (ext & E & Hext).
    exists row, ext. auto. }
  destruct (from_records_spec rs [] (NoDup_nil_2)) as (A & _ & C).
  split; [exact A|]. split; [|split].
  - intros c. rewrite C. split; [|auto].
    intros [H|H]; [inversion H|exact H].
  - destruct rs as [|r rs'] eqn:Ers; [discriminate|]. intros _.
    cbn [fold_left].
    destruct (Hkeys r) as (row & ext & _ & E & _); [left|].
    assert (P : exists ext', add_columns [] r
                             = "Identifier" :: "Mnemonic" :: "Period" :: ext').
    { destruct r as [|[k1 v1] [|[k2 v2] [|[k3 v3] r]]]; try discriminate.
      cbn [map fst] in E. injection E as -> -> -> _.
      unfold add_columns. cbn [fold_left fst].
      change (Py.mem "Identifier" []) with false. cbn [app].
      change (Py.mem "Mnemonic" ["Identifier"]) with false. cbn [app].
      change (Py.mem "Period" ["Identifier"; "Mnemonic"]) with false.
      cbn [app].
      assert (N : NoDup ["Identifier"; "Mnemonic"; "Period"]).
      { repeat (apply NoDup_cons; split;
                [intros H; repeat (apply elem_of_cons in H as [H|H];
                                   [discriminate|]); inversion H|]).
        constructor. }
      destruct (add_columns_spec r _ N) as (_ & (ext' & B) & _).
      exists ext'. exact B. }
    destruct P as (ext' & P). rewrite P.
    assert (N : NoDup ("Identifier" :: "Mnemonic" :: "Period" :: ext')).
    { rewrite <- P. apply add_columns_spec. constructor. }
    destruct (from_records_spec rs' _ N) as (_ & (ext2 & B) & _).
    rewrite B. reflexivity.
  - intros c Hc. apply C in Hc as [Hc|(r & Hr & Hc)]; [inversion Hc|].
    destruct (Hkeys r Hr) as (row & ext & Hrow & E & Hext).
    rewrite E in Hc.
    repeat (apply elem_of_cons in Hc as [->|Hc];
            [left; repeat constructor|]).
    right. exists row. auto.
Qed.

End FlattenerFacts.

(* ===================================================================== *)
(** * Properties: the year of a record, from its dates *)
(* ===================================================================== *)

Section DateFacts.

Import Api.

Lemma date_part_year (part : string) :
  date_part_ok part = true ->
  Py.isdigit part = true /\ String.length part = 4%nat
  /\ exists n, Py.int_of_digits part = Some n /\ 2000 <= n <= 2030.
Proof.
  unfold date_part_ok. intros H.
  apply andb_true_iff in H as [H H3]. apply andb_true_iff in H as [H1 H2].
  split; [exact H1|]. split; [apply Nat.eqb_eq; exact H2|].
  destruct (Py.int_of_digits part) as [n|]; [|discriminate].
  exists n. split; [reflexivity|]. apply andb_true_iff in H3 as [A B].
  apply Z.leb_le in A, B. lia.
Qed.

(** The scan of the date-like cells either leaves the year as it was or
    sets it to a four-digit part, between 2000 and 2030, of a string cell
    of one of the columns scanned. *)
Lemma date_scan_origin (cols : list string) (row : record)
    (init : option Z) (y : Z) :
  year_from_dates cols row init = Some y ->
  init = Some y
  \/ (2000 <= y <= 2030
      /\ exists col val part,
           col ∈ cols /\ at_col row col = CStr val
           /\ part ∈ Py.split hyphen (Py.replace_char slash hyphen val)
           /\ String.length part = 4%nat
           /\ Py.int_of_digits part = Some y).
Proof.
  unfold year_from_dates. revert init.
  induction cols as [|col cols IH]; intros init; cbn [fold_left].
  - intros H. left. exact H.
  - intros H. apply IH in H as [H|(Hy & c & v & p & Hc & Hrest)].
    + destruct (at_col row col) as [f|val|] eqn:Ecell; [left; exact H| |left; exact H].
      destruct (Py.contains "/" val || Py.contains "-" val);
        [|left; exact H].
      destruct (List.find date_part_ok
                  (Py.split hyphen (Py.replace_char slash hyphen val)))
        as [part|] eqn:Efind; [|left; exact H].
      apply find_some in Efind as [Hin Hok].
      apply date_part_year in Hok as (_ & Hlen & n & Hn & Hrange).
      rewrite Hn in H. injection H as ->.
      right. split; [exact Hrange|].
      exists col, val, part. split; [left|]. split; [exact Ecell|].
      split; [apply list_elem_of_In; exact Hin|]. auto.
    + right. split; [exact Hy|]. exists c, v, p.
      split; [right; exact Hc|exact Hrest].
Qed.

(** Where the year of a record comes from.  It is the year the period
    token gives; or, when the token gives none (or the year 0), a year
    between 2000 and 2030 spelled by a four-digit part of a date-like
    cell of the record.  Nothing else is ever the year of a record. *)
Theorem resolved_year_origin (current_year : Z) (cols : list string)
    (row : record) (y : Z) :
  resolve_year current_year cols row = Some y ->
  let period := if Py.mem "Period" cols then at_col row "Period"
                else CStr "" in
  year_from_period current_year period = Some y
  \/ (no_year (year_from_period current_year period) = true
      /\ 2000 <= y <= 2030
      /\ exists col val part,
           col ∈ cols /\ at_col row col = CStr val
           /\ part ∈ Py.split hyphen (Py.replace_char slash hyphen val)
           /\ String.length part = 4%nat
           /\ Py.int_of_digits part = Some y).
Proof.
  intros H period. unfold resolve_year in H. cbv zeta in H.
  fold period in H.
  destruct (no_year (year_from_period current_year period)) eqn:E;
    [|left; exact H].
  apply date_scan_origin in H as [H|[Hy H]]; [left; exact H|].
  right. auto.
Qed.

Lemma resolved_year_origin_witness :
  let cols := ["Identifier"; "Mnemonic"; "Period"; "Value"; "AsOf"] in
  let row := [("Identifier", CStr "MSFT"); ("Mnemonic", CStr "IQ_TOTAL_REV");
              ("Period", CStr "LTM"); ("Value", CNum (F64.of_Z 5));
              ("AsOf", CStr "06/30/2023")] in
  resolve_year 2024 cols row = Some 2023
  /\ (year_from_period 2024 (CStr "LTM") = Some 2023
      \/ (no_year (year_from_period 2024 (CStr "LTM")) = true
          /\ 2000 <= 2023 <= 2030
          /\ exists col val part,
               col ∈ cols /\ at_col row col = CStr val
               /\ part ∈ Py.split hyphen (Py.replace_char slash hyphen val)
               /\ String.length part = 4%nat
               /\ Py.int_of_digits part = Some 2023)).
Proof.
  intros cols row.
  assert (H : resolve_year 2024 cols row = Some 2023)
    by (vm_compute; reflexivity).
  split; [exact H|].
  exact (resolved_year_origin 2024 cols row 2023 H).
Defined.

End DateFacts.

(* ===================================================================== *)
(** * Properties: what the yearly rows hold *)
(* ===================================================================== *)

Section RowFacts.

Import Api.

Variable py_float : string -> option F64.float.

(** A run gives no row, or the rows assembled from a table that has
    rows. *)
Lemma fetch_company_cases (env : Env) (ticker : string) (years : Z) :
  fetch_company_by_ticker py_float env ticker years = []
  \/ exists rows,
       table_empty (parse_to_table rows) = false
       /\ fetch_company_by_ticker py_float env ticker years
          = assemble py_float (now_year env) ticker years
                     (parse_to_table rows).
Proof.
  unfold fetch_company_by_ticker, fetch_company_body.
  destruct (ciq_fetch env _) as [rows|e]; cbn [bind]; [|left; reflexivity].
  destruct rows as [|row rows]; [left; reflexivity|].
  destruct (table_empty (parse_to_table (row :: rows))) eqn:E;
    [left; reflexivity|].
  destruct (to_csv env (raw_csv_path ticker)); [|left; reflexivity].
  right. exists (row :: rows). split; [exact E|reflexivity].
Qed.

(** The rows of the result are the entries the loops leave under the
    years of the window, in ascending order. *)
Lemma assemble_lookup (current_year : Z) (ticker : string) (years : Z)
    (raw_df : Table) :
  let ys := Py.range (current_year - years + 1) (current_year + 1) in
  let fd := fold_left (process_metric py_float current_year raw_df)
              metric_names
              (init_data ticker (company_name_of ticker raw_df) ys) in
  assemble py_float current_year ticker years raw_df
  = omap (fun y => fd !! y) ys.
Proof.
  intros ys fd. unfold assemble, result_rows. fold ys. fold fd.
  f_equal. apply sorted_keys_window. intros y.
  pose proof (processed_entry py_float current_year ticker raw_df ys y) as H.
  cbv zeta in H. fold fd in H.
  destruct (decide (y ∈ ys)) as [Hin|Hnin].
  - destruct H as (r & Hr & _). rewrite Hr. split; [auto|eauto].
  - rewrite H. split; [intros [? ?]; discriminate|contradiction].
Qed.

Lemma fold_set_metric_keys (kv : list (string * F64.float)) (r : YearRecord)
    (name : string) (v : F64.float) :
  metrics (fold_left (fun r mv => set_metric (fst mv) (snd mv) r) kv r)
    !! name = Some v ->
  name ∈ map fst kv \/ metrics r !! name = Some v.
Proof.
  revert r. induction kv as [|[k x] kv IH]; intros r; cbn [fold_left map fst snd].
  - auto.
  - intros H. apply IH in H as [H|H]; [left; right; exact H|].
    cbn [set_metric metrics] in H.
    destruct (decide (k = name)) as [->|Hne]; [left; left|].
    rewrite lookup_insert_ne in H by exact Hne. right. exact H.
Qed.

(** The metrics a row starts with: none, or for AAPL the seven of the
    built-in table. *)
Lemma init_record_keys (ticker company : string) (y : Z) (name : string)
    (v : F64.float) :
  metrics (init_record ticker company y) !! name = Some v ->
  name ∈ ["Revenue"; "Net Income"; "EBITDA"; "EBIT"; "Total Assets";
          "Total Liabilities"; "Cash & Equivalents"].
Proof.
  unfold init_record.
  destruct (Py.upper ticker =? "AAPL")%string;
    [|cbn; rewrite lookup_empty; discriminate].
  destruct (historical_for y apple_historical) as [kv|] eqn:E;
    [|cbn; rewrite lookup_empty; discriminate].
  intros H. apply fold_set_metric_keys in H as [H|H];
    [|cbn in H; rewrite lookup_empty in H; discriminate].
  unfold apple_historical in E. cbn [historical_for] in E.
  repeat match type of E with
         | (if ?b then _ else _) = _ =>
             destruct b; [injection E as <-; exact H|]
         end.
  discriminate.
Qed.

(** Only the seven financial metrics are ever written: the three
    market-data mnemonics get no value column. *)
Lemma written_names (current_year : Z) (raw_df : Table) (y : Z)
    (name : string) (v : F64.float) :
  written_by py_float current_year raw_df y name v ->
  name ∈ ["Revenue"; "Net Income"; "EBITDA"; "EBIT"; "Total Assets";
          "Total Liabilities"; "Cash & Equivalents"].
Proof.
  intros ([mn nm] & first_row & rest & c & row & value
          & Hin & Hname & _ & Hcol & _).
  cbn [fst snd] in *. subst nm. unfold find_value_col in Hcol.
  unfold metric_names in Hin.
  repeat (apply elem_of_cons in Hin as [Hin|Hin];
          [injection Hin as -> ->;
           first [ solve [repeat constructor]
                 | exfalso; revert Hcol;
                   change (Py.mem _ financial_mnemonics) with false;
                   discriminate ]|]).
  inversion Hin.
Qed.

(** The metric columns of the result.  Whatever the replies hold, a row
    of the result carries no metric besides the seven financial ones:
    [P/E Ratio], [Market Cap] and [Stock Price] are in the table of
    metrics, are requested and are normalised, and are never stored. *)
Theorem output_metric_names (env : Env) (ticker : string) (years : Z) :
  Forall (fun r =>
            (forall name, is_Some (metrics r !! name) ->
               name ∈ ["Revenue"; "Net Income"; "EBITDA"; "EBIT";
                       "Total Assets"; "Total Liabilities";
                       "Cash & Equivalents"])
            /\ metrics r !! "P/E Ratio" = None
            /\ metrics r !! "Market Cap" = None
            /\ metrics r !! "Stock Price" = None)
         (fetch_company_by_ticker py_float env ticker years).
Proof.
  assert (G : Forall (fun r =>
                        forall name, is_Some (metrics r !! name) ->
                          name ∈ ["Revenue"; "Net Income"; "EBITDA"; "EBIT";
                                  "Total Assets"; "Total Liabilities";
                                  "Cash & Equivalents"])
                     (fetch_company_by_ticker py_float env ticker years)).
  { destruct (fetch_company_cases env ticker years) as [->|(rows & _ & ->)];
      [constructor|].
    rewrite assemble_lookup. apply Forall_forall. intros r Hr.
    apply list_elem_of_omap in Hr as (y & Hin & Hy).
    pose proof (processed_entry py_float (now_year env) ticker
                  (parse_to_table rows)
                  (Py.range (now_year env - years + 1) (now_year env + 1))
                  y) as H.
    cbv zeta in H. rewrite decide_True in H by exact Hin.
    destruct H as (r' & Hr' & _ & P & _).
    assert (r' = r) as -> by congruence.
    intros name [v Hv]. destruct (P name v Hv) as [Hi|HW].
    - exact (init_record_keys _ _ _ _ _ Hi).
    - exact (written_names _ _ _ _ _ HW). }
  eapply Forall_impl; [exact G|]. cbn beta. intros r H.
  split; [exact H|].
  assert (N : forall name,
             name ∉ ["Revenue"; "Net Income"; "EBITDA"; "EBIT";
                     "Total Assets"; "Total Liabilities";
                     "Cash & Equivalents"] ->
             metrics r !! name = None).
  { intros name Hn. destruct (metrics r !! name) eqn:E; [|reflexivity].
    exfalso. apply Hn, H. rewrite E. eauto. }
  repeat split; apply N; intros Hin;
    repeat (apply elem_of_cons in Hin as [Hin|Hin]; [discriminate|]);
    inversion Hin.
Qed.

(** With a number of years that is not positive the result has no row,
    whatever the environment and the replies. *)
Theorem no_years_no_rows (env : Env) (ticker : string) (years : Z) :
  years <= 0 ->
  fetch_company_by_ticker py_float env ticker years = [].
Proof.
  intros Hy.
  destruct (fetch_company_cases env ticker years) as [->|(rows & _ & ->)];
    [reflexivity|].
  rewrite assemble_lookup. unfold Py.range. rewrite seqZ_nil by lia.
  reflexivity.
Qed.

End RowFacts.

Section RowCases.

Import Api.

Lemma no_years_no_rows_witness :
  fetch_company_by_ticker decimal_float
    (Samples.env_ok [Samples.name_reply]) "msft" 0 = [].
Proof.
  apply (no_years_no_rows decimal_float
           (Samples.env_ok [Samples.name_reply]) "msft" 0).
  lia.
Defined.

End RowCases.

(* ===================================================================== *)
(** * Properties: rows of one year and metric, and the company name *)
(* ===================================================================== *)

Section LastWriteFacts.

Import Api.

Variable py_float : string -> option F64.float.
Variable current_year : Z.
Variable cols : list string.

(** The entry of a year after one row: the row writes its normalised
    value under its metric when it resolves to that year, the year is
    not 0, and a value is extracted; otherwise the entry is as before. *)
Lemma process_row_lookup (mnemonic friendly_name c : string)
    (fd : gmap Z YearRecord) (row : record) (y : Z) :
  process_row py_float current_year cols mnemonic friendly_name c fd row !! y
  = match resolve_year current_year cols row,
          extract_value py_float c cols row with
    | Some y', Some value =>
        if (y' =? y)%Z && negb (y' =? 0)%Z
        then set_metric friendly_name (normalize mnemonic value) <$> fd !! y
        else fd !! y
    | _, _ => fd !! y
    end.
Proof.
  unfold process_row.
  destruct (resolve_year current_year cols row) as [y'|]; [|reflexivity].
  cbn [no_year]. unfold has_year.
  destruct (extract_value py_float c cols row) as [value|].
  - destruct (y' =? 0)%Z; cbn [orb negb andb].
    + rewrite andb_false_r. reflexivity.
    + rewrite andb_true_r. destruct (Z.eqb_spec y' y) as [->|Hne].
      * destruct (fd !! y) as [r|] eqn:E; cbn [negb].
        -- rewrite lookup_alter_eq, E. reflexivity.
        -- rewrite E. reflexivity.
      * destruct (fd !! y'); cbn [negb]; [|reflexivity].
        rewrite lookup_alter_ne by exact Hne. reflexivity.
  - destruct ((y' =? 0)%Z || negb match fd !! y' with
                                   | Some _ => true
                                   | None => false
                                   end); reflexivity.
Qed.

(** What is seen of a dictionary at one year and metric: whether the
    year has an entry, and the value of the metric there. *)
Lemma process_row_other (mnemonic friendly_name c name : string)
    (fd : gmap Z YearRecord) (row : record) (y : Z) :
  friendly_name <> name
  \/ resolve_year current_year cols row <> Some y
  \/ extract_value py_float c cols row = None ->
  (fun r => metrics r !! name)
    <$> process_row py_float current_year cols mnemonic friendly_name c fd row
        !! y
  = (fun r => metrics r !! name) <$> fd !! y.
Proof.
  intros H. rewrite process_row_lookup.
  destruct (resolve_year current_year cols row) as [y'|]; [|reflexivity].
  destruct (extract_value py_float c cols row) as [value|]; [|reflexivity].
  destruct (Z.eqb_spec y' y) as [->|Hne]; cbn [andb]; [|reflexivity].
  destruct (y =? 0)%Z; cbn [negb]; [reflexivity|].
  destruct H as [H|[H|H]]; [|congruence|discriminate].
  destruct (fd !! y) as [r|]; [|reflexivity]. cbn.
  rewrite lookup_insert_ne by exact H. reflexivity.
Qed.

Lemma process_row_writes (mnemonic name c : string)
    (fd : gmap Z YearRecord) (row : record) (y : Z) (value : F64.float) :
  resolve_year current_year cols row = Some y -> y <> 0 ->
  extract_value py_float c cols row = Some value ->
  (fun r => metrics r !! name)
    <$> process_row py_float current_year cols mnemonic name c fd row !! y
  = (fun _ => Some (normalize mnemonic value)) <$> fd !! y.
Proof.
  intros Hy Hnz Hv. rewrite process_row_lookup, Hy, Hv, Z.eqb_refl.
  apply Z.eqb_neq in Hnz. rewrite Hnz. cbn [andb negb].
  destruct (fd !! y) as [r|]; [|reflexivity]. cbn.
  rewrite lookup_insert_eq. reflexivity.
Qed.

Lemma process_rows_other (mnemonic friendly_name c name : string)
    (rows : list record) (fd : gmap Z YearRecord) (y : Z) :
  Forall (fun row =>
            friendly_name <> name
            \/ resolve_year current_year cols row <> Some y
            \/ extract_value py_float c cols row = None) rows ->
  (fun r => metrics r !! name)
    <$> fold_left (process_row py_float current_year cols mnemonic
                     friendly_name c) rows fd !! y
  = (fun r => metrics r !! name) <$> fd !! y.
Proof.
  revert fd. induction rows as [|row rows IH]; intros fd H; [reflexivity|].
  cbn [fold_left]. inversion H as [|? ? Hrow Hrows]; subst.
  rewrite (IH _ Hrows). apply process_row_other. exact Hrow.
Qed.

(** The rows of one metric never add or drop the entry of a year. *)
Lemma process_rows_presence (mnemonic friendly_name c : string)
    (rows : list record) (fd : gmap Z YearRecord) (y : Z) :
  is_Some (fold_left (process_row py_float current_year cols mnemonic
                        friendly_name c) rows fd !! y)
  <-> is_Some (fd !! y).
Proof.
  revert fd. induction rows as [|row rows IH]; intros fd; [reflexivity|].
  cbn [fold_left]. rewrite IH, process_row_lookup.
  destruct (resolve_year current_year cols row) as [y'|]; [|reflexivity].
  destruct (extract_value py_float c cols row) as [value|]; [|reflexivity].
  destruct ((y' =? y)%Z && negb (y' =? 0)%Z); [|reflexivity].
  rewrite fmap_is_Some. reflexivity.
Qed.

(** Among the rows of one metric, the last one that resolves to a year
    and yields a value decides the value of that year. *)
Lemma process_rows_last (mnemonic name c : string)
    (pre post : list record) (row : record) (fd : gmap Z YearRecord)
    (y : Z) (value : F64.float) :
  is_Some (fd !! y) ->
  resolve_year current_year cols row = Some y -> y <> 0 ->
  extract_value py_float c cols row = Some value ->
  Forall (fun row' =>
            resolve_year current_year cols row' <> Some y
            \/ extract_value py_float c cols row' = None) post ->
  (fun r => metrics r !! name)
    <$> fold_left (process_row py_float current_year cols mnemonic name c)
          (pre ++ row :: post) fd !! y
  = Some (Some (normalize mnemonic value)).
Proof.
  intros Hfd Hy Hnz Hv Hpost. rewrite fold_left_app. cbn [fold_left].
  rewrite process_rows_other
    by (eapply Forall_impl; [exact Hpost|]; cbn beta; tauto).
  rewrite (process_row_writes _ _ _ _ _ _ _ Hy Hnz Hv).
  apply (process_rows_presence mnemonic name c pre) in Hfd.
  destruct Hfd as [r ->]. reflexivity.
Qed.

End LastWriteFacts.

Section LastWriteRun.

Import Api.

Variable py_float : string -> option F64.float.

Lemma metric_names_distinct : NoDup (map snd metric_names).
Proof.
  apply NoDup_ListNoDup. unfold metric_names. cbn [map snd].
  repeat (constructor;
          [intros H; cbn in H;
           repeat (destruct H as [H|H]; [discriminate|]); exact H|]).
  constructor.
Qed.

(** A metric with another friendly name leaves the value alone. *)
Lemma process_metric_other (current_year : Z) (raw_df : Table)
    (fd : gmap Z YearRecord) (metric : string * string) (name : string)
    (y : Z) :
  snd metric <> name ->
  (fun r => metrics r !! name)
    <$> process_metric py_float current_year raw_df fd metric !! y
  = (fun r => metrics r !! name) <$> fd !! y.
Proof.
  intros Hne. unfold process_metric.
  destruct (rows_of_mnemonic (fst metric) raw_df) as [|first_row rest];
    [reflexivity|].
  destruct (find_value_col py_float (fst metric) (columns raw_df) first_row)
    as [c|]; cbn [col_truthy]; [|reflexivity].
  destruct (Py.truthy c); [|reflexivity].
  apply process_rows_other. apply Forall_forall. intros row _. left.
  exact Hne.
Qed.

Lemma process_metrics_other (current_year : Z) (raw_df : Table)
    (ms : list (string * string)) (fd : gmap Z YearRecord) (name : string)
    (y : Z) :
  name ∉ map snd ms ->
  (fun r => metrics r !! name)
    <$> fold_left (process_metric py_float current_year raw_df) ms fd !! y
  = (fun r => metrics r !! name) <$> fd !! y.
Proof.
  revert fd. induction ms as [|m ms IH]; intros fd H; [reflexivity|].
  cbn [fold_left map] in *. apply not_elem_of_cons in H as [H1 H2].
  rewrite (IH _ H2). apply process_metric_other. congruence.
Qed.

Lemma process_metrics_presence (current_year : Z) (raw_df : Table)
    (ms : list (string * string)) (fd : gmap Z YearRecord) (y : Z) :
  is_Some (fold_left (process_metric py_float current_year raw_df) ms fd !! y)
  <-> is_Some (fd !! y).
Proof.
  revert fd. induction ms as [|m ms IH]; intros fd; [reflexivity|].
  cbn [fold_left]. rewrite IH. unfold process_metric.
  destruct (rows_of_mnemonic (fst m) raw_df) as [|first_row rest];
    [reflexivity|].
  destruct (find_value_col py_float (fst m) (columns raw_df) first_row)
    as [c|]; cbn [col_truthy]; [|reflexivity].
  destruct (Py.truthy c); [|reflexivity].
  apply process_rows_presence.
Qed.

(** The last row wins.  Take a metric of the table of metrics, the rows
    of the raw table that carry its mnemonic, in table order and with the
    cells of the frame (NaN for a [null] in a column of floats), and the
    value column chosen from the first of them.  If one of these rows
    resolves to a year of the window and yields a value, and no later
    row of the metric does so for the same year, then the row of that
    year in the result holds the normalised value of that row under the
    friendly name of the metric: it replaces what earlier rows wrote and,
    for AAPL, the built-in figure. *)
Theorem last_row_wins (current_year : Z) (ticker : string) (years : Z)
    (raw_df : Table) (mnemonic name c : string)
    (pre post : list record) (row : record) (y : Z) (value : F64.float) :
  (mnemonic, name) ∈ metric_names ->
  rows_of_mnemonic mnemonic raw_df = pre ++ row :: post ->
  find_value_col py_float mnemonic (columns raw_df) (hd row pre) = Some c ->
  Py.truthy c = true ->
  resolve_year current_year (columns raw_df) row = Some y ->
  y <> 0 -> current_year - years < y <= current_year ->
  extract_value py_float c (columns raw_df) row = Some value ->
  Forall (fun row' =>
            resolve_year current_year (columns raw_df) row' <> Some y
            \/ extract_value py_float c (columns raw_df) row' = None) post ->
  exists r,
    r ∈ assemble py_float current_year ticker years raw_df
    /\ Year r = y
    /\ metrics r !! name = Some (normalize mnemonic value).
Proof.
  intros Hm Hrows Hcol Htruthy Hy Hnz Hwin Hv Hpost.
  rewrite assemble_lookup.
  set (ys := Py.range (current_year - years + 1) (current_year + 1)).
  set (fd0 := init_data ticker (company_name_of ticker raw_df) ys).
  assert (Hin : y ∈ ys).
  { subst ys. unfold Py.range. apply elem_of_seqZ. lia. }
  pose proof (processed_entry py_float current_year ticker raw_df ys y) as He.
  cbv zeta in He. fold fd0 in He. rewrite decide_True in He by exact Hin.
  destruct He as (r & Hr & (HY & _) & _).
  exists r. split; [|split; [exact HY|]].
  { apply list_elem_of_omap. exists y. split; [exact Hin|exact Hr]. }
  apply list_elem_of_split in Hm as (before & after & Hsplit).
  pose proof metric_names_distinct as Hnd.
  rewrite Hsplit, map_app in Hnd. cbn [map snd] in Hnd.
  apply NoDup_app in Hnd as (_ & Hba & Hafter).
  apply NoDup_cons in Hafter as [Hafter _].
  assert (Hbefore : name ∉ map snd before).
  { intros H. apply (Hba name H). left. }
  assert (G : (fun r => metrics r !! name)
                <$> fold_left (process_metric py_float current_year raw_df)
                      metric_names fd0 !! y
              = Some (Some (normalize mnemonic value))).
  { rewrite Hsplit, fold_left_app. cbn [fold_left].
    rewrite (process_metrics_other _ _ after _ _ _ Hafter).
    set (fd1 := fold_left _ before fd0).
    assert (H1 : is_Some (fd1 !! y)).
    { apply process_metrics_presence. subst fd0.
      rewrite init_data_lookup, decide_True by exact Hin. eauto. }
    unfold process_metric. cbn [fst snd]. rewrite Hrows.
    assert (E : exists rest, pre ++ row :: post = hd row pre :: rest).
    { destruct pre as [|p pre]; cbn; eauto. }
    destruct E as (rest & E). rewrite E, Hcol. cbn [col_truthy].
    rewrite Htruthy, <- E.
    apply process_rows_last; assumption. }
  rewrite Hr in G. cbn in G. congruence.
Qed.

(** The display name of the company: the upper-cased ticker, or a
    non-empty string that the first company-name row holds in a column
    other than the three metadata columns, the first such column in
    table order. *)
Theorem company_name_origin (ticker : string) (raw_df : Table) :
  let name := company_name_of ticker raw_df in
  name = Py.upper ticker
  \/ (name <> ""
      /\ exists first rest pre col post,
           rows_of_mnemonic "IQ_COMPANY_NAME" raw_df = first :: rest
           /\ columns raw_df = pre ++ col :: post
           /\ Py.mem col metadata_columns = false
           /\ at_col first col = CStr name
           /\ Forall (fun c =>
                        Py.mem c metadata_columns = true
                        \/ forall s, at_col first c = CStr s -> s = "")
                     pre).
Proof.
  intros name. subst name. unfold company_name_of.
  destruct (rows_of_mnemonic "IQ_COMPANY_NAME" raw_df) as [|first rest];
    [left; reflexivity|].
  destruct (first_name first (columns raw_df)) as [val|] eqn:E;
    [|left; reflexivity].
  right.
  assert (G : val <> ""
              /\ exists pre col post,
                   columns raw_df = pre ++ col :: post
                   /\ Py.mem col metadata_columns = false
                   /\ at_col first col = CStr val
                   /\ Forall (fun c =>
                                Py.mem c metadata_columns = true
                                \/ forall s, at_col first c = CStr s -> s = "")
                             pre).
  { revert E. generalize (columns raw_df) as l.
    induction l as [|col l IH]; cbn [first_name]; [discriminate|].
    intros E.
    assert (Hrec : first_name first l = Some val ->
                   (Py.mem col metadata_columns = true
                    \/ forall s, at_col first col = CStr s -> s = "") ->
                   val <> ""
                   /\ exists pre col' post,
                        col :: l = pre ++ col' :: post
                        /\ Py.mem col' metadata_columns = false
                        /\ at_col first col' = CStr val
                        /\ Forall (fun c =>
                                     Py.mem c metadata_columns = true
                                     \/ forall s, at_col first c = CStr s
                                                  -> s = "")
                                  pre).
    { intros E' Hcol. destruct (IH E') as (Hne & pre & col' & post & A & B & C & D).
      split; [exact Hne|]. exists (col :: pre), col', post.
      split; [rewrite A; reflexivity|]. split; [exact B|].
      split; [exact C|]. constructor; assumption. }
    destruct (at_col first col) as [f|s|] eqn:Ecell.
    - apply Hrec; [exact E|]. right. intros s Hs. discriminate.
    - destruct (Py.truthy s) eqn:Et; cbn [andb] in E.
      + destruct (Py.mem col metadata_columns) eqn:Em; cbn [negb] in E.
        * apply Hrec; [exact E|]. left. reflexivity.
        * injection E as <-. split.
          -- intros ->. discriminate.
          -- exists [], col, l. split; [reflexivity|]. split; [exact Em|].
             split; [exact Ecell|]. constructor.
      + apply Hrec; [exact E|]. right. intros s' [= <-].
        destruct s; [reflexivity|discriminate].
    - apply Hrec; [exact E|]. right. intros s Hs. discriminate. }
  destruct G as (Hne & pre & col & post & A & B & C & D).
  split; [exact Hne|]. exists first, rest, pre, col, post. auto.
Qed.

End LastWriteRun.

Section LastWriteCases.

Import Api.

(** Two runs.  For AAPL, a row for 2023 under the token [IQ_FY-1] and a
    later one under [FY2023]: the later value replaces the earlier one
    and the built-in figure.  For MSFT, two revenue rows under the
    headers [A] and [B], the first with [null] and 5, the second with 3
    and 9: the value column is [A], and 2024 holds 3. *)
Lemma last_row_wins_witness :
  let raw_df :=
    parse_to_table
      [ Samples.value_reply "AAPL" "IQ_TOTAL_REV" "IQ_FY-1" (CNum (F64.of_Z 5));
        Samples.value_reply "AAPL" "IQ_TOTAL_REV" "FY2023" (CNum (F64.of_Z 7)) ] in
  let reply period a b :=
    {| Identifier := CStr "MSFT"; Mnemonic := CStr "IQ_TOTAL_REV";
       Headers := ["A"; "B"]; periodtype := CStr period;
       Rows := [[a; b]] |} in
  let raw_df' :=
    parse_to_table
      [ reply "FY2023" CNone (CNum (F64.of_Z 5));
        reply "FY2024" (CNum (F64.of_Z 3)) (CNum (F64.of_Z 9)) ] in
  (exists r,
     r ∈ assemble decimal_float 2024 "AAPL" 3 raw_df
     /\ Year r = 2023
     /\ metrics r !! "Revenue"
        = Some (normalize "IQ_TOTAL_REV" (F64.of_Z 7)))
  /\ (exists r,
        r ∈ assemble decimal_float 2024 "MSFT" 3 raw_df'
        /\ Year r = 2024
        /\ metrics r !! "Revenue"
           = Some (normalize "IQ_TOTAL_REV" (F64.of_Z 3))).
Proof.
  intros raw_df reply raw_df'. split.
  - apply (last_row_wins decimal_float 2024 "AAPL" 3 raw_df
             "IQ_TOTAL_REV" "Revenue" "Value"
             [ [("Identifier", CStr "AAPL"); ("Mnemonic", CStr "IQ_TOTAL_REV");
                ("Period", CStr "IQ_FY-1"); ("Value", CNum (F64.of_Z 5))] ]
             []
             [("Identifier", CStr "AAPL"); ("Mnemonic", CStr "IQ_TOTAL_REV");
              ("Period", CStr "FY2023"); ("Value", CNum (F64.of_Z 7))]
             2023 (F64.of_Z 7)).
    + unfold metric_names. left.
    + vm_compute. reflexivity.
    + vm_compute. reflexivity.
    + reflexivity.
    + vm_compute. reflexivity.
    + lia.
    + lia.
    + vm_compute. reflexivity.
    + constructor.
  - apply (last_row_wins decimal_float 2024 "MSFT" 3 raw_df'
             "IQ_TOTAL_REV" "Revenue" "A"
             [ [("Identifier", CStr "MSFT"); ("Mnemonic", CStr "IQ_TOTAL_REV");
                ("Period", CStr "FY2023"); ("A", CNum F64.nan);
                ("B", CNum (F64.of_Z 5))] ]
             []
             [("Identifier", CStr "MSFT"); ("Mnemonic", CStr "IQ_TOTAL_REV");
              ("Period", CStr "FY2024"); ("A", CNum (F64.of_Z 3));
              ("B", CNum (F64.of_Z 9))]
             2024 (F64.of_Z 3)).
    + unfold metric_names. left.
    + vm_compute. reflexivity.
    + vm_compute. reflexivity.
    + reflexivity.
    + vm_compute. reflexivity.
    + lia.
    + lia.
    + vm_compute. reflexivity.
    + constructor.
Defined.

End LastWriteCases.

(* ===================================================================== *)
(** * Properties: Ratio Engine *)
(* ===================================================================== *)

Section PairingFacts.

Import Analysis.

Lemma prefix_has_char (c : ascii) (sub s : string) :
  String.prefix sub s = true ->
  Py.contains (String c "") sub = true ->
  Py.contains (String c "") s = true.
Proof.
  revert s. induction sub as [|a sub IH]; intros s Hp Hc; [discriminate|].
  destruct s as [|b s]; [discriminate|].
  cbn [String.prefix] in Hp. destruct (ascii_dec a b) as [->|]; [|discriminate].
  rewrite contains_char_cons in *. apply orb_true_iff in Hc as [Hc|Hc].
  - rewrite Hc. reflexivity.
  - rewrite (IH s Hp Hc). apply orb_true_r.
Qed.

(** A string that contains [sub] contains every character of [sub]. *)
Lemma contains_has_char (c : ascii) (sub s : string) :
  Py.contains sub s = true ->
  Py.contains (String c "") sub = true ->
  Py.contains (String c "") s = true.
Proof.
  intros Hs Hc. induction s as [|b s IH].
  - cbn [Py.contains] in Hs. rewrite orb_false_r in Hs.
    exact (prefix_has_char c sub "" Hs Hc).
  - cbn [Py.contains] in Hs. apply orb_true_iff in Hs as [Hs|Hs].
    + exact (prefix_has_char c sub _ Hs Hc).
    + rewrite contains_char_cons, (IH Hs). apply orb_true_r.
Qed.

(** Every denominator of a ratio is chosen by a pattern that has an
    underscore, so the test for two columns without company suffix never
    passes: a pair is taken only when both names have an underscore and
    end in the same part, and the column written carries that part as its
    suffix. *)
Theorem ratio_pairs_carry_suffix (cols : list string) (sub x y : string) :
  sub ∈ ["TOTAL_REV"; "TOTAL_ASSETS"; "TOTAL_LIAB"] ->
  y ∈ columns_with sub cols ->
  same_entity x y = true ->
  has_underscore x = true /\ has_underscore y = true
  /\ last_part x = last_part y
  /\ suffix_of x = "_" +:+ last_part y.
Proof.
  intros Hsub Hy Hsame. unfold columns_with in Hy.
  apply list_elem_of_In, filter_In in Hy as [_ Hy].
  assert (Hu : has_underscore y = true).
  { unfold has_underscore. apply (contains_has_char _ sub y Hy).
    repeat (apply elem_of_cons in Hsub as [->|Hsub]; [reflexivity|]).
    inversion Hsub. }
  unfold same_entity in Hsame. rewrite Hu in Hsame.
  cbn [negb] in Hsame. rewrite andb_false_r in Hsame. cbn [orb] in Hsame.
  apply andb_true_iff in Hsame as [Hsame Heq].
  apply andb_true_iff in Hsame as [Hx _].
  apply String.eqb_eq in Heq.
  split; [exact Hx|]. split; [exact Hu|]. split; [exact Heq|].
  unfold suffix_of. rewrite Hx, Heq. reflexivity.
Qed.

Lemma ratio_pairs_carry_suffix_witness :
  has_underscore "NI_AAPL" = true /\ has_underscore "TOTAL_REV_AAPL" = true
  /\ last_part "NI_AAPL" = last_part "TOTAL_REV_AAPL"
  /\ suffix_of "NI_AAPL" = "_" +:+ last_part "TOTAL_REV_AAPL".
Proof.
  apply (ratio_pairs_carry_suffix ["Year"; "NI_AAPL"; "TOTAL_REV_AAPL"]
           "TOTAL_REV" "NI_AAPL" "TOTAL_REV_AAPL").
  - left.
  - vm_compute. left.
  - vm_compute. reflexivity.
Defined.

End PairingFacts.

Section RatioRunFacts.

Import Analysis.

Lemma for_each_skip {A : Type} (l : list A) (st : store) :
  for_each l (fun _ => ret tt) st = (Ok tt, st).
Proof. induction l as [|x l IH]; [reflexivity|]. cbn. exact IH. Qed.

Lemma for_matching_nil_r (xs : list string)
    (body : string -> string -> string -> M unit) (st : store) :
  for_matching xs [] body st = (Ok tt, st).
Proof. unfold for_matching. cbn [for_each]. apply for_each_skip. Qed.

Lemma for_matching_nil_l (ys : list string)
    (body : string -> string -> string -> M unit) (st : store) :
  for_matching [] ys body st = (Ok tt, st).
Proof. reflexivity. Qed.

Lemma columns_with_none (sub : string) (cols : list string) :
  Forall (fun c => Py.contains sub c = false) cols ->
  columns_with sub cols = [].
Proof.
  unfold columns_with. induction cols as [|c cols IH]; intros H;
    [reflexivity|].
  inversion H as [|? ? Hc Hcols]; subst. cbn [List.filter]. rewrite Hc.
  exact (IH Hcols).
Qed.

(** Without source columns there is nothing to compute.  On a frame none
    of whose column names contains [TOTAL_REV], [TOTAL_ASSETS] or
    [TOTAL_LIAB], [calculate_financial_ratios] returns a copy that equals
    the frame.  The frame that [fetch_company_by_ticker] builds is such a
    frame: its columns carry the friendly names. *)
Theorem ratios_need_source_columns (st : store) (data : ref)
    (f : DataFrame) :
  st !! data = Some f ->
  Forall (fun c => Py.contains "TOTAL_REV" c = false
                   /\ Py.contains "TOTAL_ASSETS" c = false
                   /\ Py.contains "TOTAL_LIAB" c = false)
         (map fst (columns f)) ->
  calculate_financial_ratios data st = (Ok (List.length st), st ++ [f]).
Proof.
  intros Hdata Hnone.
  assert (Hrev : columns_with "TOTAL_REV" (map fst (columns f)) = []).
  { apply columns_with_none. eapply Forall_impl; [exact Hnone|].
    cbn beta. tauto. }
  assert (Hassets : columns_with "TOTAL_ASSETS" (map fst (columns f)) = []).
  { apply columns_with_none. eapply Forall_impl; [exact Hnone|].
    cbn beta. tauto. }
  assert (Hliab : columns_with "TOTAL_LIAB" (map fst (columns f)) = []).
  { apply columns_with_none. eapply Forall_impl; [exact Hnone|].
    cbn beta. tauto. }
  assert (Hnew : (st ++ [f]) !! List.length st = Some f).
  { unfold store in *. apply list_lookup_middle. reflexivity. }
  assert (Hcols := run_columns_of (st ++ [f]) (List.length st) f Hnew).
  unfold calculate_financial_ratios, copy.
  rewrite (bind_ok _ _ _ _ _
             (bind_ok _ _ _ _ _ (run_get_frame st data f Hdata))).
  change (alloc f st) with (Ok (List.length st), st ++ [f]).
  assert (P : calculate_profitability_ratios (List.length st) (st ++ [f])
              = (Ok (List.length st), st ++ [f])).
  { unfold calculate_profitability_ratios.
    rewrite (bind_ok _ _ _ _ _ Hcols). rewrite Hrev, Hassets.
    repeat rewrite (bind_ok _ _ _ _ _ (for_matching_nil_r _ _ _)).
    reflexivity. }
  assert (L : calculate_liquidity_ratios (List.length st) (st ++ [f])
              = (Ok (List.length st), st ++ [f])).
  { unfold calculate_liquidity_ratios.
    rewrite (bind_ok _ _ _ _ _ Hcols). rewrite Hliab, Hassets.
    rewrite (bind_ok _ _ _ _ _ (for_matching_nil_r _ _ _)).
    reflexivity. }
  assert (V : calculate_leverage_ratios (List.length st) (st ++ [f])
              = (Ok (List.length st), st ++ [f])).
  { unfold calculate_leverage_ratios.
    rewrite (bind_ok _ _ _ _ _ Hcols). rewrite Hliab. reflexivity. }
  rewrite (bind_ok _ _ _ _ _ P), (bind_ok _ _ _ _ _ L).
  unfold calculate_efficiency_ratios, calculate_valuation_ratios.
  change (bind (ret (List.length st)) ?k (st ++ [f]))
    with (k (List.length st) (st ++ [f])).
  cbn beta. rewrite (bind_ok _ _ _ _ _ V). reflexivity.
Qed.

Lemma ratios_need_source_columns_witness :
  let f := {| nrows := 1%nat;
              columns := map (fun name => (name, [F64.of_Z 1]))
                             ("Year" :: map snd Api.metric_names) |} in
  calculate_financial_ratios 0%nat [f] = (Ok 1%nat, [f; f]).
Proof.
  intros f.
  apply (ratios_need_source_columns [f] 0%nat f eq_refl).
  subst f. cbn [columns map fst snd Api.metric_names].
  repeat (constructor; [repeat split; reflexivity|]). constructor.
Defined.

End RatioRunFacts.

(* ===================================================================== *)
(** * Properties: the stages return, and what they return *)
(* ===================================================================== *)

Section ReturnFacts.

Import Analysis.

Lemma returns_ret {A} (P : store -> Prop) (a : A) (Q : A -> store -> Prop) :
  (forall st, P st -> Q a st) -> returns P (ret a) Q.
Proof. intros H st HP. exists a, st. split; [reflexivity|auto]. Qed.

Lemma returns_bind {A B} (P : store -> Prop) (m : M A)
    (Q : A -> store -> Prop) (k : A -> M B) (R : B -> store -> Prop) :
  returns P m Q -> (forall a, returns (Q a) (k a) R) ->
  returns P (bind m k) R.
Proof.
  intros Hm Hk st HP. destruct (Hm st HP) as (a & st1 & E & HQ).
  destruct (Hk a st1 HQ) as (b & st2 & E' & HR).
  exists b, st2. split; [|exact HR]. unfold bind. rewrite E. exact E'.
Qed.

Lemma returns_weaken {A} (P P' : store -> Prop) (m : M A)
    (Q Q' : A -> store -> Prop) :
  returns P m Q -> (forall st, P' st -> P st) ->
  (forall a st, Q a st -> Q' a st) ->
  returns P' m Q'.
Proof.
  intros Hm HP HQ st H. destruct (Hm st (HP st H)) as (a & st' & E & Ha).
  exists a, st'. auto.
Qed.

Lemma returns_for_each {A} (I : store -> Prop) (l : list A)
    (body : A -> M unit) :
  (forall x, x ∈ l -> returns I (body x) (fun _ => I)) ->
  returns I (for_each l body) (fun _ => I).
Proof.
  induction l as [|x l IH]; intros H; cbn [for_each].
  - apply returns_ret. auto.
  - eapply returns_bind; [apply H; left|]. intros ?. apply IH.
    intros y Hy. apply H. right. exact Hy.
Qed.

Lemma returns_for_matching (I : store -> Prop) (xs ys : list string)
    (body : string -> string -> string -> M unit) :
  (forall x y suffix, x ∈ xs -> y ∈ ys ->
     returns I (body x y suffix) (fun _ => I)) ->
  returns I (for_matching xs ys body) (fun _ => I).
Proof.
  intros H. unfold for_matching. apply returns_for_each. intros x Hx.
  apply returns_for_each. intros y Hy.
  destruct (same_entity x y); [apply H; assumption|].
  apply returns_ret. auto.
Qed.

Lemma assign_col_names (c : string) (s : Series)
    (cols : list (string * Series)) :
  map fst (assign_col c s cols)
  = if decide (c ∈ map fst cols) then map fst cols else map fst cols ++ [c].
Proof.
  induction cols as [|[c0 s0] cols IH]; cbn [assign_col map fst].
  - rewrite decide_False by apply not_elem_of_nil. reflexivity.
  - destruct (c0 =? c)%string eqn:E0; cbn [map fst].
    + apply String.eqb_eq in E0 as ->.
      rewrite decide_True by left. reflexivity.
    + apply String.eqb_neq in E0. rewrite IH.
      destruct (decide (c ∈ map fst cols)) as [Hin|Hnin].
      * rewrite decide_True by (right; exact Hin). reflexivity.
      * rewrite decide_False; [reflexivity|].
        intros H. apply elem_of_cons in H as [->|H]; contradiction.
Qed.

Lemma lookup_col_some (c : string) (cols : list (string * Series)) :
  c ∈ map fst cols -> exists s, lookup_col c cols = Some s.
Proof.
  induction cols as [|[c0 s0] cols IH]; cbn [map fst lookup_col].
  - intros H. inversion H.
  - intros H. destruct (c0 =? c)%string eqn:E; [eauto|].
    apply String.eqb_neq in E.
    apply elem_of_cons in H as [->|H]; [congruence|auto].
Qed.

Section Grown.

Variable st0 : list DataFrame.
Variable n : nat.
Variable names : list string.

Lemma grown_lookup (known : list string) (st : store) (f : DataFrame) :
  st = st0 ++ [f] -> st !! List.length st0 = Some f.
Proof.
  intros ->. exact (list_lookup_middle st0 [] f _ eq_refl).
Qed.

Lemma grown_weaken (known known' : list string) (st : store) :
  (forall c, c ∈ known' -> c ∈ known) ->
  grown st0 n names known st -> grown st0 n names known' st.
Proof.
  intros Hsub (f & E & Hn & Hp & Hk). exists f.
  repeat (split; [assumption|]). apply Forall_forall. intros c Hc.
  rewrite Forall_forall in Hk. auto.
Qed.

Lemma returns_columns_of (known : list string) :
  returns (grown st0 n names known) (columns_of (List.length st0))
          (fun cols st => grown st0 n names cols st).
Proof.
  intros st (f & E & Hn & Hp & Hk).
  exists (map fst (columns f)), st. split.
  - apply run_columns_of. exact (grown_lookup known st f E).
  - exists f. repeat (split; [assumption|]). apply Forall_forall. auto.
Qed.

Lemma returns_len (known : list string) :
  returns (grown st0 n names known) (len (List.length st0))
          (fun k st => k = n /\ grown st0 n names known st).
Proof.
  intros st (f & E & Hn & Hp & Hk). exists (nrows f), st. split.
  - apply run_len. exact (grown_lookup known st f E).
  - split; [exact Hn|]. exists f. auto.
Qed.

Lemma returns_get_col (known : list string) (c : string) :
  c ∈ known ->
  returns (grown st0 n names known) (get_col (List.length st0) c)
          (fun _ => grown st0 n names known).
Proof.
  intros Hc st (f & E & Hn & Hp & Hk).
  rewrite Forall_forall in Hk.
  destruct (lookup_col_some c (columns f) (Hk c Hc)) as (s & Hs).
  exists s, st. split.
  - exact (run_get_col st _ f c s (grown_lookup known st f E) Hs).
  - exists f. repeat (split; [assumption|]). apply Forall_forall. exact Hk.
Qed.

Lemma returns_set_col (known : list string) (c : string) (s : Series) :
  returns (grown st0 n names known) (set_col (List.length st0) c s)
          (fun _ => grown st0 n names (c :: known)).
Proof.
  intros st (f & E & Hn & Hp & Hk). subst st.
  exists tt. eexists. split.
  - unfold set_col.
    rewrite (bind_ok _ _ _ _ _
               (run_get_frame _ _ f (grown_lookup known _ f eq_refl))).
    reflexivity.
  - exists {| nrows := nrows f; columns := assign_col c s (columns f) |}.
    split.
    { unfold store in *.
      rewrite insert_app_r_alt, Nat.sub_diag by reflexivity. reflexivity. }
    split; [exact Hn|]. cbn [columns]. rewrite assign_col_names.
    destruct (decide (c ∈ map fst (columns f))) as [Hin|Hnin].
    + split; [exact Hp|]. constructor; [exact Hin|exact Hk].
    + split; [apply prefix_app_r; exact Hp|].
      constructor; [apply elem_of_app; right; left|].
      eapply Forall_impl; [exact Hk|]. cbn beta. intros x Hx.
      apply elem_of_app. left. exact Hx.
Qed.

(** The body of a percentage or quotient loop keeps the frame in
    shape. *)
Lemma returns_assign_percentage (known : list string)
    (out num den : string) :
  num ∈ known -> den ∈ known ->
  returns (grown st0 n names known)
          (assign_percentage (List.length st0) out num den)
          (fun _ => grown st0 n names known).
Proof.
  intros Hnum Hden. unfold assign_percentage.
  eapply returns_bind; [apply returns_get_col; exact Hnum|]. intros a.
  eapply returns_bind; [apply returns_get_col; exact Hden|]. intros d.
  eapply returns_weaken; [apply (returns_set_col known)|auto|].
  intros ? st. apply grown_weaken. intros c Hc. right. exact Hc.
Qed.

Lemma returns_assign_quotient (known : list string)
    (out num den : string) :
  num ∈ known -> den ∈ known ->
  returns (grown st0 n names known)
          (assign_quotient (List.length st0) out num den)
          (fun _ => grown st0 n names known).
Proof.
  intros Hnum Hden. unfold assign_quotient.
  eapply returns_bind; [apply returns_get_col; exact Hnum|]. intros a.
  eapply returns_bind; [apply returns_get_col; exact Hden|]. intros d.
  eapply returns_weaken; [apply (returns_set_col known)|auto|].
  intros ? st. apply grown_weaken. intros c Hc. right. exact Hc.
Qed.

Lemma columns_with_elem (sub c : string) (cols : list string) :
  c ∈ columns_with sub cols -> c ∈ cols.
Proof.
  unfold columns_with. intros H.
  apply list_elem_of_In, filter_In in H as [H _].
  apply list_elem_of_In. exact H.
Qed.

Lemma columns_with_except_elem (sub ex c : string) (cols : list string) :
  c ∈ columns_with_except sub ex cols -> c ∈ cols.
Proof.
  unfold columns_with_except. intros H.
  apply list_elem_of_In, filter_In in H as [H _].
  apply list_elem_of_In. exact H.
Qed.

Lemma returns_profitability :
  returns (grown st0 n names [])
          (calculate_profitability_ratios (List.length st0))
          (fun df st => df = List.length st0 /\ grown st0 n names [] st).
Proof.
  unfold calculate_profitability_ratios.
  eapply returns_bind; [apply returns_columns_of|]. intros cols.
  repeat (eapply returns_bind;
          [apply returns_for_matching; intros x y suffix Hx Hy;
           apply returns_assign_percentage;
           eauto using columns_with_elem, columns_with_except_elem
          |intros ?]).
  apply returns_ret. intros st H. split; [reflexivity|].
  revert H. apply grown_weaken. intros c Hc. inversion Hc.
Qed.

Lemma returns_liquidity :
  returns (grown st0 n names [])
          (calculate_liquidity_ratios (List.length st0))
          (fun df st => df = List.length st0 /\ grown st0 n names [] st).
Proof.
  unfold calculate_liquidity_ratios.
  eapply returns_bind; [apply returns_columns_of|]. intros cols.
  repeat (eapply returns_bind;
          [apply returns_for_matching; intros x y suffix Hx Hy;
           apply returns_assign_quotient;
           eauto using columns_with_elem
          |intros ?]).
  apply returns_ret. intros st H. split; [reflexivity|].
  revert H. apply grown_weaken. intros c Hc. inversion Hc.
Qed.

Lemma returns_leverage :
  returns (grown st0 n names [])
          (calculate_leverage_ratios (List.length st0))
          (fun df st => df = List.length st0 /\ grown st0 n names [] st).
Proof.
  unfold calculate_leverage_ratios.
  eapply returns_bind; [apply returns_columns_of|]. intros cols.
  eapply returns_bind.
  - apply returns_for_matching. intros x y suffix Hx Hy.
    apply columns_with_elem in Hx, Hy.
    eapply returns_bind; [apply returns_get_col; exact Hy|]. intros a.
    eapply returns_bind; [apply returns_get_col; exact Hx|]. intros l.
    eapply returns_bind; [apply (returns_set_col cols)|]. intros ?.
    eapply returns_bind;
      [apply returns_get_col; right; exact Hx|]. intros l'.
    eapply returns_bind; [apply returns_get_col; left|]. intros e.
    eapply returns_weaken;
      [apply (returns_set_col (("EQUITY" +:+ suffix) :: cols))|auto|].
    intros ? st. apply grown_weaken. intros c Hc. right. right. exact Hc.
  - intros ?. apply returns_ret. intros st H. split; [reflexivity|].
    revert H. apply grown_weaken. intros c Hc. inversion Hc.
Qed.

End Grown.

(** [calculate_financial_ratios] on a frame that is not empty always
    returns: it raises nothing, leaves the frames of the store as they
    are and adds one frame, the one it returns.  That frame has the rows
    of the input, and its columns are those of the input, in their order,
    followed by the columns added. *)
Theorem financial_ratios_return (st : store) (data : ref) (f : DataFrame) :
  st !! data = Some f -> frame_empty f = false ->
  exists f',
    calculate_financial_ratios data st = (Ok (List.length st), st ++ [f'])
    /\ nrows f' = nrows f
    /\ map fst (columns f) `prefix_of` map fst (columns f').
Proof.
  intros Hdata _.
  set (Q := fun (df : ref) (st' : store) =>
              df = List.length st
              /\ grown st (nrows f) (map fst (columns f)) [] st').
  assert (H : returns (fun st' => st' = st)
                (calculate_financial_ratios data) Q).
  { unfold calculate_financial_ratios.
    apply returns_bind with (Q := Q).
    - intros st' ->. exists (List.length st), (st ++ [f]). split.
      + unfold copy.
        rewrite (bind_ok _ _ _ _ _ (run_get_frame st data f Hdata)).
        reflexivity.
      + split; [reflexivity|]. exists f.
        repeat (split; [reflexivity|]). constructor.
    - intros df. apply returns_bind with (Q := Q).
      { intros st' [-> Hg]. exact (returns_profitability _ _ _ st' Hg). }
      intros df1. apply returns_bind with (Q := Q).
      { intros st' [-> Hg]. exact (returns_liquidity _ _ _ st' Hg). }
      intros df2. unfold calculate_efficiency_ratios.
      apply returns_bind with (Q := Q).
      { apply returns_ret. intros st' H. exact H. }
      intros df3. apply returns_bind with (Q := Q).
      { intros st' [-> Hg]. exact (returns_leverage _ _ _ st' Hg). }
      intros df4. unfold calculate_valuation_ratios.
      apply returns_bind with (Q := Q).
      { apply returns_ret. intros st' H. exact H. }
      intros df5. apply returns_ret. auto. }
  destruct (H st eq_refl) as (df & st' & E & -> & f' & -> & Hn & Hp & _).
  exists f'. auto.
Qed.

Lemma financial_ratios_return_witness :
  let f := {| nrows := 1%nat;
              columns := [ ("Year", [F64.of_Z 2024]);
                           ("IQ_NI_AAPL", [F64.of_Z 5]);
                           ("IQ_TOTAL_REV_AAPL", [F64.of_Z 20]);
                           ("IQ_TOTAL_ASSETS_AAPL", [F64.of_Z 50]);
                           ("IQ_TOTAL_LIAB_AAPL", [F64.of_Z 30]) ] |} in
  exists f',
    calculate_financial_ratios 0%nat [f] = (Ok 1%nat, [f] ++ [f'])
    /\ nrows f' = 1%nat
    /\ map fst (columns f) `prefix_of` map fst (columns f').
Proof.
  intros f.
  exact (financial_ratios_return [f] 0%nat f eq_refl eq_refl).
Defined.

End ReturnFacts.

(* ===================================================================== *)
(** * Properties: the Trend Engine returns, and for which metrics *)
(* ===================================================================== *)

Section TrendReturnFacts.

Import Analysis.

Variable pct_change : Series -> Series.
Variable mean_of : list F64.float -> F64.float.
Variable window_mean : list F64.float -> F64.float.
Variable pow : F64.float -> F64.float -> F64.float.

Variable st0 : list DataFrame.
Variable n : nat.
Variable names : list string.

Lemma returns_columns_of_names (known : list string) :
  returns (grown st0 n names known) (columns_of (List.length st0))
          (fun cols st => grown st0 n names cols st
                          /\ forall c, c ∈ names -> c ∈ cols).
Proof.
  intros st (f & E & Hn & Hp & Hk).
  exists (map fst (columns f)), st. split.
  - apply run_columns_of. exact (grown_lookup st0 known st f E).
  - split.
    + exists f. repeat (split; [assumption|]). apply Forall_forall. auto.
    + intros c Hc. destruct Hp as [ext ->]. apply elem_of_app. left.
      exact Hc.
Qed.

Lemma returns_assign_moving_average (known : list string)
    (out col : string) (period : Z) :
  col ∈ known -> 0 <= period ->
  returns (grown st0 n names known)
          (assign_moving_average window_mean (List.length st0) out col period)
          (fun _ => grown st0 n names (out :: known)).
Proof.
  intros Hcol Hp. unfold assign_moving_average.
  eapply returns_bind; [apply returns_get_col; exact Hcol|]. intros s.
  assert (E : (period <? 0)%Z = false) by (apply Z.ltb_ge; exact Hp).
  rewrite E. apply returns_set_col.
Qed.

Lemma returns_analyze_metric (known : list string) (periods : Z)
    (metric : string) :
  metric ∈ known -> "Year" ∈ known -> 0 <= periods ->
  returns (grown st0 n names known)
          (analyze_metric pct_change mean_of window_mean pow
             (List.length st0) periods metric)
          (fun _ => grown st0 n names known).
Proof.
  intros Hm Hy Hp. unfold analyze_metric.
  set (known1 := (metric +:+ "_YOY") :: known).
  eapply returns_bind; [apply returns_get_col; exact Hm|]. intros values.
  eapply returns_bind; [apply (returns_set_col st0 n names known)|].
  intros ?. fold known1.
  eapply returns_bind; [apply (returns_len st0 n names known1)|].
  intros k.
  apply returns_bind with (Q := fun _ => grown st0 n names known1).
  { intros st [_ H]. revert st H. apply returns_get_col. right. exact Hm. }
  intros values'.
  eapply returns_bind; [apply returns_get_col; right; exact Hy|].
  intros years.
  apply returns_bind with (Q := fun _ => grown st0 n names known1).
  { destruct (periods <=? Z.of_nat k)%Z.
    - eapply returns_weaken;
        [apply (returns_assign_moving_average known1);
         [right; exact Hm|exact Hp]|auto|].
      intros ? st. apply grown_weaken. intros c Hc. right. exact Hc.
    - apply returns_ret. auto. }
  intros ?.
  eapply returns_bind; [apply returns_get_col; right; exact Hm|].
  intros values''.
  eapply returns_bind; [apply returns_get_col; left|]. intros yoy.
  apply returns_ret. intros st. apply grown_weaken. intros c Hc. right.
  exact Hc.
Qed.

(** The loop over the metrics: a result for every listed metric that is
    a column of the frame, and for no name that is not listed. *)
Lemma returns_analyze_metrics (periods : Z) (metrics : list string)
    (results : gmap string TrendResult) :
  "Year" ∈ names -> 0 <= periods ->
  returns (grown st0 n names [])
          (analyze_metrics pct_change mean_of window_mean pow
             (List.length st0) periods metrics results)
          (fun res st =>
             grown st0 n names [] st
             /\ (forall m, is_Some (res !! m) ->
                   is_Some (results !! m) \/ m ∈ metrics)
             /\ (forall m, is_Some (results !! m) \/ (m ∈ metrics /\ m ∈ names) ->
                   is_Some (res !! m))).
Proof.
  intros Hy Hp. revert results.
  induction metrics as [|metric metrics IH]; intros results;
    cbn [analyze_metrics].
  - apply returns_ret. intros st H. split; [exact H|]. split.
    + auto.
    + intros m [H1|[H1 _]]; [exact H1|inversion H1].
  - eapply returns_bind; [apply (returns_columns_of_names [])|].
    intros cols. destruct (Py.mem metric cols) eqn:Emem.
    + apply mem_elem in Emem.
      apply returns_bind with (Q := fun _ => grown st0 n names []).
      { intros st [Hg Hsub].
        destruct (returns_analyze_metric cols periods metric Emem
                    (Hsub _ Hy) Hp st Hg) as (a & st' & E & Hg').
        exists a, st'. split; [exact E|]. revert Hg'.
        apply grown_weaken. intros c Hc. inversion Hc. }
      intros r. eapply returns_weaken; [apply IH|auto|].
      intros res st (Hg & H1 & H2). split; [exact Hg|]. split.
      * intros m Hm. destruct (H1 m Hm) as [H|H]; [|right; right; exact H].
        destruct (decide (metric = m)) as [->|Hne]; [right; left|].
        rewrite lookup_insert_ne in H by exact Hne. left. exact H.
      * intros m Hm. apply H2.
        destruct (decide (metric = m)) as [->|Hne].
        { left. rewrite lookup_insert_eq. eauto. }
        destruct Hm as [Hm|[Hm Hn]].
        -- left. rewrite lookup_insert_ne by exact Hne. exact Hm.
        -- right. split; [|exact Hn].
           apply elem_of_cons in Hm as [->|Hm]; [congruence|exact Hm].
    + intros st [Hg Hsub].
      assert (Hg' : grown st0 n names [] st).
      { revert Hg. apply grown_weaken. intros c Hc. inversion Hc. }
      destruct (IH results st Hg') as (res & st' & E & Hg'' & H1 & H2).
      exists res, st'. split; [exact E|]. split; [exact Hg''|]. split.
      * intros m Hm. destruct (H1 m Hm) as [H|H]; [left; exact H|].
        right. right. exact H.
      * intros m Hm. apply H2. destruct Hm as [Hm|[Hm Hn]]; [left; exact Hm|].
        right. split; [|exact Hn].
        apply elem_of_cons in Hm as [->|Hm]; [|exact Hm].
        exfalso. apply Hsub in Hn. apply mem_elem in Hn. congruence.
Qed.

End TrendReturnFacts.

Section TrendRun.

Import Analysis.

Variable pct_change : Series -> Series.
Variable mean_of : list F64.float -> F64.float.
Variable window_mean : list F64.float -> F64.float.
Variable pow : F64.float -> F64.float -> F64.float.

Lemma sorted_names (perm : list nat) (cols : list (string * Series)) :
  map fst (map (fun cs => (fst cs, reorder perm (snd cs))) cols)
  = map fst cols.
Proof. rewrite map_map. reflexivity. Qed.

(** Sorting a frame that has the key column adds the sorted frame, with
    the rows and the column names of the frame, to the store. *)
Lemma run_sort_values (st : store) (df : ref) (f : DataFrame)
    (by_col : string) :
  st !! df = Some f -> by_col ∈ map fst (columns f) ->
  exists g,
    sort_values df by_col st = (Ok (List.length st), st ++ [g])
    /\ nrows g = nrows f
    /\ map fst (columns g) = map fst (columns f).
Proof.
  intros Hf Hc. destruct (lookup_col_some _ _ Hc) as (keys & Hk).
  unfold sort_values.
  rewrite (bind_ok _ _ _ _ _ (run_get_frame st df f Hf)), Hk.
  eexists. split; [reflexivity|]. split; [reflexivity|].
  cbn [columns]. apply sorted_names.
Qed.

(** [calculate_trend_analysis] with a window that is not negative always
    returns.  Its results are for listed metrics only; they are empty
    when the frame has no [Year] column or is empty; and otherwise every
    listed metric that is a column of the frame has a result. *)
Theorem trend_analysis_return (st : store) (df : ref) (f : DataFrame)
    (metrics : list string) (periods : Z) :
  st !! df = Some f -> 0 <= periods ->
  exists results st',
    calculate_trend_analysis pct_change mean_of window_mean pow
      df metrics periods st = (Ok results, st')
    /\ (forall m, is_Some (results !! m) -> m ∈ metrics)
    /\ (Py.mem "Year" (map fst (columns f)) = false \/ frame_empty f = true ->
        results = ∅ /\ st' = st)
    /\ (Py.mem "Year" (map fst (columns f)) = true ->
        frame_empty f = false ->
        forall m, m ∈ metrics -> m ∈ map fst (columns f) ->
                  is_Some (results !! m)).
Proof.
  intros Hf Hp. unfold calculate_trend_analysis.
  rewrite (bind_ok _ _ _ _ _ (run_get_frame st df f Hf)).
  destruct (Py.mem "Year" (map fst (columns f))) eqn:Ey; cbn [negb orb].
  - destruct (frame_empty f) eqn:Ee.
    + exists ∅, st. split; [reflexivity|]. split.
      * intros m [x Hx]. rewrite lookup_empty in Hx. discriminate.
      * split; [auto|]. discriminate.
    + apply mem_elem in Ey.
      destruct (run_sort_values st df f "Year" Hf Ey) as (g & Es & Hn & Hnames).
      rewrite (bind_ok _ _ _ _ _ Es).
      assert (Hg : grown st (nrows f) (map fst (columns f)) [] (st ++ [g])).
      { exists g. split; [reflexivity|]. split; [exact Hn|].
        split; [rewrite Hnames; reflexivity|constructor]. }
      destruct (returns_analyze_metrics pct_change mean_of window_mean pow
                  st (nrows f) (map fst (columns f)) periods metrics ∅
                  Ey Hp (st ++ [g]) Hg)
        as (results & st' & E & _ & H1 & H2).
      exists results, st'. split; [exact E|]. split.
      * intros m Hm. destruct (H1 m Hm) as [[x Hx]|H]; [|exact H].
        rewrite lookup_empty in Hx. discriminate.
      * split; [intros [H|H]; discriminate|].
        intros _ _ m Hm Hc. apply H2. right. auto.
  - exists ∅, st. split; [reflexivity|]. split.
    + intros m [x Hx]. rewrite lookup_empty in Hx. discriminate.
    + split; [auto|]. discriminate.
Qed.

Lemma bind_raise {A B} (m : M A) (k : A -> M B) (st st1 : store)
    (e : exn) :
  m st = (Raise e, st1) -> bind m k st = (Raise e, st1).
Proof. intros E. unfold bind. rewrite E. reflexivity. Qed.

(** A negative window passes the test against the number of rows, and
    the rolling mean refuses it. *)
Lemma analyze_metric_negative (st0 : list DataFrame) (n : nat)
    (names known : list string) (periods : Z) (metric : string)
    (st : store) :
  metric ∈ known -> "Year" ∈ known -> periods < 0 ->
  grown st0 n names known st ->
  exists st',
    analyze_metric pct_change mean_of window_mean pow
      (List.length st0) periods metric st
    = (Raise (ValueError "window must be an integer 0 or greater"), st').
Proof.
  intros Hm Hy Hp Hg. unfold analyze_metric.
  set (known1 := (metric +:+ "_YOY") :: known).
  destruct (returns_get_col st0 n names known metric Hm st Hg)
    as (values & st1 & E1 & Hg1).
  rewrite (bind_ok _ _ _ _ _ E1).
  destruct (returns_set_col st0 n names known (metric +:+ "_YOY")
              (map (fun g => F64.mul g hundred) (pct_change values)) st1 Hg1)
    as (u & st2 & E2 & Hg2).
  rewrite (bind_ok _ _ _ _ _ E2). fold known1 in Hg2.
  destruct (returns_len st0 n names known1 st2 Hg2)
    as (k & st3 & E3 & -> & Hg3).
  rewrite (bind_ok _ _ _ _ _ E3).
  destruct (returns_get_col st0 n names known1 metric
              ltac:(right; exact Hm) st3 Hg3) as (values' & st4 & E4 & Hg4).
  rewrite (bind_ok _ _ _ _ _ E4).
  destruct (returns_get_col st0 n names known1 "Year"
              ltac:(right; exact Hy) st4 Hg4) as (years & st5 & E5 & Hg5).
  rewrite (bind_ok _ _ _ _ _ E5).
  assert (Ele : (periods <=? Z.of_nat n)%Z = true) by (apply Z.leb_le; lia).
  rewrite Ele.
  destruct (returns_get_col st0 n names known1 metric
              ltac:(right; exact Hm) st5 Hg5) as (s & st6 & E6 & Hg6).
  exists st6. apply bind_raise. unfold assign_moving_average.
  rewrite (bind_ok _ _ _ _ _ E6).
  assert (Elt : (periods <? 0)%Z = true) by (apply Z.ltb_lt; exact Hp).
  rewrite Elt. reflexivity.
Qed.

Lemma analyze_metrics_negative (st0 : list DataFrame) (n : nat)
    (names : list string) (periods : Z) (metrics : list string)
    (results : gmap string TrendResult) (st : store) (m : string) :
  "Year" ∈ names -> periods < 0 -> m ∈ metrics -> m ∈ names ->
  grown st0 n names [] st ->
  exists st',
    analyze_metrics pct_change mean_of window_mean pow
      (List.length st0) periods metrics results st
    = (Raise (ValueError "window must be an integer 0 or greater"), st').
Proof.
  intros Hy Hp Hm Hn. revert results st.
  induction metrics as [|metric metrics IH]; intros results st Hg;
    [inversion Hm|].
  cbn [analyze_metrics].
  destruct (returns_columns_of_names st0 n names [] st Hg)
    as (cols & st1 & E1 & Hg1 & Hsub).
  rewrite (bind_ok _ _ _ _ _ E1).
  destruct (Py.mem metric cols) eqn:Emem.
  - apply mem_elem in Emem.
    destruct (analyze_metric_negative st0 n names cols periods metric st1
                Emem (Hsub _ Hy) Hp Hg1) as (st' & E).
    exists st'. apply bind_raise. exact E.
  - apply IH.
    + apply elem_of_cons in Hm as [->|Hm]; [|exact Hm].
      exfalso. apply Hsub in Hn. apply mem_elem in Hn. congruence.
    + revert Hg1. apply grown_weaken. intros c Hc. inversion Hc.
Qed.

(** A negative window is not caught by the test [len(df) >= periods]:
    whenever the frame has a [Year] column and rows and one of the listed
    metrics is a column, [calculate_trend_analysis] raises the error of
    the rolling window. *)
Theorem trend_negative_window_raises (st : store) (df : ref)
    (f : DataFrame) (metrics : list string) (periods : Z) (m : string) :
  st !! df = Some f -> periods < 0 ->
  Py.mem "Year" (map fst (columns f)) = true -> frame_empty f = false ->
  m ∈ metrics -> m ∈ map fst (columns f) ->
  exists st',
    calculate_trend_analysis pct_change mean_of window_mean pow
      df metrics periods st
    = (Raise (ValueError "window must be an integer 0 or greater"), st').
Proof.
  intros Hf Hp Ey Ee Hm Hc. unfold calculate_trend_analysis.
  rewrite (bind_ok _ _ _ _ _ (run_get_frame st df f Hf)), Ey, Ee.
  cbn [negb orb]. apply mem_elem in Ey.
  destruct (run_sort_values st df f "Year" Hf Ey) as (g & Es & Hn & Hnames).
  rewrite (bind_ok _ _ _ _ _ Es).
  apply (analyze_metrics_negative st (nrows f) (map fst (columns f))
           periods metrics ∅ (st ++ [g]) m Ey Hp Hm Hc).
  exists g. split; [reflexivity|]. split; [exact Hn|].
  split; [rewrite Hnames; reflexivity|constructor].
Qed.

End TrendRun.

Section TrendCases.

Import Analysis.

Lemma trend_analysis_return_witness :
  exists results st',
    calculate_trend_analysis pct_change_plain mean_plain mean_plain pow_unit
      0%nat ["Revenue"; "Margin"] 3 [Samples.three_years]
    = (Ok results, st')
    /\ is_Some (results !! "Revenue")
    /\ results !! "Margin" = None.
Proof.
  destruct (trend_analysis_return pct_change_plain mean_plain mean_plain
              pow_unit [Samples.three_years] 0%nat Samples.three_years
              ["Revenue"; "Margin"] 3 eq_refl)
    as (results & st' & E & H1 & _ & H2); [lia|].
  exists results, st'. split; [exact E|]. split.
  - apply H2; [reflexivity|reflexivity|left|].
    cbn. right. left.
  - revert E. vm_compute. intros [= <- _]. reflexivity.
Defined.

Lemma trend_negative_window_raises_witness :
  exists st',
    calculate_trend_analysis pct_change_plain mean_plain mean_plain pow_unit
      0%nat ["Revenue"] (-1) [Samples.three_years]
    = (Raise (ValueError "window must be an integer 0 or greater"), st').
Proof.
  apply (trend_negative_window_raises pct_change_plain mean_plain mean_plain
           pow_unit [Samples.three_years] 0%nat Samples.three_years
           ["Revenue"] (-1) "Revenue" eq_refl).
  - lia.
  - reflexivity.
  - reflexivity.
  - left.
  - cbn. right. left.
Defined.

End TrendCases.

(* ===================================================================== *)
(** * Properties: the moving averages added *)
(* ===================================================================== *)

Section MovingAverageFacts.

Import Analysis.

Variable window_mean : list F64.float -> F64.float.

Variable st0 : list DataFrame.
Variable n : nat.
Variable names : list string.
Variable periods : list Z.

Hypothesis periods_ok : Forall (fun p => 0 <= p) periods.

Lemma returns_columns_of_all (known : list string) :
  returns (grown st0 n names known) (columns_of (List.length st0))
          (fun cols st => grown st0 n names cols st
                          /\ forall c, c ∈ names \/ c ∈ known -> c ∈ cols).
Proof.
  intros st (f & E & Hn & Hp & Hk).
  exists (map fst (columns f)), st. split.
  - apply run_columns_of. exact (grown_lookup st0 known st f E).
  - split.
    + exists f. repeat (split; [assumption|]). apply Forall_forall. auto.
    + intros c [Hc|Hc].
      * destruct Hp as [ext ->]. apply elem_of_app. left. exact Hc.
      * rewrite Forall_forall in Hk. auto.
Qed.

(** One window of one column: the column [col_MA<period>] is there
    afterwards when the frame has at least [period] rows. *)
Lemma returns_window (known : list string) (col : string) (period : Z) :
  col ∈ known -> 0 <= period ->
  returns (grown st0 n names known)
    (bind (len (List.length st0)) (fun k =>
       if (period <=? Z.of_nat k)%Z
       then assign_moving_average window_mean (List.length st0)
              (col +:+ "_MA" +:+ Py.str period) col period
       else ret tt))
    (fun _ st =>
       grown st0 n names known st
       /\ (period <= Z.of_nat n ->
           grown st0 n names ((col +:+ "_MA" +:+ Py.str period) :: known) st)).
Proof.
  intros Hcol Hp.
  eapply returns_bind; [apply (returns_len st0 n names known)|].
  intros k st [-> Hg]. destruct (Z.leb_spec period (Z.of_nat n)) as [Hle|Hgt].
  - destruct (returns_assign_moving_average window_mean st0 n names known
                (col +:+ "_MA" +:+ Py.str period) col period Hcol Hp st Hg)
      as (u & st' & E & Hg').
    exists u, st'. split; [exact E|]. split; [|intros _; exact Hg'].
    revert Hg'. apply grown_weaken. intros c Hc. right. exact Hc.
  - exists tt, st. split; [reflexivity|]. split; [exact Hg|]. lia.
Qed.

Lemma returns_windows (known : list string) (col : string)
    (ps : list Z) :
  col ∈ known -> Forall (fun p => 0 <= p) ps ->
  returns (grown st0 n names known)
    (for_each ps (fun period =>
       bind (len (List.length st0)) (fun k =>
         if (period <=? Z.of_nat k)%Z
         then assign_moving_average window_mean (List.length st0)
                (col +:+ "_MA" +:+ Py.str period) col period
         else ret tt)))
    (fun _ => grown st0 n names known).
Proof.
  intros Hcol Hps. apply returns_for_each. intros p Hp.
  rewrite Forall_forall in Hps.
  eapply returns_weaken; [apply (returns_window known col p Hcol (Hps p Hp))|auto|].
  intros ? st [H _]. exact H.
Qed.

Lemma returns_windows_adds (known : list string) (col : string)
    (ps : list Z) (p0 : Z) :
  col ∈ known -> Forall (fun p => 0 <= p) ps ->
  p0 ∈ ps -> p0 <= Z.of_nat n ->
  returns (grown st0 n names known)
    (for_each ps (fun period =>
       bind (len (List.length st0)) (fun k =>
         if (period <=? Z.of_nat k)%Z
         then assign_moving_average window_mean (List.length st0)
                (col +:+ "_MA" +:+ Py.str period) col period
         else ret tt)))
    (fun _ => grown st0 n names ((col +:+ "_MA" +:+ Py.str p0) :: known)).
Proof.
  intros Hcol Hps Hin Hle. induction ps as [|p ps IH]; [inversion Hin|].
  inversion Hps as [|? ? Hp Hps']; subst. cbn [for_each].
  destruct (decide (p0 = p)) as [->|Hne].
  - apply returns_bind
      with (Q := fun _ => grown st0 n names
                           ((col +:+ "_MA" +:+ Py.str p) :: known)).
    + eapply returns_weaken; [apply (returns_window known col p Hcol Hp)|auto|].
      intros ? st [_ H]. exact (H Hle).
    + intros ?. apply returns_windows; [right; exact Hcol|exact Hps'].
  - apply returns_bind with (Q := fun _ => grown st0 n names known).
    + eapply returns_weaken; [apply (returns_window known col p Hcol Hp)|auto|].
      intros ? st [H _]. exact H.
    + intros ?. apply IH; [exact Hps'|].
      apply elem_of_cons in Hin as [?|?]; [contradiction|assumption].
Qed.

(** The body of the loop over the columns. *)
Lemma returns_column (known : list string) (col : string) :
  returns (grown st0 n names known)
    (bind (columns_of (List.length st0)) (fun cs =>
       if Py.mem col cs then
         for_each periods (fun period =>
           bind (len (List.length st0)) (fun k =>
             if (period <=? Z.of_nat k)%Z
             then assign_moving_average window_mean (List.length st0)
                    (col +:+ "_MA" +:+ Py.str period) col period
             else ret tt))
       else ret tt))
    (fun _ => grown st0 n names known).
Proof.
  eapply returns_bind; [apply (returns_columns_of_all known)|].
  intros cs st [Hg Hsub]. destruct (Py.mem col cs) eqn:Emem.
  - apply mem_elem in Emem.
    destruct (returns_windows cs col periods Emem periods_ok st Hg)
      as (u & st' & E & Hg').
    exists u, st'. split; [exact E|]. revert Hg'. apply grown_weaken.
    intros c Hc. apply Hsub. right. exact Hc.
  - exists tt, st. split; [reflexivity|]. revert Hg. apply grown_weaken.
    intros c Hc. apply Hsub. right. exact Hc.
Qed.

Lemma returns_column_adds (known : list string) (col : string) (p0 : Z) :
  col ∈ names -> p0 ∈ periods -> p0 <= Z.of_nat n ->
  returns (grown st0 n names known)
    (bind (columns_of (List.length st0)) (fun cs =>
       if Py.mem col cs then
         for_each periods (fun period =>
           bind (len (List.length st0)) (fun k =>
             if (period <=? Z.of_nat k)%Z
             then assign_moving_average window_mean (List.length st0)
                    (col +:+ "_MA" +:+ Py.str period) col period
             else ret tt))
       else ret tt))
    (fun _ => grown st0 n names ((col +:+ "_MA" +:+ Py.str p0) :: known)).
Proof.
  intros Hcol Hin Hle.
  eapply returns_bind; [apply (returns_columns_of_all known)|].
  intros cs st [Hg Hsub].
  assert (Emem : Py.mem col cs = true).
  { apply mem_elem, Hsub. left. exact Hcol. }
  rewrite Emem. apply mem_elem in Emem.
  destruct (returns_windows_adds cs col periods p0 Emem periods_ok Hin Hle
              st Hg) as (u & st' & E & Hg').
  exists u, st'. split; [exact E|]. revert Hg'. apply grown_weaken.
  intros c Hc. apply elem_of_cons in Hc as [->|Hc]; [left|].
  right. apply Hsub. right. exact Hc.
Qed.

Lemma returns_columns_adds (known : list string) (cols : list string)
    (col0 : string) (p0 : Z) :
  col0 ∈ cols -> col0 ∈ names -> p0 ∈ periods -> p0 <= Z.of_nat n ->
  returns (grown st0 n names known)
    (for_each cols (fun col =>
       bind (columns_of (List.length st0)) (fun cs =>
         if Py.mem col cs then
           for_each periods (fun period =>
             bind (len (List.length st0)) (fun k =>
               if (period <=? Z.of_nat k)%Z
               then assign_moving_average window_mean (List.length st0)
                      (col +:+ "_MA" +:+ Py.str period) col period
               else ret tt))
         else ret tt)))
    (fun _ => grown st0 n names ((col0 +:+ "_MA" +:+ Py.str p0) :: known)).
Proof.
  intros Hin Hcol Hp Hle. induction cols as [|col cols IH]; [inversion Hin|].
  cbn [for_each]. destruct (decide (col0 = col)) as [->|Hne].
  - eapply returns_bind; [apply (returns_column_adds known col p0 Hcol Hp Hle)|].
    intros ?. apply returns_for_each. intros c _. apply returns_column.
  - eapply returns_bind; [apply (returns_column known col)|].
    intros ?. apply IH.
    apply elem_of_cons in Hin as [?|?]; [contradiction|assumption].
Qed.

End MovingAverageFacts.

Section MovingAverageRun.

Import Analysis.

Variable window_mean : list F64.float -> F64.float.

(** [add_moving_averages] with windows that are not negative always
    returns a new frame and leaves the frames of the store as they are.
    The new frame has the rows of the input and its columns, in their
    order, followed by the columns added; and for every listed column
    that the input has and every listed window that is not longer than
    the frame, it has the column [<column>_MA<window>]. *)
Theorem moving_averages_return (st : store) (df : ref) (f : DataFrame)
    (cols : list string) (periods : list Z) :
  st !! df = Some f -> Forall (fun p => 0 <= p) periods ->
  exists r st' f',
    add_moving_averages window_mean df cols periods st = (Ok r, st')
    /\ take (List.length st) st' = st
    /\ st' !! r = Some f'
    /\ nrows f' = nrows f
    /\ map fst (columns f) `prefix_of` map fst (columns f')
    /\ forall col p,
         col ∈ cols -> col ∈ map fst (columns f) ->
         p ∈ periods -> p <= Z.of_nat (nrows f) ->
         (col +:+ "_MA" +:+ Py.str p) ∈ map fst (columns f').
Proof.
  intros Hf Hps.
  (* the frame the loops work on, and the store below it *)
  assert (Hstart :
    exists (base : list DataFrame) g,
      take (List.length st) base = st
      /\ nrows g = nrows f
      /\ map fst (columns g) = map fst (columns f)
      /\ add_moving_averages window_mean df cols periods st
         = bind (for_each cols (fun col =>
                     bind (columns_of (List.length base)) (fun cs =>
                       if Py.mem col cs then
                         for_each periods (fun period =>
                           bind (len (List.length base)) (fun k =>
                             if (period <=? Z.of_nat k)%Z
                             then assign_moving_average window_mean
                                    (List.length base)
                                    (col +:+ "_MA" +:+ Py.str period)
                                    col period
                             else ret tt))
                       else ret tt)))
                  (fun _ => ret (List.length base)) (base ++ [g])).
  { assert (Hnew : (st ++ [f]) !! List.length st = Some f)
      by exact (list_lookup_middle st [] f _ eq_refl).
    unfold add_moving_averages, copy.
    rewrite (bind_ok _ _ _ _ _
               (bind_ok _ _ _ _ _ (run_get_frame st df f Hf))).
    change (alloc f st) with (Ok (List.length st), st ++ [f]).
    rewrite (bind_ok _ _ _ _ _ (run_columns_of _ _ f Hnew)).
    destruct (Py.mem "Year" (map fst (columns f))) eqn:Ey.
    - apply mem_elem in Ey.
      destruct (run_sort_values (st ++ [f]) (List.length st) f "Year" Hnew Ey)
        as (g & Es & Hn & Hnames).
      exists (st ++ [f]), g. split; [apply take_app_length|].
      split; [exact Hn|]. split; [exact Hnames|].
      rewrite (bind_ok _ _ _ _ _ Es). reflexivity.
    - exists st, f. split; [apply firstn_all|]. split; [reflexivity|].
      split; [reflexivity|]. reflexivity. }
  destruct Hstart as (base & g & Htake & Hn & Hnames & Hrun).
  assert (Hg : grown base (nrows f) (map fst (columns f)) [] (base ++ [g])).
  { exists g. split; [reflexivity|]. split; [exact Hn|].
    split; [rewrite Hnames; reflexivity|constructor]. }
  destruct (returns_for_each (grown base (nrows f) (map fst (columns f)) [])
              cols _
              (fun col _ => returns_column window_mean base (nrows f)
                              (map fst (columns f)) periods Hps [] col)
              (base ++ [g]) Hg)
    as (u & st' & E & (f' & -> & Hn' & Hp' & _)).
  exists (List.length base), (base ++ [f']), f'.
  split; [rewrite Hrun, (bind_ok _ _ _ _ _ E); reflexivity|].
  split.
  { rewrite <- Htake at 2. rewrite take_app_le; [reflexivity|].
    rewrite <- Htake at 1. rewrite length_take. lia. }
  split; [exact (list_lookup_middle base [] f' _ eq_refl)|].
  split; [exact Hn'|]. split; [exact Hp'|].
  intros col p Hcol Hc Hp Hle.
  destruct (returns_columns_adds window_mean base (nrows f)
              (map fst (columns f)) periods Hps [] cols col p
              Hcol Hc Hp Hle (base ++ [g]) Hg)
    as (u' & st'' & E' & (f'' & -> & _ & _ & Hk)).
  rewrite E in E'. injection E' as _ E'.
  apply app_inj_tail in E' as [_ <-].
  inversion Hk; assumption.
Qed.

End MovingAverageRun.

Section MovingAverageCases.

Import Analysis.

Lemma moving_averages_return_witness :
  exists r st' f',
    add_moving_averages mean_plain 0%nat ["Revenue"] [3; 5]
      [Samples.three_years] = (Ok r, st')
    /\ st' !! r = Some f'
    /\ "Revenue_MA3" ∈ map fst (columns f').
Proof.
  destruct (moving_averages_return mean_plain [Samples.three_years] 0%nat
              Samples.three_years ["Revenue"] [3; 5] eq_refl)
    as (r & st' & f' & E & _ & Hr & _ & _ & Hma).
  { repeat constructor; lia. }
  exists r, st', f'. split; [exact E|]. split; [exact Hr|].
  apply (Hma "Revenue" 3).
  - left.
  - cbn. right. left.
  - left.
  - cbn. lia.
Defined.

End MovingAverageCases.

(* ===================================================================== *)
(** * Properties: the rows of the frame and the choice of the value column *)
(* ===================================================================== *)

Section FrameRowFacts.

Import Api.

Lemma dict_get_keyed (g : string -> cell) (cols : list string)
    (col : string) :
  col ∈ cols -> dict_get col (map (fun c => (c, g c)) cols) = Some (g col).
Proof.
  induction cols as [|c cols IH]; intros H; [inversion H|].
  cbn [map dict_get]. destruct (String.eqb_spec c col) as [->|Hne];
    [reflexivity|].
  apply IH. apply elem_of_cons in H as [->|H]; [congruence|exact H].
Qed.

(** The cell of a row of the frame, under a column of the frame. *)
Lemma at_col_frame_row (t : Table) (r : record) (col : string) :
  col ∈ columns t ->
  at_col (frame_row t r) col = frame_cell (records t) r col.
Proof.
  intros H. unfold at_col, frame_row.
  rewrite (dict_get_keyed (frame_cell (records t) r) _ _ H). reflexivity.
Qed.

Lemma rows_of_mnemonic_origin (m : string) (t : Table) (row : record) :
  row ∈ rows_of_mnemonic m t ->
  exists r, r ∈ records t /\ row = frame_row t r.
Proof.
  unfold rows_of_mnemonic, frame_rows. intros H.
  apply list_elem_of_In, filter_In in H as [H _].
  apply in_map_iff in H as (r & <- & Hr).
  exists r. split; [apply list_elem_of_In; exact Hr|reflexivity].
Qed.

(** A column without strings in which some record holds something other
    than [None] is a column of floats. *)
Lemma float_column_numbers (col : string) (rs : list record) :
  (forall r s, r ∈ rs -> dict_get col r <> Some (CStr s)) ->
  (exists r, r ∈ rs /\ dict_get col r <> Some CNone) ->
  float_column col rs = true.
Proof.
  intros Hstr (r0 & Hr0 & Hnone). unfold float_column.
  apply andb_true_iff. split; apply negb_true_iff.
  - unfold holds_string. apply not_true_is_false. intros H.
    apply existsb_exists in H as (r & Hr & Hc).
    apply list_elem_of_In in Hr.
    destruct (dict_get col r) as [[f|s|]|] eqn:E; try discriminate.
    exact (Hstr r s Hr E).
  - unfold all_none. apply not_true_is_false. intros H.
    rewrite forallb_forall in H. apply list_elem_of_In in Hr0.
    specialize (H r0 Hr0).
    destruct (dict_get col r0) as [[f|s|]|]; try discriminate. congruence.
Qed.

Lemma float_column_string (col : string) (rs : list record) :
  (exists r s, r ∈ rs /\ dict_get col r = Some (CStr s)) ->
  float_column col rs = false.
Proof.
  intros (r & s & Hr & E). unfold float_column.
  apply andb_false_iff. left. apply negb_false_iff. unfold holds_string.
  apply existsb_exists. exists r. split; [apply list_elem_of_In; exact Hr|].
  rewrite E. reflexivity.
Qed.

End FrameRowFacts.

Section ValueColumnFacts.

Import Api.

Variable py_float : string -> option F64.float.

(** The value column of a metric, on the raw table.  Only the seven
    financial mnemonics get one.  It is [Value] when the table has that
    column; otherwise it is the first column, other than the three
    metadata columns, whose cell in the first row of the metric is a
    float or a string that reads as a float after comma stripping.  The
    first row is the row of a record of the table, and its cells are
    those of the frame: a key the record lacks is NaN, and so is a [null]
    of the record in a column that holds no string and, in some record,
    something other than [null]; both are floats and make their column
    the value column.  In a column that holds a string, a [null] stays
    [None] and is passed over. *)
Theorem value_column_choice (t : Table) (mnemonic : string)
    (first_row : record) (rest : list record) (c : string) :
  rows_of_mnemonic mnemonic t = first_row :: rest ->
  find_value_col py_float mnemonic (columns t) first_row = Some c ->
  let spells := fun s => py_float (Py.strip (Py.remove_char "," s)) in
  Py.mem mnemonic financial_mnemonics = true
  /\ (Py.mem "Value" (columns t) = true -> c = "Value")
  /\ (Py.mem "Value" (columns t) = false ->
      exists pre post,
        columns t = pre ++ c :: post
        /\ Py.mem c ["Mnemonic"; "Identifier"; "Period"] = false
        /\ match at_col first_row c with
           | CNum _ => True
           | CStr s => is_Some (spells s)
           | CNone => False
           end
        /\ Forall (fun c' =>
                     Py.mem c' ["Mnemonic"; "Identifier"; "Period"] = true
                     \/ match at_col first_row c' with
                        | CNum _ => False
                        | CStr s => spells s = None
                        | CNone => True
                        end) pre)
  /\ (exists r,
        r ∈ records t
        /\ forall col, col ∈ columns t ->
             match dict_get col r with
             | None => at_col first_row col = CNum F64.nan
             | Some CNone =>
                 ((forall r' s, r' ∈ records t ->
                     dict_get col r' <> Some (CStr s)) ->
                  (exists r', r' ∈ records t
                              /\ dict_get col r' <> Some CNone) ->
                  at_col first_row col = CNum F64.nan)
                 /\ ((exists r' s, r' ∈ records t
                                   /\ dict_get col r' = Some (CStr s)) ->
                     at_col first_row col = CNone)
             | Some v => at_col first_row col = v
             end).
Proof.
  intros Hrows Hcol spells.
  assert (Hfin : Py.mem mnemonic financial_mnemonics = true).
  { unfold find_value_col in Hcol.
    destruct (Py.mem mnemonic financial_mnemonics); [reflexivity|discriminate]. }
  split; [exact Hfin|]. split; [|split].
  - intros HV.
    rewrite (value_column_conventional py_float mnemonic _ first_row Hfin HV)
      in Hcol.
    congruence.
  - intros HV. unfold find_value_col in Hcol. rewrite Hfin, HV in Hcol.
    exact (scan_first_row_origin py_float first_row (columns t) c Hcol).
  - destruct (rows_of_mnemonic_origin mnemonic t first_row) as (r & Hr & ->).
    { rewrite Hrows. left. }
    exists r. split; [exact Hr|]. intros col Hc.
    rewrite (at_col_frame_row t r col Hc). unfold frame_cell.
    destruct (dict_get col r) as [[f|s|]|]; try reflexivity.
    split.
    + intros H1 H2. rewrite (float_column_numbers col _ H1 H2). reflexivity.
    + intros H. rewrite (float_column_string col _ H). reflexivity.
Qed.

End ValueColumnFacts.

Section ValueColumnCases.

Import Api.

(** Two revenue rows under the headers [A] and [B]: the first holds
    [null] and 5, the second 3 and 9. *)
Lemma value_column_choice_witness :
  let reply period a b :=
    {| Identifier := CStr "MSFT"; Mnemonic := CStr "IQ_TOTAL_REV";
       Headers := ["A"; "B"]; periodtype := CStr period;
       Rows := [[a; b]] |} in
  let t := parse_to_table
             [ reply "FY2023" CNone (CNum (F64.of_Z 5));
               reply "FY2024" (CNum (F64.of_Z 3)) (CNum (F64.of_Z 9)) ] in
  exists first_row rest,
    rows_of_mnemonic "IQ_TOTAL_REV" t = first_row :: rest
    /\ at_col first_row "A" = CNum F64.nan
    /\ find_value_col decimal_float "IQ_TOTAL_REV" (columns t) first_row
       = Some "A"
    /\ Py.mem "IQ_TOTAL_REV" financial_mnemonics = true.
Proof.
  intros reply t.
  destruct (rows_of_mnemonic "IQ_TOTAL_REV" t) as [|first_row rest] eqn:Hrows;
    [vm_compute in Hrows; discriminate|].
  assert (Hcol : find_value_col decimal_float "IQ_TOTAL_REV" (columns t)
                   first_row = Some "A").
  { vm_compute in Hrows. injection Hrows as <- _. vm_compute. reflexivity. }
  assert (Hcell : at_col first_row "A" = CNum F64.nan).
  { vm_compute in Hrows. injection Hrows as <- _. reflexivity. }
  exists first_row, rest. split; [reflexivity|]. split; [exact Hcell|].
  split; [exact Hcol|].
  exact (proj1 (value_column_choice decimal_float t "IQ_TOTAL_REV"
                  first_row rest "A" Hrows Hcol)).
Defined.

End ValueColumnCases.
